(** * boto3utils.s3: a shallow embedding and its verified properties

    The development follows [boto3utils/s3.py]: Python's string methods
    first, then the URI model ([urlparse]), the paginated lister ([find]),
    the inventory scanner ([latest_inventory]), the request signer
    ([get_presigned_url]) and the uploader ([upload]).

    Strings are Rocq [string]s (sequences of 8-bit characters), Python
    dictionaries that are only looked up and updated are [gmap]s, the
    header dictionary, whose iteration order is observable, is an
    insertion-ordered association list. Exceptions are values of [exn];
    generators are the list of what they yield together with how they
    end. *)

From Stdlib Require Import Ascii String Arith Lia Sorted Permutation.
From stdpp Require Import base option list gmap strings.

Set Default Proof Using "Type".

(** [simpl] unfolds an append whose first argument starts with a
    constructor. *)
#[local] Arguments String.append !s1 s2 : simpl nomatch.

(** ** Exceptions and results *)

Inductive exn : Type :=
  | InvalidS3Url (url : string)   (* Exception('Invalid S3 url %s' % url) *)
  | IndexError                    (* list index out of range *)
  | KeyError (k : string)         (* missing dictionary key *)
  | FormatError (v : string)      (* ValueError of datetime.strptime *)
  | TypeError                     (* a JSON value of the wrong shape *)
  | ClientError (k : string)      (* botocore error of get_object *)
  | DecodeError                   (* gzip, utf-8 or JSON decoding *)
  | IOError (path : string).      (* open() of a missing file *)

Inductive result (A : Type) : Type :=
  | Ok (a : A)
  | Raise (e : exn).
Arguments Ok {A} a.
Arguments Raise {A} e.

#[global] Instance exn_eq_dec : EqDecision exn.
Proof. solve_decision. Defined.

#[global] Instance result_eq_dec {A} `{EqDecision A} : EqDecision (result A).
Proof. solve_decision. Defined.

#[global] Instance result_ret : MRet result := fun A a => Ok a.
#[global] Instance result_bind : MBind result := fun A B k r =>
  match r with
  | Ok a => k a
  | Raise e => Raise e
  end.

Definition of_option {A} (o : option A) (e : exn) : result A :=
  match o with
  | Some a => Ok a
  | None => Raise e
  end.

(** ** Python string methods *)

Module Py.

(** [s[0:n]] *)
Definition slice_to (n : nat) (s : string) : string := String.substring 0 n s.

(** [s.startswith(p)] *)
Definition startswith (s p : string) : bool := String.prefix p s.

(** [s.endswith(suf)] *)
Definition endswith (s suf : string) : bool :=
  let n := String.length s in
  let m := String.length suf in
  (m <=? n) && String.eqb (String.substring (n - m) m s) suf.

(** [bool(s)]: a string is true when it is not empty. *)
Definition truthy (s : string) : bool :=
  match s with
  | EmptyString => false
  | String _ _ => true
  end.

(** [s.replace(old, new)] scans from the left and never revisits what it
    has replaced: after a match the next [String.length old - 1]
    characters are skipped. With an empty [old], [new] is put before
    every character and at the end. *)
Fixpoint replace_from (old new : string) (skip : nat) (s : string) : string :=
  match s with
  | EmptyString => EmptyString
  | String c s' =>
      match skip with
      | S k => replace_from old new k s'
      | O =>
          if String.prefix old s
          then new +:+ replace_from old new (String.length old - 1) s'
          else String c (replace_from old new 0 s')
      end
  end.

Fixpoint interleave (new : string) (s : string) : string :=
  match s with
  | EmptyString => EmptyString
  | String c s' => String c (new +:+ interleave new s')
  end.

Definition replace (old new s : string) : string :=
  match old with
  | EmptyString => new +:+ interleave new s
  | String _ _ => replace_from old new 0 s
  end.

(** [s.split(sep)] for a non-empty [sep] (Python raises ValueError on an
    empty one; every call site of the module passes a one-character
    literal). The empty string splits into one empty piece. *)
Definition cons_head (c : ascii) (l : list string) : list string :=
  match l with
  | [] => [String c EmptyString]
  | h :: t => String c h :: t
  end.

Fixpoint split_from (sep : string) (skip : nat) (s : string) : list string :=
  match s with
  | EmptyString => [EmptyString]
  | String c s' =>
      match skip with
      | S k => split_from sep k s'
      | O =>
          if String.prefix sep s
          then EmptyString :: split_from sep (String.length sep - 1) s'
          else cons_head c (split_from sep 0 s')
      end
  end.

Definition split (sep s : string) : list string := split_from sep 0 s.

(** [sep.join(l)] *)
Definition join (sep : string) (l : list string) : string := String.concat sep l.

(** [s.strip()]: among the characters of code below 256 the whitespace
    of [str.isspace] is 9..13, 28..32, 133 and 160. *)
Definition isspace (c : ascii) : bool :=
  let n := nat_of_ascii c in
  ((9 <=? n) && (n <=? 13)) || ((28 <=? n) && (n <=? 32)) || (n =? 133) || (n =? 160).

Fixpoint lstrip (s : string) : string :=
  match s with
  | EmptyString => EmptyString
  | String c s' => if isspace c then lstrip s' else s
  end.

Fixpoint string_rev (s : string) : string :=
  match s with
  | EmptyString => EmptyString
  | String c s' => string_rev s' +:+ String c EmptyString
  end.

Definition rstrip (s : string) : string := string_rev (lstrip (string_rev s)).

Definition strip (s : string) : string := rstrip (lstrip s).

(** [old in s]: [old] occurs somewhere in [s]. *)
Fixpoint occurs (old s : string) : bool :=
  String.prefix old s
  || match s with
     | EmptyString => false
     | String _ s' => occurs old s'
     end.

(** [c in s] for a character [c]. *)
Fixpoint has_char (c : ascii) (s : string) : bool :=
  match s with
  | EmptyString => false
  | String a s' => Ascii.eqb a c || has_char c s'
  end.

(** The one-character strings of the double quote and of the newline. *)
Definition dquote : string := String "034" EmptyString.
Definition newline : string := String "010" EmptyString.

(** [os.path.join(a, b)] on POSIX. *)
Definition path_join (a b : string) : string :=
  if startswith b "/" then b
  else if negb (truthy a) || endswith a "/" then a +:+ b
  else a +:+ "/" +:+ b.

End Py.

(** ** URI model *)

Record locator : Type := Locator {
  bucket : string;
  key : string;
  filename : string
}.

#[global] Instance locator_eq_dec : EqDecision locator.
Proof. solve_decision. Defined.

(** [urlparse(url)], lines 22-36. [url_obj[0]] on an empty list is an
    IndexError, and it is evaluated before the other two entries. *)
Definition urlparse (url : string) : result locator :=
  if negb (String.eqb (Py.slice_to 5 url) "s3://") then Raise (InvalidS3Url url)
  else
    let url_obj := Py.split "/" (Py.replace "s3://" "" url) in
    let url_obj := List.filter Py.truthy url_obj in
    match url_obj with
    | [] => Raise IndexError
    | b :: rest =>
        Ok {| bucket := b;
              key := Py.join "/" rest;
              filename := if 1 <? length url_obj then List.last url_obj "" else "" |}
    end.

(** ['s3://%s/%s' % (b, k)], the formatting of lines 151, 158, 166 and
    185. *)
Definition s3_uri (b k : string) : string := "s3://" +:+ b +:+ "/" +:+ k.

(** [s3_to_https(url, region)], lines 39-42; the default region is read
    from the environment when the module is loaded. *)
Definition s3_to_https (url region : string) : result string :=
  parts ← urlparse url;
  Ok ("https://" +:+ bucket parts +:+ ".s3." +:+ region +:+ ".amazonaws.com/" +:+ key parts).

(** ** Generators

    A generator is observed as the list of what it yields and the way it
    ends: by returning, or by raising after the last yield. *)

Inductive outcome : Type :=
  | Done
  | Raised (e : exn).

#[global] Instance outcome_eq_dec : EqDecision outcome.
Proof. solve_decision. Defined.

Definition gen (A : Type) : Type := (list A * outcome)%type.

(** What [g1] yields, then what [g2] yields if [g1] returned. *)
Definition gen_seq {A} (g1 g2 : gen A) : gen A :=
  match g1 with
  | (ys, Done) => (ys ++ g2.1, g2.2)
  | (ys, Raised e) => (ys, Raised e)
  end.

(** ** Paginated lister *)

(** The keyword arguments and the response of [s3.list_objects_v2]. Of
    each listed object only its ['Key'] is read. *)
Record list_request : Type := ListRequest {
  Bucket : string;
  Prefix : option string;
  ContinuationToken : option string
}.

Record list_response : Type := ListResponse {
  Contents : option (list string);
  NextContinuationToken : option string
}.

Definition with_token (t : string) (kwargs : list_request) : list_request :=
  {| Bucket := Bucket kwargs; Prefix := Prefix kwargs; ContinuationToken := Some t |}.

(** The client-side filter of line 131. *)
Definition key_matches (parts_key suffix key : string) : bool :=
  Py.startswith key parts_key && Py.endswith key suffix.

Section Lister.

(** The listing collaborator: a response, or a transport error. *)
Variable list_objects_v2 : list_request -> result list_response.

(** The [while True] loop of [find], lines 120-140. [fuel] bounds the
    number of pages requested; [None] means the bound was reached. *)
Fixpoint find_pages (fuel : nat) (parts_key suffix : string) (kwargs : list_request)
  : option (gen string) :=
  match fuel with
  | O => None
  | S fuel' =>
      match list_objects_v2 kwargs with
      | Raise e => Some ([], Raised e)
      | Ok resp =>
          match Contents resp with
          | None => Some ([], Done)
          | Some contents =>
              let ys := List.filter (key_matches parts_key suffix) contents in
              match NextContinuationToken resp with
              | None => Some (ys, Done)
              | Some t =>
                  match find_pages fuel' parts_key suffix (with_token t kwargs) with
                  | None => None
                  | Some (rest, o) => Some (ys ++ rest, o)
                  end
              end
          end
      end
  end.

(** [find(url, suffix)], lines 106-140. *)
Definition find (fuel : nat) (url suffix : string) : option (gen string) :=
  match urlparse url with
  | Raise e => Some ([], Raised e)
  | Ok parts =>
      let kwargs :=
        {| Bucket := bucket parts; Prefix := Some (key parts);
           ContinuationToken := None |} in
      find_pages fuel (key parts) suffix kwargs
  end.

(** The collaborator answers the request [kwargs] with the page [page]
    and, following the continuation tokens it hands out, with the pages
    [more] in this order; the last page carries no token. *)
Fixpoint serves (kwargs : list_request) (page : list string)
    (more : list (list string)) : Prop :=
  match more with
  | [] => list_objects_v2 kwargs = Ok (ListResponse (Some page) None)
  | page' :: more' =>
      exists t,
        list_objects_v2 kwargs = Ok (ListResponse (Some page) (Some t))
        /\ serves (with_token t kwargs) page' more'
  end.

End Lister.


(** ** Dates *)

Record date : Type := Date { year : nat; month : nat; day : nat }.

(** The order of dates, year first. *)
Definition date_lt (a b : date) : Prop :=
  year a < year b
  \/ (year a = year b
      /\ (month a < month b \/ (month a = month b /\ day a < day b))).

Definition date_ltb (a b : date) : bool :=
  (year a <? year b)
  || ((year a =? year b)
      && ((month a <? month b) || ((month a =? month b) && (day a <? day b)))).

Definition is_leap (y : nat) : bool :=
  (y mod 4 =? 0) && (negb (y mod 100 =? 0) || (y mod 400 =? 0)).

Definition days_in_month (y m : nat) : nat :=
  match m with
  | 2 => if is_leap y then 29 else 28
  | 4 | 6 | 9 | 11 => 30
  | _ => 31
  end.

(** [d - timedelta(1)] *)
Definition yesterday (d : date) : date :=
  if 1 <? day d then Date (year d) (month d) (day d - 1)
  else if 1 <? month d then Date (year d) (month d - 1) (days_in_month (year d) (month d - 1))
  else Date (year d - 1) 12 31.

(** Decimal digits at a fixed width, as [strftime] prints the fields of a
    clock reading (years 1000 to 9999). *)
Definition digit (n : nat) : ascii := ascii_of_nat (48 + n mod 10).

Definition pad2 (n : nat) : string :=
  String (digit (n / 10)) (String (digit n) EmptyString).

Definition pad4 (n : nat) : string :=
  String (digit (n / 1000)) (String (digit (n / 100)) (pad2 n)).

(** [d.strftime('%Y-%m-%d')] *)
Definition strftime_iso (d : date) : string :=
  pad4 (year d) +:+ "-" +:+ pad2 (month d) +:+ "-" +:+ pad2 (day d).

(** [d.strftime('%Y%m%d')] *)
Definition strftime_basic (d : date) : string :=
  pad4 (year d) +:+ pad2 (month d) +:+ pad2 (day d).

Record datetime : Type := DateTime {
  dt_date : date; hour : nat; minute : nat; second : nat
}.

(** [t.strftime('%Y%m%dT%H%M%SZ')] *)
Definition strftime_amz (t : datetime) : string :=
  strftime_basic (dt_date t) +:+ "T" +:+ pad2 (hour t) +:+ pad2 (minute t)
  +:+ pad2 (second t) +:+ "Z".

(** ** Inventory scanner *)

(** [os.path.splitext(p)[1]]: the extension starts at the last dot of the
    last path component, leading dots of the component not counted. *)
Fixpoint drop_dots (s : string) : string :=
  match s with
  | String "." s' => drop_dots s'
  | _ => s
  end.

Fixpoint from_last_dot (s : string) : option string :=
  match s with
  | EmptyString => None
  | String c s' =>
      match from_last_dot s' with
      | Some e => Some e
      | None => if Ascii.eqb c "." then Some s else None
      end
  end.

Definition splitext_ext (p : string) : string :=
  default "" (from_last_dot (drop_dots (List.last (Py.split "/" p) ""))).

(** The manifest as [json.loads] returns it: ['fileSchema'] and ['files']
    may be missing, and so may the ['key'] of an entry of ['files']. *)
Record manifest : Type := Manifest {
  fileSchema : option string;
  files : option (list (option string))
}.

(** The keyword parameters of [latest_inventory]. *)
Record scan_options : Type := ScanOptions {
  prefix : option string;
  suffix : option string;
  start_date : option date;
  end_date : option date;
  datetime_key : string
}.

(** What one line of a data file does to the scan. *)
Inductive step (A : Type) : Type :=
  | Skip
  | Yield (a : A)
  | Fail (e : exn).
Arguments Skip {A}.
Arguments Yield {A} a.
Arguments Fail {A} e.

(** [{keys[i]: v for i, v in enumerate(fields)}], line 172: [keys[i]] is an
    IndexError when the line has more fields than the schema has columns;
    a column name that occurs twice keeps its last value. *)
Fixpoint build_info (keys fields : list string) (info : gmap string string)
  : result (gmap string string) :=
  match fields with
  | [] => Ok info
  | v :: fields' =>
      match keys with
      | [] => Raise IndexError
      | k :: keys' => build_info keys' fields' (<[k := v]> info)
      end
  end.

Definition record_of_line (keys : list string) (line : string)
  : result (gmap string string) :=
  build_info keys (Py.split "," (Py.replace Py.dquote "" line)) ∅.

(** [(start_date is not None and dt < start_date) or
     (end_date is not None and dt > end_date)], line 177. *)
Definition outside_window (opts : scan_options) (dt : date) : bool :=
  match start_date opts with Some s => date_ltb dt s | None => false end
  || match end_date opts with Some e => date_ltb e dt | None => false end.

(** [[str(key).strip() for key in manifest['fileSchema'].split(',')]],
    line 161. *)
Definition schema_keys (schema : string) : list string :=
  map Py.strip (Py.split "," schema).

(** The prefix of the keys of the day [dt] under the key of [parts]. *)
Definition dated_prefix (parts : locator) (dt : date) : string :=
  if Py.truthy (key parts) then key parts +:+ "/" +:+ strftime_iso dt
  else strftime_iso dt.

Section Inventory.

Variable list_objects_v2 : list_request -> result list_response.
(** [s3.get_object(Bucket, Key)['Body'].read()] *)
Variable get_object : string -> string -> result string.
(** [GzipFile(None, 'rb', fileobj=BytesIO(body)).read()] *)
Variable gunzip : string -> result string.
(** [body.decode('utf-8')] *)
Variable decode_utf8 : string -> result string.
(** [json.loads] of a manifest *)
Variable json_loads : string -> result manifest.
(** [datetime.strptime(v, "%Y-%m-%dT%H:%M:%S.%fZ").date()]; [None] is the
    ValueError of a value that does not match the format. *)
Variable strptime_date : string -> option date.

(** [read(url)], lines 90-97. *)
Definition read (url : string) : result string :=
  parts ← urlparse url;
  body ← get_object (bucket parts) (key parts);
  body ← (if String.eqb (splitext_ext (key parts)) ".gz" then gunzip body else Ok body);
  decode_utf8 body.

(** [read_json(url)], lines 100-102. *)
Definition read_json (url : string) : result manifest :=
  body ← read url;
  json_loads body.

(** The body of the inner loop, lines 172-186, for one line. *)
Definition scan_line (keys : list string) (opts : scan_options) (line : string)
  : step (gmap string string) :=
  match record_of_line keys line with
  | Raise e => Fail e
  | Ok info =>
      match info !! "Key" with
      | None => Skip
      | Some k =>
          match info !! datetime_key opts with
          | None => Fail (KeyError (datetime_key opts))
          | Some v =>
              match strptime_date v with
              | None => Fail (FormatError v)
              | Some dt =>
                  if outside_window opts dt then Skip
                  else if match prefix opts with
                          | Some p =>
                              negb (String.eqb (Py.slice_to (String.length p) k) p)
                          | None => false
                          end
                  then Skip
                  else if match suffix opts with
                          | Some s => Py.endswith k s
                          | None => true
                          end
                  then
                    if bool_decide ("Bucket" ∈ keys) && bool_decide ("Key" ∈ keys)
                    then
                      match info !! "Bucket" with
                      | None => Fail (KeyError "Bucket")
                      | Some b =>
                          Yield (<["url" := s3_uri b k]> info)
                      end
                    else Yield info
                  else Skip
              end
          end
      end
  end.

(** The inner loop over the lines of one data file. *)
Fixpoint scan_lines (keys : list string) (opts : scan_options) (lines : list string)
  : gen (gmap string string) :=
  match lines with
  | [] => ([], Done)
  | line :: lines' =>
      match scan_line keys opts line with
      | Skip => scan_lines keys opts lines'
      | Yield info =>
          let rest := scan_lines keys opts lines' in (info :: rest.1, rest.2)
      | Fail e => ([], Raised e)
      end
  end.

(** The outer loop over [manifest.get('files', [])], lines 165-186. *)
Fixpoint scan_files (bkt : string) (keys : list string) (opts : scan_options)
    (fs : list (option string)) : gen (gmap string string) :=
  match fs with
  | [] => ([], Done)
  | f :: fs' =>
      match (k ← of_option f (KeyError "key");
             read (s3_uri bkt k)) with
      | Raise e => ([], Raised e)
      | Ok body =>
          gen_seq (scan_lines keys opts (Py.split Py.newline body))
                  (scan_files bkt keys opts fs')
      end
  end.

(** Lines 158-186: the scan once the manifest key is known. *)
Definition scan_manifest (bkt manifest_key : string) (opts : scan_options)
  : gen (gmap string string) :=
  match read_json (s3_uri bkt manifest_key) with
  | Raise e => ([], Raised e)
  | Ok m =>
      match fileSchema m with
      | None => ([], Raised (KeyError "fileSchema"))
      | Some schema =>
          let keys := schema_keys schema in
          scan_files bkt keys opts (default [] (files m))
      end
  end.

(** The URL listed for the date [dt], lines 150-151. *)
Definition manifest_dir (parts : locator) (dt : date) : string :=
  s3_uri (bucket parts) (Py.path_join (key parts) (strftime_iso dt)).

(** Lines 148-155: the first date whose listing has exactly one key that
    ends in manifest.json. The outer [option] is the fuel of [find]. *)
Fixpoint locate_manifest (fuel : nat) (parts : locator) (dates : list date)
  : option (result (option string)) :=
  match dates with
  | [] => Some (Ok None)
  | dt :: dates' =>
      match find list_objects_v2 fuel (manifest_dir parts dt) "manifest.json" with
      | None => None
      | Some (_, Raised e) => Some (Raise e)
      | Some (keys, Done) =>
          match keys with
          | [k] => Some (Ok (Some k))
          | _ => locate_manifest fuel parts dates'
          end
      end
  end.

(** [latest_inventory(url, prefix, suffix, start_date, end_date,
    datetime_key)], lines 143-186, called on the day [today]. The
    logging calls and the counter that feeds them are left out. *)
Definition latest_inventory (fuel : nat) (today : date) (url : string)
    (opts : scan_options) : option (gen (gmap string string)) :=
  match urlparse url with
  | Raise e => Some ([], Raised e)
  | Ok parts =>
      match locate_manifest fuel parts [today; yesterday today] with
      | None => None
      | Some (Raise e) => Some ([], Raised e)
      | Some (Ok manifest_key) =>
          match manifest_key with
          | Some k =>
              if Py.truthy k then Some (scan_manifest (bucket parts) k opts)
              else Some ([], Done)
          | None => Some ([], Done)
          end
      end
  end.

End Inventory.

(** ** Request signer *)

(** The header dictionary keeps insertion order: assigning to a present
    key replaces its value in place, a new key goes to the end. *)
Fixpoint dict_set (k v : string) (d : list (string * string)) : list (string * string) :=
  match d with
  | [] => [(k, v)]
  | (k', v') :: d' =>
      if String.eqb k k' then (k, v) :: d' else (k', v') :: dict_set k v d'
  end.

Fixpoint dict_get (k : string) (d : list (string * string)) : option string :=
  match d with
  | [] => None
  | (k', v') :: d' => if String.eqb k k' then Some v' else dict_get k d'
  end.

Definition dict_keys (d : list (string * string)) : list string := map fst d.

(** [sorted(l)] on strings: ascending by character code. *)
Fixpoint insert_sorted (x : string) (l : list string) : list string :=
  match l with
  | [] => [x]
  | y :: l' => if String.leb x y then x :: l else y :: insert_sorted x l'
  end.

Definition sorted (l : list string) : list string := foldr insert_sorted [] l.

(** [digest.hex()]: two lowercase hexadecimal digits per byte. *)
Definition hex_digit (n : nat) : ascii :=
  if n <? 10 then ascii_of_nat (48 + n) else ascii_of_nat (87 + n).

Fixpoint hexlify (s : string) : string :=
  match s with
  | EmptyString => EmptyString
  | String c s' =>
      let n := nat_of_ascii c in
      String (hex_digit (n / 16)) (String (hex_digit (n mod 16)) (hexlify s'))
  end.

(** The parameters of [get_presigned_url] after [url]. *)
Record presign_args : Type := PresignArgs {
  aws_region : option string;
  rtype : string;
  public : bool;
  requester_pays : bool;
  content_type : option string
}.

(** [os.environ.get(k, default)] *)
Definition environ_get (env : gmap string string) (k : string) (dflt : option string)
  : option string :=
  match env !! k with
  | Some v => Some v
  | None => dflt
  end.

Definition payload_hash : string := "UNSIGNED-PAYLOAD".
Definition algorithm : string := "AWS4-HMAC-SHA256".
Definition service : string := "s3".

(** Line 207. *)
Definition host_of (parts : locator) : string :=
  bucket parts +:+ "." +:+ service +:+ ".amazonaws.com".

(** Lines 192-193: each key falls back on its own default variable. *)
Definition resolve_access_key (env : gmap string string) : option string :=
  environ_get env "AWS_BUCKET_ACCESS_KEY_ID" (environ_get env "AWS_ACCESS_KEY_ID" None).

Definition resolve_secret_key (env : gmap string string) : option string :=
  environ_get env "AWS_BUCKET_SECRET_ACCESS_KEY"
    (environ_get env "AWS_SECRET_ACCESS_KEY" None).

(** Lines 194-196. *)
Definition resolve_region (env : gmap string string) (args : presign_args) : string :=
  match aws_region args with
  | Some r => r
  | None =>
      default "" (environ_get env "AWS_BUCKET_REGION"
                    (environ_get env "AWS_REGION" (Some "eu-central-1")))
  end.

(** Line 242: the token is sent when it is a non-empty string and the
    variable AWS_BUCKET_ACCESS_KEY_ID is not set. *)
Definition session_token (env : gmap string string) : option string :=
  match environ_get env "AWS_SESSION_TOKEN" None with
  | Some tok =>
      if Py.truthy tok && negb (bool_decide (is_Some (env !! "AWS_BUCKET_ACCESS_KEY_ID")))
      then Some tok else None
  | None => None
  end.

(** Lines 232-243: the headers that are signed. *)
Definition signing_headers (env : gmap string string) (host amzdate : string)
    (args : presign_args) : list (string * string) :=
  let headers :=
    [("host", host); ("x-amz-content-sha256", payload_hash); ("x-amz-date", amzdate)] in
  let headers :=
    if requester_pays args then dict_set "x-amz-request-payer" "requester" headers
    else headers in
  let headers :=
    if public args then dict_set "x-amz-acl" "public-read" headers else headers in
  match session_token env with
  | Some tok => dict_set "x-amz-security-token" tok headers
  | None => headers
  end.

(** Line 244. *)
Definition canonical_headers (headers : list (string * string)) : string :=
  Py.join Py.newline
    (map (fun k => k +:+ ":" +:+ default "" (dict_get k headers))
         (sorted (dict_keys headers)))
  +:+ Py.newline.

(** Line 245. *)
Definition signed_headers (headers : list (string * string)) : string :=
  Py.join ";" (sorted (dict_keys headers)).

(** Lines 247-249, with [canonical_querystring] the empty string of line
    208. *)
Definition canonical_request (method canonical_uri : string)
    (headers : list (string * string)) : string :=
  method +:+ Py.newline +:+ canonical_uri +:+ Py.newline +:+ "" +:+ Py.newline
  +:+ canonical_headers headers +:+ Py.newline +:+ signed_headers headers
  +:+ Py.newline +:+ payload_hash.

Section Signer.

(** [hashlib.sha256(m).digest()] and [hmac.new(k, m, hashlib.sha256).digest()];
    encoding to utf-8 is the identity on 8-bit strings. *)
Variable sha256 : string -> string.
Variable hmac_sha256 : string -> string -> string.

(** Lines 212-220. *)
Definition sign (k msg : string) : string := hmac_sha256 k msg.

Definition getSignatureKey (k dateStamp regionName serviceName : string) : string :=
  let kDate := sign ("AWS4" +:+ k) dateStamp in
  let kRegion := sign kDate regionName in
  let kService := sign kRegion serviceName in
  let kSigning := sign kService "aws4_request" in
  kSigning.

(** Line 251. *)
Definition credential_scope (datestamp region : string) : string :=
  datestamp +:+ "/" +:+ region +:+ "/" +:+ service +:+ "/" +:+ "aws4_request".

(** Line 252. *)
Definition string_to_sign (amzdate scope creq : string) : string :=
  algorithm +:+ Py.newline +:+ amzdate +:+ Py.newline +:+ scope +:+ Py.newline
  +:+ hexlify (sha256 creq).

(** Lines 253-256. *)
Definition authorization (access_key secret_key datestamp amzdate region : string)
    (signed creq : string) : string :=
  let scope := credential_scope datestamp region in
  let signing_key := getSignatureKey secret_key datestamp region service in
  let signature := hexlify (hmac_sha256 signing_key (string_to_sign amzdate scope creq)) in
  algorithm +:+ " " +:+ "Credential=" +:+ access_key +:+ "/" +:+ scope +:+ ", "
  +:+ "SignedHeaders=" +:+ signed +:+ ", " +:+ "Signature=" +:+ signature.

(** [get_presigned_url(url, aws_region, rtype, public, requester_pays,
    content_type)], lines 189-262, with the environment [env] and the
    clock reading [now] of [datetime.utcnow()]. The second component of
    the result is [None] for the unsigned answer. *)
Definition get_presigned_url (env : gmap string string) (now : datetime)
    (url : string) (args : presign_args)
  : result (string * option (list (string * string))) :=
  let region := resolve_region env args in
  match resolve_access_key env, resolve_secret_key env with
  | Some access_key, Some secret_key =>
      parts ← urlparse url;
      let host := host_of parts in
      let amzdate := strftime_amz now in
      let datestamp := strftime_basic (dt_date now) in
      let canonical_uri := "/" +:+ key parts in
      let headers := signing_headers env host amzdate args in
      let creq := canonical_request (rtype args) canonical_uri headers in
      let authorization_header :=
        authorization access_key secret_key datestamp amzdate region
          (signed_headers headers) creq in
      let request_url := "https://" +:+ host +:+ canonical_uri in
      let headers := dict_set "Authorization" authorization_header headers in
      let headers :=
        match content_type args with
        | Some ct => dict_set "content-type" ct headers
        | None => headers
        end in
      Ok (request_url, Some headers)
  | _, _ => Ok (url, None)
  end.

End Signer.

(** The Authorization header of a result, if it has one. *)
Definition authorization_of (r : result (string * option (list (string * string))))
  : option string :=
  match r with
  | Ok (_, Some headers) => dict_get "Authorization" headers
  | _ => None
  end.

(** ** Uploader *)

(** A call received by [s3.upload_fileobj]: the data, the bucket, the key
    and the contents of [ExtraArgs] at the time of the call. *)
Record put_call : Type := PutCall {
  put_data : string;
  put_bucket : string;
  put_key : string;
  put_extra : gmap string string
}.

(** Dictionaries are objects: [heap] maps a reference to the current
    contents of the dictionary it denotes, so that two holders of one
    reference see each other's updates. [uploads] is what the transport
    has been called with, oldest first, whether the call returned or
    raised. *)
Record world : Type := World {
  heap : gmap nat (gmap string string);
  uploads : list put_call
}.

(** The reference of the dictionary made once for the default of
    [extra={}], when [def upload] is executed. *)
Definition default_extra : nat := 0.

Definition initial_world : world := World {[ default_extra := ∅ ]} [].

Definition deref (w : world) (r : nat) : gmap string string :=
  default ∅ (heap w !! r).

(** [d[k] = v] on the dictionary behind the reference [r]. *)
Definition setitem (w : world) (r : nat) (k v : string) : world :=
  World (<[r := <[k := v]> (deref w r)]> (heap w)) (uploads w).

Section Uploader.

(** [open(filename, 'rb')] and reading it: the bytes, or an error. *)
Variable open_rb : string -> result string.

(** [s3.upload_fileobj(data, Bucket, Key, ExtraArgs=extra)]: given the
    calls it has received before, it returns or raises. *)
Variable upload_fileobj : list put_call -> put_call -> result unit.

(** [upload(filename, uri, public, extra)], lines 57-66. [extra] is
    [None] when the argument is omitted. The call of the transport is
    recorded when it is made; an error of the transport leaves the
    [with] block and reaches the caller. *)
Definition upload (w : world) (fname uri : string) (is_public : bool)
    (extra : option nat) : world * result string :=
  match urlparse uri with
  | Raise e => (w, Raise e)
  | Ok s3_uri =>
      let uri_out := "s3://" +:+ Py.path_join (bucket s3_uri) (key s3_uri) in
      let r := default default_extra extra in
      let w := if is_public then setitem w r "ACL" "public-read" else w in
      match open_rb fname with
      | Raise e => (w, Raise e)
      | Ok data =>
          let call := PutCall data (bucket s3_uri) (key s3_uri) (deref w r) in
          let w' := World (heap w) (uploads w ++ [call]) in
          match upload_fileobj (uploads w) call with
          | Raise e => (w', Raise e)
          | Ok _ => (w', Ok uri_out)
          end
      end
  end.

(** What the program does between two calls of interest: it calls
    [upload], or it assigns to an entry of a dictionary it holds. *)
Inductive action : Type :=
  | CallUpload (fname uri : string) (is_public : bool) (extra : option nat)
  | CallerSets (r : nat) (k v : string).

Definition perform (w : world) (a : action) : world :=
  match a with
  | CallUpload fname uri is_public extra => (upload w fname uri is_public extra).1
  | CallerSets r k v => setitem w r k v
  end.

Definition run (w : world) (actions : list action) : world := foldl perform w actions.

End Uploader.

(** The dictionary behind [r] has ACL = public-read. *)
Definition acl_public (w : world) (r : nat) : Prop :=
  deref w r !! "ACL" = Some "public-read".

(** The default dictionary of [upload] is reachable through [upload]
    only: the program holds no reference to it. *)
Definition caller_owned (a : action) : Prop :=
  match a with
  | CallUpload _ _ _ _ => True
  | CallerSets r _ _ => r <> default_extra
  end.

(** ** Existence check *)

(** What [s3.head_object] does: it returns, it raises a [ClientError]
    whose [response['Error']['Code']] is [code], or it raises something
    else. *)
Inductive head_outcome : Type :=
  | HeadFound
  | HeadClientError (code : string)
  | HeadRaises (e : exn).

Section Exists.

Variable head_object : string -> string -> head_outcome.

(** [exists(url)], lines 45-54. *)
Definition exists_ (url : string) : result bool :=
  parts ← urlparse url;
  match head_object (bucket parts) (key parts) with
  | HeadFound => Ok true
  | HeadClientError code =>
      if negb (String.eqb code "404") then Raise (ClientError code) else Ok false
  | HeadRaises e => Raise e
  end.

End Exists.

(** ** Downloader *)

(** The calls [download] makes on the file system and on the transport,
    in the order it makes them. *)
Inductive fs_event : Type :=
  | Makedirs (path : string)
  | OpenWrite (path : string)
  | DownloadFileobj (bkt k path : string).

#[global] Instance fs_event_eq_dec : EqDecision fs_event.
Proof. solve_decision. Defined.

Section Download.

(** [makedirs(path, exist_ok=True)], [open(fout, 'wb')] and
    [s3.download_fileobj(Bucket, Key, Fileobj)] into the file opened at a
    path: each returns or raises. *)
Variable makedirs : string -> result unit.
Variable open_wb : string -> result unit.
Variable download_fileobj : string -> string -> string -> result unit.

(** [download(uri, path)], lines 69-87: the calls made and the result. *)
Definition download (uri path : string) : list fs_event * result string :=
  match urlparse uri with
  | Raise e => ([], Raise e)
  | Ok s3_uri =>
      let fout := Py.path_join path (filename s3_uri) in
      let made := if negb (String.eqb path "") then [Makedirs path] else [] in
      match (if negb (String.eqb path "") then makedirs path else Ok tt) with
      | Raise e => (made, Raise e)
      | Ok _ =>
          match open_wb fout with
          | Raise e => (made ++ [OpenWrite fout], Raise e)
          | Ok _ =>
              let calls :=
                made ++ [OpenWrite fout;
                         DownloadFileobj (bucket s3_uri) (key s3_uri) fout] in
              match download_fileobj (bucket s3_uri) (key s3_uri) fout with
              | Raise e => (calls, Raise e)
              | Ok _ => (calls, Ok fout)
              end
          end
      end
  end.

End Download.

(** ** Auxiliary notions *)

(** The fields of a line, as line 172 splits it. *)
Definition line_fields (line : string) : list string :=
  Py.split "," (Py.replace Py.dquote "" line).

Definition is_slash (c : ascii) : bool := Ascii.eqb c "/".
Definition is_dot (c : ascii) : bool := Ascii.eqb c ".".

(** How many times [c] occurs in [s]. *)
Fixpoint count_char (c : ascii) (s : string) : nat :=
  match s with
  | EmptyString => 0
  | String a s' => (if Ascii.eqb a c then 1 else 0) + count_char c s'
  end.

Section ListerAnswers.

Variable list_objects_v2 : list_request -> result list_response.

(** The collaborator answers [kwargs] with the pages [pages], each with
    a continuation token, and the request that carries the last token
    (or [kwargs] itself when there is no page) with [final]. *)
Fixpoint answers (kwargs : list_request) (pages : list (list string))
    (final : result list_response) : Prop :=
  match pages with
  | [] => list_objects_v2 kwargs = final
  | page :: pages' =>
      exists t,
        list_objects_v2 kwargs = Ok (ListResponse (Some page) (Some t))
        /\ answers (with_token t kwargs) pages' final
  end.

End ListerAnswers.

(** ** The parse as the specification words it

    Split what follows the scheme on the slash, drop the empty pieces,
    and read the locator off the pieces. *)

Definition locator_of_pieces (segs : list string) : locator :=
  {| bucket := hd "" segs;
     key := Py.join "/" (tail segs);
     filename := if 1 <? length segs then List.last segs "" else "" |}.

Definition urlparse_by_remainder (url : string) : result locator :=
  if Py.startswith url "s3://"
  then Ok (locator_of_pieces
             (List.filter Py.truthy
                (Py.split "/" (String.substring 5 (String.length url - 5) url))))
  else Raise (InvalidS3Url url).

(** ** The canonical request as the specification words it *)

(** Percent-encoding of a key: letters, digits, hyphen, underscore, dot
    and tilde stand for themselves, and so does the slash between the
    pieces of a key; any other character becomes a percent sign and two
    uppercase hexadecimal digits. *)
Definition unreserved (c : ascii) : bool :=
  let n := nat_of_ascii c in
  ((48 <=? n) && (n <=? 57)) || ((65 <=? n) && (n <=? 90)) || ((97 <=? n) && (n <=? 122))
  || (n =? 45) || (n =? 95) || (n =? 46) || (n =? 126).

Definition upper_hex_digit (n : nat) : ascii :=
  if n <? 10 then ascii_of_nat (48 + n) else ascii_of_nat (55 + n).

Fixpoint uri_encode (s : string) : string :=
  match s with
  | EmptyString => EmptyString
  | String c s' =>
      if unreserved c || Ascii.eqb c "/" then String c (uri_encode s')
      else
        let n := nat_of_ascii c in
        String "%" (String (upper_hex_digit (n / 16))
                      (String (upper_hex_digit (n mod 16)) (uri_encode s')))
  end.

Fixpoint string_forallb (f : ascii -> bool) (s : string) : bool :=
  match s with
  | EmptyString => true
  | String c s' => f c && string_forallb f s'
  end.

(** Each header as name:value and a newline. *)
Fixpoint header_lines (hs : list (string * string)) : string :=
  match hs with
  | [] => EmptyString
  | (name, value) :: hs' =>
      name +:+ ":" +:+ value +:+ Py.newline +:+ header_lines hs'
  end.

(** Method, path, empty query line, header lines, names of the signed
    headers, payload sentinel, for headers [hs] given in signing order. *)
Definition canonical_request_spec (method path : string)
    (hs : list (string * string)) : string :=
  method +:+ Py.newline +:+ path +:+ Py.newline +:+ Py.newline
  +:+ header_lines hs +:+ Py.newline
  +:+ Py.join ";" (map fst hs) +:+ Py.newline +:+ "UNSIGNED-PAYLOAD".

(** Headers in ascending order of their names. *)
Definition name_lt (a b : string * string) : Prop := String.ltb a.1 b.1 = true.

Definition name_le (a b : string) : Prop := String.leb a b = true.

(** The items of a dictionary in ascending order of their keys. *)
Definition sorted_items (h : list (string * string)) : list (string * string) :=
  map (fun k => (k, default "" (dict_get k h))) (sorted (dict_keys h)).

(** The credential slots of the specification: a slot yields both keys
    when both of its variables are set. *)
Definition slot_complete (env : gmap string string) (id_var secret_var : string) : bool :=
  bool_decide (is_Some (env !! id_var)) && bool_decide (is_Some (env !! secret_var)).

(** ** Test doubles *)

(** A listing collaborator with three pages of 1000, 1000 and 37 keys. *)
Definition mock_key (i : nat) : string := "logs/" +:+ pad4 i +:+ ".json".

Definition mock_page (start n : nat) : list string := map mock_key (seq start n).

Definition mock_list_objects_v2 (kwargs : list_request) : result list_response :=
  match ContinuationToken kwargs with
  | None => Ok (ListResponse (Some (mock_page 0 1000)) (Some "page-2"))
  | Some t =>
      if String.eqb t "page-2"
      then Ok (ListResponse (Some (mock_page 1000 1000)) (Some "page-3"))
      else if String.eqb t "page-3"
      then Ok (ListResponse (Some (mock_page 2000 37)) None)
      else Ok (ListResponse None None)
  end.

(** A strict reader of timestamps such as 2023-06-01T12:30:00.000000Z:
    27 characters, digits and separators at fixed places. *)
Fixpoint number_of (s : string) (acc : nat) : option nat :=
  match s with
  | EmptyString => Some acc
  | String c s' =>
      match Ascii.is_nat c with
      | Some d => number_of s' (10 * acc + d)
      | None => None
      end
  end.

Definition mock_strptime_date (v : string) : option date :=
  if (String.length v =? 27)
     && String.eqb (String.substring 4 1 v) "-"
     && String.eqb (String.substring 7 1 v) "-"
     && String.eqb (String.substring 10 1 v) "T"
     && String.eqb (String.substring 13 1 v) ":"
     && String.eqb (String.substring 16 1 v) ":"
     && String.eqb (String.substring 19 1 v) "."
     && String.eqb (String.substring 26 1 v) "Z"
  then
    y ← number_of (String.substring 0 4 v) 0;
    m ← number_of (String.substring 5 2 v) 0;
    d ← number_of (String.substring 8 2 v) 0;
    _ ← number_of (String.substring 11 2 v) 0;
    _ ← number_of (String.substring 14 2 v) 0;
    _ ← number_of (String.substring 17 2 v) 0;
    _ ← number_of (String.substring 20 3 v) 0;
    _ ← number_of (String.substring 23 3 v) 0;
    Some (Date y m d)
  else None.

(** An inventory bucket. Under inv/ the day 2023-06-02 has two manifests
    and the day 2023-06-01 has one; its data file has a record of January
    and a record of June. Under bad/ the data file has a record with a
    malformed date between two good ones. Under odd/ the schema puts the
    date before the key, and the first line has a malformed date and no
    key. *)
Definition mock_inventory_listing (kwargs : list_request) : result list_response :=
  match Prefix kwargs with
  | Some p =>
      if String.eqb p "inv/2023-06-02"
      then Ok (ListResponse
                 (Some ["inv/2023-06-02/a/manifest.json"; "inv/2023-06-02/b/manifest.json"])
                 None)
      else if String.eqb p "inv/2023-06-01"
      then Ok (ListResponse
                 (Some ["inv/2023-06-01/manifest.checksum"; "inv/2023-06-01/manifest.json"])
                 None)
      else if String.eqb p "bad/2023-06-02"
      then Ok (ListResponse (Some ["bad/2023-06-02/manifest.json"]) None)
      else if String.eqb p "odd/2023-06-02"
      then Ok (ListResponse (Some ["odd/2023-06-02/manifest.json"]) None)
      else Ok (ListResponse None None)
  | None => Ok (ListResponse None None)
  end.

Definition quoted (s : string) : string := Py.dquote +:+ s +:+ Py.dquote.

Definition csv_line (fields : list string) : string := Py.join "," (map quoted fields).

Definition mock_get_object (bkt k : string) : result string :=
  if String.eqb k "inv/2023-06-01/manifest.json" then Ok "manifest:inv"
  else if String.eqb k "bad/2023-06-02/manifest.json" then Ok "manifest:bad"
  else if String.eqb k "odd/2023-06-02/manifest.json" then Ok "manifest:odd"
  else if String.eqb k "data/inv.csv"
  then Ok (Py.join Py.newline
             [csv_line ["media"; "a/old.txt"; "2023-01-01T10:00:00.000000Z"];
              csv_line ["media"; "a/new.txt"; "2023-06-01T10:00:00.000000Z"]])
  else if String.eqb k "data/bad.csv"
  then Ok (Py.join Py.newline
             [csv_line ["media"; "a/one.txt"; "2023-06-01T10:00:00.000000Z"];
              csv_line ["media"; "a/two.txt"; "01/06/2023 10:00"];
              csv_line ["media"; "a/three.txt"; "2023-06-01T10:00:00.000000Z"]])
  else if String.eqb k "data/odd.csv"
  then Ok (Py.join Py.newline
             [csv_line ["01/06/2023 10:00"];
              csv_line ["2023-06-01T10:00:00.000000Z"; "a/three.txt"]])
  else Raise (ClientError k).

Definition mock_json_loads (body : string) : result manifest :=
  if String.eqb body "manifest:inv"
  then Ok (Manifest (Some "Bucket, Key, LastModifiedDate") (Some [Some "data/inv.csv"]))
  else if String.eqb body "manifest:bad"
  then Ok (Manifest (Some "Bucket, Key, LastModifiedDate") (Some [Some "data/bad.csv"]))
  else if String.eqb body "manifest:odd"
  then Ok (Manifest (Some "LastModifiedDate, Key") (Some [Some "data/odd.csv"]))
  else Raise DecodeError.

Definition mock_latest_inventory (url : string) (opts : scan_options)
  : option (gen (gmap string string)) :=
  latest_inventory mock_inventory_listing mock_get_object (fun b => Ok b) (fun b => Ok b)
    mock_json_loads mock_strptime_date 2 (Date 2023 6 2) url opts.

Definition no_filter : scan_options :=
  ScanOptions None None None None "LastModifiedDate".

(** Stand-ins for the hash functions that let the hashed text be read off
    the result: the digest of a message is the message, and so is its
    keyed digest. *)
Definition mock_sha256 (m : string) : string := m.
Definition mock_hmac_sha256 (k m : string) : string := m.

Definition mock_now : datetime := DateTime (Date 2023 6 2) 12 30 45.

Definition default_args : presign_args := PresignArgs None "GET" false false None.

Definition mock_env : gmap string string :=
  {[ "AWS_ACCESS_KEY_ID" := "AKIDEXAMPLE"; "AWS_SECRET_ACCESS_KEY" := "secret" ]}.

(** The access key in the override variable, the secret key in the
    default one. *)
Definition mixed_env : gmap string string :=
  {[ "AWS_BUCKET_ACCESS_KEY_ID" := "AKIDOVERRIDE"; "AWS_SECRET_ACCESS_KEY" := "secret" ]}.

(** A session token beside default credentials. *)
Definition session_env : gmap string string :=
  {[ "AWS_ACCESS_KEY_ID" := "AKIDEXAMPLE"; "AWS_SECRET_ACCESS_KEY" := "secret";
     "AWS_SESSION_TOKEN" := "token" ]}.

(** A file system with one file. *)
Definition mock_open_rb (fname : string) : result string :=
  if String.eqb fname "report.csv" then Ok "a,b,c" else Raise (IOError fname).

(** A transport that refuses every call for the bucket locked. *)
Definition mock_upload_fileobj (received : list put_call) (call : put_call)
  : result unit :=
  if String.eqb (put_bucket call) "locked" then Raise (ClientError "AccessDenied")
  else Ok tt.

(** A listing whose second response has a token and no Contents entry,
    and one whose second request fails. *)
Definition mock_gap_listing (kwargs : list_request) : result list_response :=
  match ContinuationToken kwargs with
  | None => Ok (ListResponse (Some ["logs/a.json"; "logs/b.txt"]) (Some "t1"))
  | Some t =>
      if String.eqb t "t1" then Ok (ListResponse None (Some "t2"))
      else Ok (ListResponse (Some ["logs/c.json"]) None)
  end.

Definition mock_failing_listing (kwargs : list_request) : result list_response :=
  match ContinuationToken kwargs with
  | None => Ok (ListResponse (Some ["logs/a.json"; "logs/b.txt"]) (Some "t1"))
  | Some _ => Raise (ClientError "SlowDown")
  end.

(** * Properties *)

(** Closed equations between values with decidable equality are settled
    by evaluation. *)
Lemma eq_by_decide {A} `{EqDecision A} (x y : A) : bool_decide (x = y) = true -> x = y.
Proof. apply bool_decide_eq_true_1. Qed.

Lemma neq_by_decide {A} `{EqDecision A} (x y : A) : bool_decide (x = y) = false -> x <> y.
Proof. apply bool_decide_eq_false_1. Qed.

Ltac by_evaluation :=
  first [apply eq_by_decide | apply neq_by_decide]; vm_compute; reflexivity.

(** ** The definitions on examples *)

Example urlparse_ex1 :
  urlparse "s3://bucket/a/b.txt" = Ok (Locator "bucket" "a/b.txt" "b.txt").
Proof. vm_compute. reflexivity. Qed.
Example urlparse_ex2 :
  urlparse "s3://bucket//a" = urlparse "s3://bucket/a".
Proof. vm_compute. reflexivity. Qed.
Example urlparse_ex3 : urlparse "s3://bucket" = Ok (Locator "bucket" "" "").
Proof. vm_compute. reflexivity. Qed.
Example urlparse_ex4 : urlparse "s3://" = Raise IndexError.
Proof. vm_compute. reflexivity. Qed.
Example urlparse_ex5 : urlparse "s3://a/s3://b" = Ok (Locator "a" "b" "b").
Proof. vm_compute. reflexivity. Qed.
Example urlparse_ex6 : urlparse "http://a/b" = Raise (InvalidS3Url "http://a/b").
Proof. vm_compute. reflexivity. Qed.
Example strip_ex : Py.strip "  Key " = "Key".
Proof. vm_compute. reflexivity. Qed.
Example split_ex : Py.split "," "a,,b," = ["a"; ""; "b"; ""].
Proof. vm_compute. reflexivity. Qed.
Example replace_ex : Py.replace "ab" "x" "aababb" = "axxb".
Proof. vm_compute. reflexivity. Qed.
Example endswith_ex : Py.endswith "a/manifest.json" "manifest.json" = true.
Proof. vm_compute. reflexivity. Qed.
Example path_join_ex :
  Py.path_join "inv" "2023-06-02" = "inv/2023-06-02"
  /\ Py.path_join "" "2023-06-02" = "2023-06-02"
  /\ Py.path_join "inv/" "x" = "inv/x"
  /\ Py.path_join "inv" "/x" = "/x".
Proof. vm_compute. auto. Qed.
Example splitext_ex :
  splitext_ext "data/part-0.csv.gz" = ".gz" /\ splitext_ext "data.d/part" = ""
  /\ splitext_ext "data/.gz" = "" /\ splitext_ext "data/..a.gz" = ".gz".
Proof. vm_compute. auto. Qed.
Example yesterday_ex :
  yesterday (Date 2024 3 1) = Date 2024 2 29 /\ yesterday (Date 2023 3 1) = Date 2023 2 28
  /\ yesterday (Date 2023 1 1) = Date 2022 12 31 /\ yesterday (Date 2023 6 2) = Date 2023 6 1.
Proof. vm_compute. auto. Qed.
Example strftime_ex :
  strftime_iso (Date 2023 6 2) = "2023-06-02"
  /\ strftime_amz (DateTime (Date 2023 6 2) 12 30 45) = "20230602T123045Z".
Proof. vm_compute. auto. Qed.
Example sorted_ex :
  sorted ["x-amz-date"; "host"; "x-amz-security-token"; "x-amz-acl"; "x-amz-content-sha256"]
  = ["host"; "x-amz-acl"; "x-amz-content-sha256"; "x-amz-date"; "x-amz-security-token"].
Proof. vm_compute. reflexivity. Qed.
Example hexlify_ex : hexlify (String "255" (String "010" "A")) = "ff0a41".
Proof. vm_compute. reflexivity. Qed.
Example record_of_line_ex :
  record_of_line ["Bucket"; "Key"] (csv_line ["media"; "a/b.txt"])
  = Ok {[ "Bucket" := "media"; "Key" := "a/b.txt" ]}
  /\ record_of_line ["Bucket"] "a,b" = Raise IndexError.
Proof. split; by_evaluation. Qed.
Example canonical_request_ex :
  canonical_request "GET" "/data/file.txt"
    [("host", "bucket.s3.amazonaws.com"); ("x-amz-content-sha256", "UNSIGNED-PAYLOAD");
     ("x-amz-date", "20230602T123045Z")]
  = Py.join Py.newline
      ["GET"; "/data/file.txt"; ""; "host:bucket.s3.amazonaws.com";
       "x-amz-content-sha256:UNSIGNED-PAYLOAD"; "x-amz-date:20230602T123045Z"; "";
       "host;x-amz-content-sha256;x-amz-date"; "UNSIGNED-PAYLOAD"].
Proof. vm_compute. reflexivity. Qed.
Example s3_to_https_ex :
  s3_to_https "s3://bucket/a/b.txt" "us-east-1"
  = Ok "https://bucket.s3.us-east-1.amazonaws.com/a/b.txt".
Proof. vm_compute. reflexivity. Qed.

(** ** Strings *)

Section StringFacts.

Implicit Types (s r p old : string) (c d : ascii).

Lemma prefix_empty s : String.prefix "" s = true.
Proof. destruct s; reflexivity. Qed.

Lemma prefix_app p r : String.prefix p (p +:+ r) = true.
Proof.
  induction p as [|a p IH]; simpl.
  - apply prefix_empty.
  - destruct (ascii_dec a a); [exact IH | congruence].
Qed.

Lemma prefix_inv p s : String.prefix p s = true -> exists r, s = p +:+ r.
Proof.
  revert s. induction p as [|a p IH]; intros s H.
  - exists s. reflexivity.
  - destruct s as [|b s]; simpl in H; [discriminate|].
    destruct (ascii_dec a b) as [->|]; [|discriminate].
    destruct (IH s H) as [r ->]. exists r. reflexivity.
Qed.

Lemma append_assoc s r p : (s +:+ r) +:+ p = s +:+ (r +:+ p).
Proof. induction s as [|a s IH]; simpl; [reflexivity | now rewrite IH]. Qed.

Lemma append_empty_r s : s +:+ "" = s.
Proof. induction s as [|a s IH]; simpl; [reflexivity | now rewrite IH]. Qed.

Lemma slice_to_app p r : Py.slice_to (String.length p) (p +:+ r) = p.
Proof.
  unfold Py.slice_to. induction p as [|a p IH]; simpl.
  - destruct r; reflexivity.
  - now rewrite IH.
Qed.

Lemma slice_to_prefix p s :
  String.eqb (Py.slice_to (String.length p) s) p = String.prefix p s.
Proof.
  destruct (String.prefix p s) eqn:E.
  - apply prefix_inv in E as [r ->]. rewrite slice_to_app. apply String.eqb_refl.
  - apply String.eqb_neq. intros H. apply String.prefix_correct in H. congruence.
Qed.

(** *** [replace] *)

Lemma occurs_cons old c s :
  Py.occurs old (String c s) = String.prefix old (String c s) || Py.occurs old s.
Proof. reflexivity. Qed.

Lemma occurs_inv old s :
  Py.occurs old s = true -> exists a b, s = a +:+ old +:+ b.
Proof.
  induction s as [|c s IH].
  - cbn [Py.occurs]. rewrite orb_false_r. intros [r ->]%prefix_inv.
    exists "", r. reflexivity.
  - rewrite occurs_cons. intros [H|H]%orb_true_iff.
    + apply prefix_inv in H as [r ->]. exists "", r. reflexivity.
    + destruct (IH H) as (a & b & ->). exists (String c a), b. reflexivity.
Qed.

Lemma replace_from_absent old new s :
  Py.occurs old s = false -> Py.replace_from old new 0 s = s.
Proof.
  induction s as [|c s IH]; [reflexivity|].
  rewrite occurs_cons. intros [E H]%orb_false_iff.
  cbn [Py.replace_from]. rewrite E. f_equal. apply IH, H.
Qed.

(** After the scheme the scan goes on with the rest of the string. *)
Lemma replace_scheme rest :
  Py.replace "s3://" "" ("s3://" +:+ rest) = Py.replace_from "s3://" "" 0 rest.
Proof.
  unfold Py.replace.
  change ("s3://" +:+ rest)
    with (String "s" (String "3" (String ":" (String "/" (String "/" rest))))).
  cbn [Py.replace_from].
  change (String "s" (String "3" (String ":" (String "/" (String "/" rest)))))
    with ("s3://" +:+ rest).
  rewrite prefix_app. reflexivity.
Qed.

(** *** [split] and [join] on a one-character separator *)

Lemma split_char_nil d : Py.split (String d "") "" = [""].
Proof. reflexivity. Qed.

Lemma split_char_cons d c s :
  Py.split (String d "") (String c s) =
  if Ascii.eqb c d then "" :: Py.split (String d "") s
  else Py.cons_head c (Py.split (String d "") s).
Proof.
  unfold Py.split. simpl.
  destruct (ascii_dec d c) as [->|Hne].
  - rewrite prefix_empty, Ascii.eqb_refl. reflexivity.
  - destruct (Ascii.eqb_spec c d); [congruence | reflexivity].
Qed.

Lemma split_char_not_nil d s : Py.split (String d "") s <> [].
Proof.
  destruct s as [|c s]; [discriminate|].
  rewrite split_char_cons. destruct (Ascii.eqb c d); [discriminate|].
  destruct (Py.split (String d "") s); discriminate.
Qed.

Lemma join_cons_head d c l :
  l <> [] -> Py.join (String d "") (Py.cons_head c l) = String c (Py.join (String d "") l).
Proof. destruct l as [|h [|h' t]]; [congruence | reflexivity | reflexivity]. Qed.

Lemma join_split d s : Py.join (String d "") (Py.split (String d "") s) = s.
Proof.
  induction s as [|c s IH]; [reflexivity|].
  rewrite split_char_cons. destruct (Ascii.eqb_spec c d) as [->|Hne].
  - pose proof (split_char_not_nil d s) as Hn.
    destruct (Py.split (String d "") s) as [|h t] eqn:E; [congruence|].
    change (Py.join (String d "") ("" :: h :: t))
      with (String d (Py.join (String d "") (h :: t))).
    now rewrite IH.
  - rewrite join_cons_head by apply split_char_not_nil. now rewrite IH.
Qed.

Lemma split_app_sep d p r :
  Py.has_char d p = false ->
  Py.split (String d "") (p +:+ String d r) = p :: Py.split (String d "") r.
Proof.
  induction p as [|a p IH]; simpl; intros H.
  - rewrite split_char_cons, Ascii.eqb_refl. reflexivity.
  - apply orb_false_iff in H as [Ha Hp].
    rewrite split_char_cons, Ha, IH by exact Hp. reflexivity.
Qed.

Lemma split_no_sep d p :
  Py.has_char d p = false -> Py.split (String d "") p = [p].
Proof.
  induction p as [|a p IH]; simpl; intros H; [reflexivity|].
  apply orb_false_iff in H as [Ha Hp].
  rewrite split_char_cons, Ha, IH by exact Hp. reflexivity.
Qed.

Lemma tail_cons_head c (l : list string) : l <> [] -> tail (Py.cons_head c l) = tail l.
Proof. destruct l; [congruence | reflexivity]. Qed.

(** Two separators in a row leave an empty piece, and not as the first
    one. *)
Lemma split_doubled_sep d a r :
  "" ∈ tail (Py.split (String d "") (a +:+ String d (String d r))).
Proof.
  induction a as [|c a IH]; simpl.
  - rewrite !split_char_cons, Ascii.eqb_refl. simpl. left.
  - rewrite split_char_cons. destruct (Ascii.eqb c d).
    + simpl. destruct (Py.split _ _) as [|h t]; [inversion IH | now right].
    + rewrite tail_cons_head by apply split_char_not_nil. exact IH.
Qed.

Lemma pieces_no_scheme s :
  Forall (fun seg => seg <> "") (Py.split "/" s) -> Py.occurs "s3://" s = false.
Proof.
  intros H. destruct (Py.occurs "s3://" s) eqn:E; [exfalso | reflexivity].
  apply occurs_inv in E as (a & b & ->).
  assert (E : a +:+ "s3://" +:+ b = (a +:+ "s3:") +:+ String "/" (String "/" b)).
  { rewrite append_assoc. reflexivity. }
  rewrite E in H. pose proof (split_doubled_sep "/" (a +:+ "s3:") b) as Hin.
  destruct (Py.split "/" _) as [|h t]; [inversion Hin|].
  simpl in Hin. apply Forall_cons in H as [_ H].
  rewrite Forall_forall in H. now apply (H "").
Qed.

Lemma filter_truthy_id (l : list string) :
  Forall (fun seg => seg <> "") l -> List.filter Py.truthy l = l.
Proof.
  induction 1 as [|x l Hx _ IH]; simpl; [reflexivity|].
  destruct x; [congruence|]. simpl. now rewrite IH.
Qed.

Lemma filter_truthy_nonempty (l : list string) :
  Forall (fun seg => seg <> "") (List.filter Py.truthy l).
Proof.
  induction l as [|x l IH]; simpl; [constructor|].
  destruct x; simpl; [exact IH|]. constructor; [discriminate | exact IH].
Qed.

Lemma has_char_app c s r : Py.has_char c (s +:+ r) = Py.has_char c s || Py.has_char c r.
Proof.
  induction s as [|a s IH]; simpl; [reflexivity|].
  rewrite IH. apply orb_assoc.
Qed.

Lemma cons_head_app c (l1 l2 : list string) :
  l1 <> [] -> Py.cons_head c (l1 ++ l2) = Py.cons_head c l1 ++ l2.
Proof. destruct l1; [congruence | reflexivity]. Qed.

Lemma split_app d p r :
  Py.split (String d "") (p +:+ String d r)
  = Py.split (String d "") p ++ Py.split (String d "") r.
Proof.
  induction p as [|a p IH]; simpl.
  - rewrite split_char_cons, Ascii.eqb_refl. reflexivity.
  - rewrite !split_char_cons, IH. destruct (Ascii.eqb a d); [reflexivity|].
    apply cons_head_app, split_char_not_nil.
Qed.

(** The pieces of a split hold no separator. *)
Lemma split_pieces d s :
  Forall (fun p => Py.has_char d p = false) (Py.split (String d "") s).
Proof.
  induction s as [|c s IH]; [repeat constructor|].
  rewrite split_char_cons. destruct (Ascii.eqb c d) eqn:E; [now constructor|].
  destruct (Py.split (String d "") s) as [|h t]; simpl; [repeat constructor; simpl|].
  - now rewrite E.
  - apply Forall_cons in IH as [Hh Ht]. constructor; [|exact Ht]. simpl. now rewrite E, Hh.
Qed.

Lemma split_join d (segs : list string) :
  segs <> [] -> Forall (fun p => Py.has_char d p = false) segs ->
  Py.split (String d "") (Py.join (String d "") segs) = segs.
Proof.
  induction segs as [|x segs IH]; [congruence|]. intros _ [Hx Hs]%Forall_cons.
  destruct segs as [|y segs].
  - now apply split_no_sep.
  - change (Py.join (String d "") (x :: y :: segs))
      with (x +:+ String d (Py.join (String d "") (y :: segs))).
    rewrite split_app_sep by exact Hx. f_equal. now apply IH.
Qed.

(** A separator at the end leaves an empty last piece. *)
Lemma split_trailing_sep d p :
  "" ∈ tail (Py.split (String d "") (p +:+ String d "")).
Proof.
  induction p as [|c p IH]; simpl.
  - rewrite split_char_cons, Ascii.eqb_refl. simpl. left.
  - rewrite split_char_cons. destruct (Ascii.eqb c d).
    + simpl. destruct (Py.split _ _) as [|h t]; [inversion IH | now right].
    + rewrite tail_cons_head by apply split_char_not_nil. exact IH.
Qed.

(** *** [endswith] *)

Lemma last_char_inv c s :
  String.substring (String.length s - 1) 1 s = String c "" ->
  exists p, s = p +:+ String c "".
Proof.
  induction s as [|a s IH]; [discriminate|].
  destruct s as [|b s].
  - simpl. intros [= ->]. now exists "".
  - intros H.
    assert (E : String.substring (String.length (String b s) - 1) 1 (String b s)
                = String c "").
    { simpl in H. simpl. rewrite Nat.sub_0_r. exact H. }
    destruct (IH E) as [p ->]. now exists (String a p).
Qed.

Lemma endswith_char_inv c s :
  Py.endswith s (String c "") = true -> exists p, s = p +:+ String c "".
Proof.
  unfold Py.endswith. cbn [String.length].
  intros [_ H%String.eqb_eq]%andb_true_iff. now apply last_char_inv.
Qed.

Lemma pieces_no_trailing_sep d s :
  Forall (fun seg => seg <> "") (Py.split (String d "") s) ->
  Py.endswith s (String d "") = false.
Proof.
  intros H. destruct (Py.endswith s (String d "")) eqn:E; [exfalso | reflexivity].
  apply endswith_char_inv in E as [p ->].
  pose proof (split_trailing_sep d p) as Hin.
  destruct (Py.split _ _) as [|h t]; [inversion Hin|].
  apply Forall_cons in H as [_ H]. simpl in Hin.
  now apply (proj1 (Forall_forall _ _) H "").
Qed.

Lemma endswith_nonempty s suf : suf <> "" -> Py.endswith s suf = true -> s <> "".
Proof.
  intros Hsuf H ->. destruct suf; [congruence|]. discriminate.
Qed.

End StringFacts.

(** ** URI model *)

Section UriModel.

Lemma slice_scheme rest : Py.slice_to 5 ("s3://" +:+ rest) = "s3://".
Proof. exact (slice_to_app "s3://" rest). Qed.

Lemma starts_with_scheme url :
  Py.startswith url "s3://" = true <-> exists rest, url = "s3://" +:+ rest.
Proof.
  split.
  - apply prefix_inv.
  - intros [rest ->]. apply prefix_app.
Qed.

Lemma urlparse_unfold_scheme rest :
  urlparse ("s3://" +:+ rest) =
  match List.filter Py.truthy (Py.split "/" (Py.replace_from "s3://" "" 0 rest)) with
  | [] => Raise IndexError
  | b :: segs =>
      Ok {| bucket := b; key := Py.join "/" segs;
            filename := if 1 <? length (b :: segs) then List.last (b :: segs) "" else "" |}
  end.
Proof.
  unfold urlparse. rewrite slice_scheme, replace_scheme.
  change (negb ("s3://" =? "s3://")%string) with false. cbv iota.
  destruct (List.filter _ _); reflexivity.
Qed.

Lemma urlparse_formatted b k :
  b <> "" -> Py.has_char "/" b = false ->
  Forall (fun seg => seg <> "") (Py.split "/" k) ->
  urlparse (s3_uri b k) =
  Ok {| bucket := b; key := k; filename := List.last (Py.split "/" k) "" |}.
Proof.
  intros Hb Hslash Hk. unfold s3_uri. rewrite urlparse_unfold_scheme.
  change ("/" +:+ k) with (String "/" k).
  assert (Hsplit : Py.split "/" (b +:+ String "/" k) = b :: Py.split "/" k)
    by now apply split_app_sep.
  assert (Hall : Forall (fun seg => seg <> "") (Py.split "/" (b +:+ String "/" k))).
  { rewrite Hsplit. now constructor. }
  rewrite replace_from_absent by now apply pieces_no_scheme.
  rewrite filter_truthy_id by exact Hall. rewrite Hsplit, join_split.
  pose proof (split_char_not_nil "/" k) as Hn.
  destruct (Py.split "/" k) as [|h t]; [congruence | reflexivity].
Qed.

Lemma Forall_list_filter {A} (P : A -> Prop) (f : A -> bool) (l : list A) :
  Forall P l -> Forall P (List.filter f l).
Proof.
  induction 1 as [|x l Hx _ IH]; simpl; [constructor|].
  destruct (f x); [now constructor | exact IH].
Qed.

(** What [urlparse] returns is well formed: a non-empty bucket without a
    slash, and a key that is empty or has non-empty pieces only. *)
Lemma urlparse_wf url parts :
  urlparse url = Ok parts ->
  bucket parts <> "" /\ Py.has_char "/" (bucket parts) = false
  /\ (key parts = "" \/ Forall (fun seg => seg <> "") (Py.split "/" (key parts))).
Proof.
  unfold urlparse. destruct (negb _); [discriminate|].
  pose proof (filter_truthy_nonempty (Py.split "/" (Py.replace "s3://" "" url))) as Hne.
  pose proof (Forall_list_filter _ Py.truthy _
                (split_pieces "/" (Py.replace "s3://" "" url))) as Hns.
  destruct (List.filter _ _) as [|b segs]; [discriminate|].
  intros [= <-]. simpl.
  apply Forall_cons in Hne as [Hb Hne]. apply Forall_cons in Hns as [Hb' Hns].
  split; [exact Hb|]. split; [exact Hb'|].
  destruct segs as [|x segs]; [now left | right].
  now rewrite split_join.
Qed.

End UriModel.

(** C9. For a non-empty bucket [b] without a slash and a key [k] all of
    whose pieces between slashes are non-empty, parsing the formatted URI
    s3://b/k gives back bucket [b], key [k] and, as the filename, the last
    piece of [k]. *)
Theorem urlparse_roundtrip (b k : string) :
  b <> "" -> Py.has_char "/" b = false ->
  Forall (fun seg => seg <> "") (Py.split "/" k) ->
  urlparse ("s3://" +:+ b +:+ "/" +:+ k) =
  Ok {| bucket := b; key := k; filename := List.last (Py.split "/" k) "" |}.
Proof. exact (urlparse_formatted b k). Qed.

Lemma urlparse_roundtrip_witness :
  urlparse "s3://my-bucket/reports/2023/data.csv" =
  Ok {| bucket := "my-bucket"; key := "reports/2023/data.csv"; filename := "data.csv" |}.
Proof.
  apply (urlparse_roundtrip "my-bucket" "reports/2023/data.csv").
  - discriminate.
  - reflexivity.
  - vm_compute. repeat constructor; discriminate.
Defined.

(** C8. [urlparse] raises the invalid-URL exception exactly when
    the string does not begin with s3://. When it does, the rest holds no
    further s3:// and has a non-empty piece between slashes, the result is
    the locator whose bucket is the first non-empty piece, whose key is
    the other non-empty pieces joined by slashes, and whose filename is
    the last piece when there is more than one, the empty string
    otherwise. *)
Theorem urlparse_cases (url : string) :
  (urlparse url = Raise (InvalidS3Url url) <-> Py.startswith url "s3://" = false)
  /\ (forall rest b segs,
        url = "s3://" +:+ rest ->
        Py.occurs "s3://" rest = false ->
        List.filter Py.truthy (Py.split "/" rest) = b :: segs ->
        urlparse url =
        Ok {| bucket := b; key := Py.join "/" segs;
              filename := if 1 <? length (b :: segs) then List.last (b :: segs) "" else "" |}).
Proof.
  split.
  - split.
    + intros H. destruct (Py.startswith url "s3://") eqn:E; [|reflexivity].
      apply starts_with_scheme in E as [rest ->].
      rewrite urlparse_unfold_scheme in H.
      destruct (List.filter _ _); discriminate.
    + intros H. unfold urlparse, Py.startswith in *.
      change 5 with (String.length "s3://"). rewrite slice_to_prefix, H. reflexivity.
  - intros rest b segs -> Hocc Hsegs.
    rewrite urlparse_unfold_scheme, replace_from_absent, Hsegs by exact Hocc.
    reflexivity.
Qed.

Lemma urlparse_cases_witness :
  urlparse "s3://bucket//a/b.txt" =
  Ok {| bucket := "bucket"; key := "a/b.txt"; filename := "b.txt" |}.
Proof.
  apply (proj2 (urlparse_cases "s3://bucket//a/b.txt") "bucket//a/b.txt" "bucket" ["a"; "b.txt"]).
  - reflexivity.
  - vm_compute. reflexivity.
  - vm_compute. reflexivity.
Defined.

(** Against C8 for every string: [str.replace] removes every s3://, also one
    inside the rest, so the pieces of the rest are not what is parsed. *)
Lemma urlparse_by_remainder_counterexample :
  urlparse "s3://a/s3://b" = Ok {| bucket := "a"; key := "b"; filename := "b" |}
  /\ urlparse_by_remainder "s3://a/s3://b"
     = Ok {| bucket := "a"; key := "s3:/b"; filename := "b" |}
  /\ ~ (forall url, urlparse url = urlparse_by_remainder url).
Proof.
  split; [vm_compute; reflexivity|]. split; [vm_compute; reflexivity|].
  intros H. specialize (H "s3://a/s3://b"). vm_compute in H. discriminate.
Qed.

(** A string that is only the scheme, or the scheme and slashes, has no
    bucket: [url_obj[0]] raises. *)
Lemma urlparse_no_bucket rest :
  List.filter Py.truthy (Py.split "/" (Py.replace_from "s3://" "" 0 rest)) = [] ->
  urlparse ("s3://" +:+ rest) = Raise IndexError.
Proof. intros H. rewrite urlparse_unfold_scheme, H. reflexivity. Qed.

(** ** Paginated lister *)

Section ListerFacts.

Variable list_objects_v2 : list_request -> result list_response.

Lemma find_pages_serves pk suffix more :
  forall page kwargs fuel,
    serves list_objects_v2 kwargs page more ->
    length more < fuel ->
    find_pages list_objects_v2 fuel pk suffix kwargs =
    Some (List.filter (key_matches pk suffix) (concat (page :: more)), Done).
Proof.
  induction more as [|page' more IH]; intros page kwargs fuel Hs Hf;
    (destruct fuel as [|fuel]; [simpl in Hf; lia|]); simpl in Hs |- *.
  - rewrite Hs. simpl. now rewrite app_nil_r.
  - destruct Hs as (t & -> & Hs). simpl. simpl in Hf.
    assert (Hlt : length more < fuel) by lia.
    rewrite (IH page' (with_token t kwargs) fuel Hs Hlt).
    simpl. rewrite !List.filter_app. reflexivity.
Qed.

Lemma filter_Forall {A} (f : A -> bool) (l : list A) :
  Forall (fun x => f x = true) (List.filter f l).
Proof.
  induction l as [|x l IH]; simpl; [constructor|].
  destruct (f x) eqn:E; [constructor; assumption | exact IH].
Qed.

(** Whatever [find] yields has passed the filter of line 131. *)
Lemma find_pages_match fuel :
  forall pk suffix kwargs ys o,
    find_pages list_objects_v2 fuel pk suffix kwargs = Some (ys, o) ->
    Forall (fun k => key_matches pk suffix k = true) ys.
Proof.
  induction fuel as [|fuel IH]; simpl; intros pk suffix kwargs ys o H; [discriminate|].
  destruct (list_objects_v2 kwargs) as [resp|e]; [|injection H as <- <-; constructor].
  destruct (Contents resp) as [contents|]; [|injection H as <- <-; constructor].
  destruct (NextContinuationToken resp) as [t|].
  - destruct (find_pages _ fuel pk suffix _) as [[rest o']|] eqn:E; [|discriminate].
    injection H as <- <-. apply Forall_app. split; [apply filter_Forall|].
    eapply IH, E.
  - injection H as <- <-. apply filter_Forall.
Qed.

Lemma find_match fuel url suffix ys o k :
  find list_objects_v2 fuel url suffix = Some (ys, o) -> k ∈ ys ->
  Py.endswith k suffix = true.
Proof.
  unfold find. destruct (urlparse url) as [parts|e].
  - intros H%find_pages_match Hk. rewrite Forall_forall in H.
    apply H in Hk. unfold key_matches in Hk. now apply andb_true_iff in Hk.
  - intros [= <- <-] Hk. inversion Hk.
Qed.

(** A response without the Contents entry ends the listing, whatever
    token it carries. *)
Lemma find_pages_no_contents fuel pk suffix kwargs tok :
  list_objects_v2 kwargs = Ok (ListResponse None tok) ->
  find_pages list_objects_v2 (S fuel) pk suffix kwargs = Some ([], Done).
Proof. intros H. simpl. rewrite H. reflexivity. Qed.

Lemma filter_all_true {A} (f : A -> bool) (l : list A) :
  forallb f l = true -> List.filter f l = l.
Proof.
  induction l as [|x l IH]; simpl; [reflexivity|].
  intros [-> H]%andb_true_iff. now rewrite IH.
Qed.

End ListerFacts.

(** C4. When the listing collaborator serves the pages [page :: more], each
    a list of keys, with a continuation token on every page but the last,
    [find] returns after yielding exactly the keys of all pages that start
    with the parsed prefix and end with [suffix], in the order served; and
    when every served key passes the filter, it yields all of them: the
    number of keys yielded is the sum of the page sizes. *)
Theorem find_pagination_complete
    (list_objects_v2 : list_request -> result list_response)
    (url suffix : string) (parts : locator)
    (page : list string) (more : list (list string)) (fuel : nat) :
  urlparse url = Ok parts ->
  serves list_objects_v2
    {| Bucket := bucket parts; Prefix := Some (key parts); ContinuationToken := None |}
    page more ->
  length more < fuel ->
  find list_objects_v2 fuel url suffix =
    Some (List.filter (key_matches (key parts) suffix) (concat (page :: more)), Done)
  /\ (forallb (key_matches (key parts) suffix) (concat (page :: more)) = true ->
      find list_objects_v2 fuel url suffix = Some (concat (page :: more), Done)
      /\ exists keys,
           find list_objects_v2 fuel url suffix = Some (keys, Done)
           /\ length keys = list_sum (map length (page :: more))).
Proof.
  intros Hp Hs Hf.
  assert (E : find list_objects_v2 fuel url suffix =
              Some (List.filter (key_matches (key parts) suffix) (concat (page :: more)), Done)).
  { unfold find. rewrite Hp. now apply find_pages_serves. }
  split; [exact E|]. intros Hall. rewrite E, filter_all_true by exact Hall.
  split; [reflexivity|]. eexists. split; [reflexivity|].
  clear. induction (page :: more) as [|p ps IH]; simpl; [reflexivity|].
  rewrite length_app, IH. reflexivity.
Qed.

Lemma find_pagination_complete_witness :
  exists keys,
    find mock_list_objects_v2 3 "s3://bucket/logs/" ".json" = Some (keys, Done)
    /\ length keys = 2037.
Proof.
  assert (Hp : urlparse "s3://bucket/logs/" = Ok (Locator "bucket" "logs" "logs"))
    by (vm_compute; reflexivity).
  assert (Hs : serves mock_list_objects_v2
                 {| Bucket := "bucket"; Prefix := Some "logs"; ContinuationToken := None |}
                 (mock_page 0 1000) [mock_page 1000 1000; mock_page 2000 37]).
  { exists "page-2". split; [reflexivity|]. exists "page-3". split; reflexivity. }
  destruct (find_pagination_complete mock_list_objects_v2 "s3://bucket/logs/" ".json"
              (Locator "bucket" "logs" "logs") (mock_page 0 1000)
              [mock_page 1000 1000; mock_page 2000 37] 3 Hp Hs) as [_ H].
  - simpl. lia.
  - destruct H as [_ (keys & E & Hlen)]; [vm_compute; reflexivity|].
    exists keys. split; [exact E|]. rewrite Hlen. vm_compute. reflexivity.
Defined.

(** ** Inventory scanner *)

Example mock_inventory_all :
  mock_latest_inventory "s3://reports/inv" no_filter =
  Some ([ {[ "Bucket" := "media"; "Key" := "a/old.txt";
             "LastModifiedDate" := "2023-01-01T10:00:00.000000Z";
             "url" := "s3://media/a/old.txt" ]};
          {[ "Bucket" := "media"; "Key" := "a/new.txt";
             "LastModifiedDate" := "2023-06-01T10:00:00.000000Z";
             "url" := "s3://media/a/new.txt" ]} ], Done).
Proof. by_evaluation. Qed.

Lemma date_ltb_spec a b : date_ltb a b = true <-> date_lt a b.
Proof.
  unfold date_ltb, date_lt.
  rewrite !orb_true_iff, !andb_true_iff, !orb_true_iff, !andb_true_iff,
    !Nat.ltb_lt, !Nat.eqb_eq.
  reflexivity.
Qed.

Lemma gen_seq_done {A} (ys : list A) (g : gen A) :
  gen_seq (ys, Done) g = (ys ++ g.1, g.2).
Proof. reflexivity. Qed.

Lemma gen_seq_raised {A} (ys : list A) e (g : gen A) :
  gen_seq (ys, Raised e) g = (ys, Raised e).
Proof. reflexivity. Qed.

Lemma gen_seq_nil {A} (g : gen A) : gen_seq ([], Done) g = g.
Proof. destruct g; reflexivity. Qed.

Lemma gen_seq_assoc {A} (g1 g2 g3 : gen A) :
  gen_seq (gen_seq g1 g2) g3 = gen_seq g1 (gen_seq g2 g3).
Proof.
  destruct g1 as [ys1 [|e1]], g2 as [ys2 [|e2]]; simpl; try reflexivity.
  now rewrite <- app_assoc.
Qed.

Section InventoryFacts.

Variable list_objects_v2 : list_request -> result list_response.
Variable get_object : string -> string -> result string.
Variable gunzip : string -> result string.
Variable decode_utf8 : string -> result string.
Variable json_loads : string -> result manifest.
Variable strptime_date : string -> option date.

#[local] Abbreviation scan_line' := (scan_line strptime_date).
#[local] Abbreviation scan_lines' := (scan_lines strptime_date).
#[local] Abbreviation scan_files' :=
  (scan_files get_object gunzip decode_utf8 strptime_date).

Lemma scan_lines_cons_yield keys opts line lines info :
  scan_line' keys opts line = Yield info ->
  scan_lines' keys opts (line :: lines) = gen_seq ([info], Done) (scan_lines' keys opts lines).
Proof. intros H. simpl. rewrite H. reflexivity. Qed.

Lemma scan_lines_app keys opts l1 l2 :
  scan_lines' keys opts (l1 ++ l2) =
  gen_seq (scan_lines' keys opts l1) (scan_lines' keys opts l2).
Proof.
  induction l1 as [|line l1 IH]; simpl.
  - now destruct (scan_lines' keys opts l2).
  - destruct (scan_line' keys opts line); [exact IH | | reflexivity].
    rewrite IH. destruct (scan_lines' keys opts l1) as [ys [|e]]; reflexivity.
Qed.

Lemma scan_files_app bkt keys opts fs1 fs2 :
  scan_files' bkt keys opts (fs1 ++ fs2) =
  gen_seq (scan_files' bkt keys opts fs1) (scan_files' bkt keys opts fs2).
Proof.
  induction fs1 as [|f fs1 IH]; simpl.
  - now destruct (scan_files' bkt keys opts fs2).
  - destruct (_ ≫= _); [|reflexivity]. now rewrite IH, gen_seq_assoc.
Qed.

(** Every record the inner loop yields is the record of one of the
    lines. *)
Lemma scan_lines_yielded keys opts lines r :
  r ∈ (scan_lines' keys opts lines).1 ->
  exists line, line ∈ lines /\ scan_line' keys opts line = Yield r.
Proof.
  induction lines as [|line lines IH]; simpl; [intros H; inversion H|].
  destruct (scan_line' keys opts line) eqn:E.
  - intros (l & Hl & Hr)%IH. exists l. split; [now right | exact Hr].
  - simpl. intros [->|H]%elem_of_cons.
    + exists line. split; [left | exact E].
    + destruct (IH H) as (l & Hl & Hr). exists l. split; [now right | exact Hr].
  - intros H; inversion H.
Qed.

Lemma gen_seq_yielded {A} (g1 g2 : gen A) r :
  r ∈ (gen_seq g1 g2).1 -> r ∈ g1.1 \/ r ∈ g2.1.
Proof.
  destruct g1 as [ys [|e]]; simpl; [|now left].
  intros H%elem_of_app. exact H.
Qed.

Lemma scan_files_yielded bkt keys opts fs r :
  r ∈ (scan_files' bkt keys opts fs).1 ->
  exists line, scan_line' keys opts line = Yield r.
Proof.
  induction fs as [|f fs IH]; simpl; [intros H; inversion H|].
  destruct (_ ≫= _); [|intros H; inversion H].
  intros [H|H]%gen_seq_yielded; [|exact (IH H)].
  apply scan_lines_yielded in H as (line & _ & H). now exists line.
Qed.

(** What a yielded record looks like. *)
Lemma scan_line_yield_url keys opts line r :
  scan_line' keys opts line = Yield r ->
  "Bucket" ∈ keys -> "Key" ∈ keys ->
  exists b k, r !! "Bucket" = Some b /\ r !! "Key" = Some k
              /\ r !! "url" = Some (s3_uri b k).
Proof.
  unfold scan_line. intros H Hb Hk.
  destruct (record_of_line keys line) as [info|]; [|discriminate].
  destruct (info !! "Key") as [k|] eqn:Ek; [|discriminate].
  destruct (info !! datetime_key opts); [|discriminate].
  destruct (strptime_date _); [|discriminate].
  destruct (outside_window opts _); [discriminate|].
  destruct (match prefix opts with Some _ => _ | None => _ end); [discriminate|].
  destruct (match suffix opts with Some _ => _ | None => _ end); [|discriminate].
  rewrite !bool_decide_eq_true_2 in H by assumption. simpl in H.
  destruct (info !! "Bucket") as [b|] eqn:Eb; [|discriminate].
  injection H as <-. exists b, k.
  rewrite !lookup_insert_ne by discriminate. rewrite lookup_insert_eq. auto.
Qed.

Lemma scan_line_no_key keys opts line info :
  record_of_line keys line = Ok info -> info !! "Key" = None ->
  scan_line' keys opts line = Skip.
Proof. unfold scan_line. now intros -> ->. Qed.

Lemma scan_line_outside keys opts line info k v dt :
  record_of_line keys line = Ok info -> info !! "Key" = Some k ->
  info !! datetime_key opts = Some v -> strptime_date v = Some dt ->
  outside_window opts dt = true ->
  scan_line' keys opts line = Skip.
Proof. unfold scan_line. now intros -> -> -> -> ->. Qed.

Lemma scan_line_malformed keys opts line info k v :
  record_of_line keys line = Ok info -> info !! "Key" = Some k ->
  info !! datetime_key opts = Some v -> strptime_date v = None ->
  scan_line' keys opts line = Fail (FormatError v).
Proof. unfold scan_line. now intros -> -> -> ->. Qed.

#[local] Abbreviation locate_manifest' := (locate_manifest list_objects_v2).
#[local] Abbreviation latest_inventory' :=
  (latest_inventory list_objects_v2 get_object gunzip decode_utf8 json_loads
     strptime_date).
#[local] Abbreviation scan_manifest' :=
  (scan_manifest get_object gunzip decode_utf8 json_loads strptime_date).

Lemma manifest_key_truthy fuel url ys o k :
  find list_objects_v2 fuel url "manifest.json" = Some (ys, o) -> k ∈ ys ->
  Py.truthy k = true.
Proof.
  intros H Hk. pose proof (find_match _ _ _ _ _ _ _ H Hk) as He.
  destruct k; [discriminate | reflexivity].
Qed.

Lemma locate_manifest_found fuel parts dt dates k :
  find list_objects_v2 fuel (manifest_dir parts dt) "manifest.json" = Some ([k], Done) ->
  locate_manifest' fuel parts (dt :: dates) = Some (Ok (Some k)).
Proof. intros H. simpl. rewrite H. reflexivity. Qed.

Lemma locate_manifest_next fuel parts dt dates ks :
  find list_objects_v2 fuel (manifest_dir parts dt) "manifest.json" = Some (ks, Done) ->
  length ks <> 1 ->
  locate_manifest' fuel parts (dt :: dates) = locate_manifest' fuel parts dates.
Proof.
  intros H Hlen. simpl. rewrite H.
  destruct ks as [|k1 [|k2 ks]]; simpl in Hlen; congruence.
Qed.

Lemma locate_manifest_truthy fuel parts dates k :
  locate_manifest' fuel parts dates = Some (Ok (Some k)) -> Py.truthy k = true.
Proof.
  induction dates as [|dt dates IH]; simpl; [discriminate|].
  destruct (find _ fuel _ _) as [[ks [|e]]|] eqn:E; try discriminate.
  destruct ks as [|k1 [|k2 ks]]; try exact IH.
  intros [= <-]. eapply manifest_key_truthy; [exact E | left].
Qed.

Lemma latest_inventory_located fuel today url opts parts k :
  urlparse url = Ok parts ->
  locate_manifest' fuel parts [today; yesterday today] = Some (Ok (Some k)) ->
  latest_inventory' fuel today url opts = Some (scan_manifest' (bucket parts) k opts).
Proof.
  intros Hp Hl. unfold latest_inventory. rewrite Hp, Hl.
  now rewrite (locate_manifest_truthy _ _ _ _ Hl).
Qed.

Lemma latest_inventory_none fuel today url opts parts :
  urlparse url = Ok parts ->
  locate_manifest' fuel parts [today; yesterday today] = Some (Ok None) ->
  latest_inventory' fuel today url opts = Some ([], Done).
Proof.
  intros Hp Hl. unfold latest_inventory. rewrite Hp, Hl. reflexivity.
Qed.

#[local] Abbreviation read' := (read get_object gunzip decode_utf8).
#[local] Abbreviation read_json' :=
  (read_json get_object gunzip decode_utf8 json_loads).

(** A line that fails stops the two loops: what was yielded before it
    stays, nothing comes after. *)
Lemma scan_files_fail_at bkt keys opts fs1 fk fs2 ys1 body before line after ys2 e :
  scan_files' bkt keys opts fs1 = (ys1, Done) ->
  read' (s3_uri bkt fk) = Ok body ->
  Py.split Py.newline body = before ++ line :: after ->
  scan_lines' keys opts before = (ys2, Done) ->
  scan_line' keys opts line = Fail e ->
  scan_files' bkt keys opts (fs1 ++ Some fk :: fs2) = (ys1 ++ ys2, Raised e).
Proof.
  intros H1 Hr Hb H2 Hl. rewrite scan_files_app, H1. simpl. rewrite Hr. simpl.
  rewrite Hb, scan_lines_app, H2. simpl. rewrite Hl. simpl.
  now rewrite app_nil_r.
Qed.

Lemma scan_manifest_unfold bkt mk opts m schema :
  read_json' (s3_uri bkt mk) = Ok m -> fileSchema m = Some schema ->
  scan_manifest' bkt mk opts =
  scan_files' bkt (schema_keys schema) opts (default [] (files m)).
Proof. intros H1 H2. unfold scan_manifest. now rewrite H1, H2. Qed.

Lemma digit_not_slash n : Ascii.eqb (digit n) "/" = false.
Proof.
  unfold digit. pose proof (Nat.mod_upper_bound n 10 ltac:(lia)) as Hlt.
  destruct (n mod 10) as [|[|[|[|[|[|[|[|[|[|k]]]]]]]]]]; try reflexivity. lia.
Qed.

Lemma strftime_iso_no_slash dt : Py.has_char "/" (strftime_iso dt) = false.
Proof.
  unfold strftime_iso, pad4, pad2. cbn [String.append Py.has_char].
  rewrite !digit_not_slash. reflexivity.
Qed.

Lemma strftime_iso_relative dt : Py.startswith (strftime_iso dt) "/" = false.
Proof.
  unfold strftime_iso, pad4, Py.startswith. cbn [String.append String.prefix].
  destruct (ascii_dec "/" (digit (year dt / 1000))) as [E|]; [|reflexivity].
  pose proof (digit_not_slash (year dt / 1000)) as H. rewrite <- E in H. discriminate.
Qed.

Lemma strftime_iso_not_empty dt : strftime_iso dt <> "".
Proof. unfold strftime_iso, pad4. cbn [String.append]. discriminate. Qed.

Lemma path_join_dated parts dt url :
  urlparse url = Ok parts ->
  Py.path_join (key parts) (strftime_iso dt) = dated_prefix parts dt
  /\ Forall (fun seg => seg <> "") (Py.split "/" (dated_prefix parts dt))
  /\ List.last (Py.split "/" (dated_prefix parts dt)) "" = strftime_iso dt.
Proof.
  intros (_ & _ & Hk)%urlparse_wf. unfold Py.path_join, dated_prefix.
  rewrite strftime_iso_relative.
  pose proof (split_no_sep "/" _ (strftime_iso_no_slash dt)) as Hd.
  pose proof (strftime_iso_not_empty dt) as Hne.
  generalize dependent (strftime_iso dt). intros d Hd Hne.
  destruct Hk as [-> | Hk].
  - cbn [Py.truthy negb orb String.append]. rewrite Hd.
    split; [reflexivity|]. split; [|reflexivity]. now repeat constructor.
  - rewrite (pieces_no_trailing_sep "/" _ Hk).
    destruct (key parts) as [|c k] eqn:E.
    { apply Forall_cons in Hk as [Hk _]. congruence. }
    cbn [Py.truthy negb orb]. rewrite <- E in *.
    change ("/" +:+ d) with (String "/" d).
    rewrite split_app, Hd. split; [reflexivity|]. split.
    + apply Forall_app. split; [exact Hk|]. now repeat constructor.
    + apply List.last_last.
Qed.

(** The URL listed for a day parses to the bucket and the dated prefix. *)
Lemma manifest_dir_parse parts dt url :
  urlparse url = Ok parts ->
  urlparse (manifest_dir parts dt) =
  Ok {| bucket := bucket parts; key := dated_prefix parts dt;
        filename := strftime_iso dt |}.
Proof.
  intros Hp. destruct (path_join_dated parts dt url Hp) as (Hj & Hall & Hlast).
  destruct (urlparse_wf url parts Hp) as (Hb & Hs & _).
  unfold manifest_dir. rewrite Hj, urlparse_formatted by assumption.
  now rewrite Hlast.
Qed.

Lemma find_manifest_dir parts dt url fuel sfx :
  urlparse url = Ok parts ->
  find list_objects_v2 fuel (manifest_dir parts dt) sfx =
  find_pages list_objects_v2 fuel (dated_prefix parts dt) sfx
    {| Bucket := bucket parts; Prefix := Some (dated_prefix parts dt);
       ContinuationToken := None |}.
Proof. intros Hp. unfold find. now rewrite (manifest_dir_parse parts dt url Hp). Qed.

(** Every record [latest_inventory] yields is the record of a line of a
    data file, read with the schema of the manifest. *)
Lemma latest_inventory_yielded fuel today url opts ys o r :
  latest_inventory' fuel today url opts = Some (ys, o) -> r ∈ ys ->
  exists parts mk m schema line,
    urlparse url = Ok parts
    /\ read_json' (s3_uri (bucket parts) mk) = Ok m
    /\ fileSchema m = Some schema
    /\ scan_line' (schema_keys schema) opts line = Yield r.
Proof.
  unfold latest_inventory. destruct (urlparse url) as [parts|]; [|intros [= <- _] H; inversion H].
  destruct (locate_manifest' fuel parts _) as [[[mk|]|]|];
    try discriminate; try (intros [= <- _] H; inversion H; fail).
  destruct (Py.truthy mk); [|intros [= <- _] H; inversion H].
  unfold scan_manifest.
  destruct (read_json' (s3_uri (bucket parts) mk)) as [m|] eqn:Ej;
    [|intros [= <- _] H; inversion H].
  destruct (fileSchema m) as [schema|] eqn:Es; [|intros [= <- _] H; inversion H].
  intros [= E] Hr. assert (Hr' : r ∈ (ys, o).1) by exact Hr. rewrite <- E in Hr'.
  apply scan_files_yielded in Hr' as (line & Hl).
  now exists parts, mk, m, schema, line.
Qed.

Lemma outside_window_spec opts dt :
  outside_window opts dt = true <->
  (exists s, start_date opts = Some s /\ date_lt dt s)
  \/ (exists e, end_date opts = Some e /\ date_lt e dt).
Proof.
  unfold outside_window. rewrite orb_true_iff. split.
  - intros [H|H].
    + destruct (start_date opts) as [s|]; [|discriminate].
      left. exists s. split; [reflexivity | now apply date_ltb_spec].
    + destruct (end_date opts) as [e|]; [|discriminate].
      right. exists e. split; [reflexivity | now apply date_ltb_spec].
  - intros [(s & -> & H)|(e & -> & H)]; [left | right]; now apply date_ltb_spec.
Qed.

End InventoryFacts.

(** C5. [latest_inventory] lists the keys under today's dated prefix
    (the key of the URL, a slash and the date as YYYY-MM-DD) and then
    those under yesterday's, keeping the keys that end in manifest.json. It scans the manifest of
    the first of the two listings that has exactly one such key: today's
    when that listing has one, yesterday's when today's has none or
    several and yesterday's has one. When neither listing has exactly one,
    it yields nothing and returns without an error. *)
Theorem latest_inventory_manifest_choice
    (list_objects_v2 : list_request -> result list_response)
    (get_object : string -> string -> result string)
    (gunzip decode_utf8 : string -> result string)
    (json_loads : string -> result manifest)
    (strptime_date : string -> option date)
    (fuel : nat) (today : date) (url : string) (opts : scan_options)
    (parts : locator) (ks_today : list string) :
  urlparse url = Ok parts ->
  find list_objects_v2 fuel (manifest_dir parts today) "manifest.json"
    = Some (ks_today, Done) ->
  (forall dt,
     find list_objects_v2 fuel (manifest_dir parts dt) "manifest.json"
     = find_pages list_objects_v2 fuel (dated_prefix parts dt) "manifest.json"
         {| Bucket := bucket parts; Prefix := Some (dated_prefix parts dt);
            ContinuationToken := None |})
  /\ (forall k, ks_today = [k] ->
     latest_inventory list_objects_v2 get_object gunzip decode_utf8 json_loads
       strptime_date fuel today url opts
     = Some (scan_manifest get_object gunzip decode_utf8 json_loads strptime_date
               (bucket parts) k opts))
  /\ (length ks_today <> 1 ->
      forall ks_yesterday,
        find list_objects_v2 fuel (manifest_dir parts (yesterday today)) "manifest.json"
          = Some (ks_yesterday, Done) ->
        (forall k, ks_yesterday = [k] ->
           latest_inventory list_objects_v2 get_object gunzip decode_utf8 json_loads
             strptime_date fuel today url opts
           = Some (scan_manifest get_object gunzip decode_utf8 json_loads strptime_date
                     (bucket parts) k opts))
        /\ (length ks_yesterday <> 1 ->
            latest_inventory list_objects_v2 get_object gunzip decode_utf8 json_loads
              strptime_date fuel today url opts
            = Some ([], Done))).
Proof.
  intros Hp Ht. split; [|split].
  - intros dt. exact (find_manifest_dir list_objects_v2 parts dt url fuel _ Hp).
  - intros k ->. eapply latest_inventory_located; [exact Hp|].
    now apply locate_manifest_found.
  - intros Hn ks_y Hy. split.
    + intros k ->. eapply latest_inventory_located; [exact Hp|].
      rewrite (locate_manifest_next _ _ _ _ _ _ Ht Hn).
      now apply locate_manifest_found.
    + intros Hny. eapply latest_inventory_none; [exact Hp|].
      rewrite (locate_manifest_next _ _ _ _ _ _ Ht Hn).
      rewrite (locate_manifest_next _ _ _ _ _ _ Hy Hny). reflexivity.
Qed.

Lemma latest_inventory_manifest_choice_witness :
  mock_latest_inventory "s3://reports/inv" no_filter =
  Some (scan_manifest mock_get_object (fun b => Ok b) (fun b => Ok b) mock_json_loads
          mock_strptime_date "reports" "inv/2023-06-01/manifest.json" no_filter).
Proof.
  refine (proj1 (proj2 (proj2 (latest_inventory_manifest_choice
            mock_inventory_listing mock_get_object (fun b => Ok b) (fun b => Ok b)
            mock_json_loads mock_strptime_date 2 (Date 2023 6 2) "s3://reports/inv"
            no_filter (Locator "reports" "inv" "inv")
            ["inv/2023-06-02/a/manifest.json"; "inv/2023-06-02/b/manifest.json"]
            _ _)) _ ["inv/2023-06-01/manifest.json"] _) _ eq_refl).
  - vm_compute. reflexivity.
  - vm_compute. reflexivity.
  - simpl. lia.
  - vm_compute. reflexivity.
Defined.

(** C6. In a scan of [latest_inventory], a record that has a Key
    column and whose value [v] in the driving timestamp column is refused
    by [strptime] makes the whole scan fail with the format error for [v]:
    the records yielded before it stay, the error reaches the caller, and
    no later record, of this data file or of a later one, is yielded. *)
Theorem malformed_timestamp_fails_scan
    (list_objects_v2 : list_request -> result list_response)
    (get_object : string -> string -> result string)
    (gunzip decode_utf8 : string -> result string)
    (json_loads : string -> result manifest)
    (strptime_date : string -> option date)
    (fuel : nat) (today : date) (url : string) (opts : scan_options)
    (parts : locator) (mk : string) (m : manifest) (schema : string)
    (fs1 fs2 : list (option string)) (fk body : string)
    (before after : list string) (line : string)
    (ys1 ys2 : list (gmap string string))
    (info : gmap string string) (k v : string) :
  urlparse url = Ok parts ->
  locate_manifest list_objects_v2 fuel parts [today; yesterday today] = Some (Ok (Some mk)) ->
  read_json get_object gunzip decode_utf8 json_loads (s3_uri (bucket parts) mk) = Ok m ->
  fileSchema m = Some schema ->
  files m = Some (fs1 ++ Some fk :: fs2) ->
  scan_files get_object gunzip decode_utf8 strptime_date (bucket parts)
    (schema_keys schema) opts fs1 = (ys1, Done) ->
  read get_object gunzip decode_utf8 (s3_uri (bucket parts) fk) = Ok body ->
  Py.split Py.newline body = before ++ line :: after ->
  scan_lines strptime_date (schema_keys schema) opts before = (ys2, Done) ->
  record_of_line (schema_keys schema) line = Ok info ->
  info !! "Key" = Some k ->
  info !! datetime_key opts = Some v ->
  strptime_date v = None ->
  latest_inventory list_objects_v2 get_object gunzip decode_utf8 json_loads
    strptime_date fuel today url opts
  = Some (ys1 ++ ys2, Raised (FormatError v)).
Proof.
  intros Hp Hl Hj Hs Hf H1 Hr Hb H2 Hi Hk Hv Hbad.
  rewrite (latest_inventory_located _ _ _ _ _ _ _ _ _ _ _ _ Hp Hl).
  rewrite (scan_manifest_unfold _ _ _ _ _ _ _ _ _ _ Hj Hs), Hf. simpl. f_equal.
  eapply scan_files_fail_at; eauto.
  eapply scan_line_malformed; eauto.
Qed.

Lemma malformed_timestamp_fails_scan_witness :
  mock_latest_inventory "s3://reports/bad" no_filter =
  Some ([ {[ "Bucket" := "media"; "Key" := "a/one.txt";
             "LastModifiedDate" := "2023-06-01T10:00:00.000000Z";
             "url" := "s3://media/a/one.txt" ]} ],
        Raised (FormatError "01/06/2023 10:00")).
Proof.
  refine (malformed_timestamp_fails_scan
            mock_inventory_listing mock_get_object (fun b => Ok b) (fun b => Ok b)
            mock_json_loads mock_strptime_date 2 (Date 2023 6 2) "s3://reports/bad"
            no_filter (Locator "reports" "bad" "bad") "bad/2023-06-02/manifest.json"
            (Manifest (Some "Bucket, Key, LastModifiedDate") (Some [Some "data/bad.csv"]))
            "Bucket, Key, LastModifiedDate" [] [] "data/bad.csv"
            (Py.join Py.newline
               [csv_line ["media"; "a/one.txt"; "2023-06-01T10:00:00.000000Z"];
                csv_line ["media"; "a/two.txt"; "01/06/2023 10:00"];
                csv_line ["media"; "a/three.txt"; "2023-06-01T10:00:00.000000Z"]])
            [csv_line ["media"; "a/one.txt"; "2023-06-01T10:00:00.000000Z"]]
            [csv_line ["media"; "a/three.txt"; "2023-06-01T10:00:00.000000Z"]]
            (csv_line ["media"; "a/two.txt"; "01/06/2023 10:00"])
            [] _
            {[ "Bucket" := "media"; "Key" := "a/two.txt";
               "LastModifiedDate" := "01/06/2023 10:00" ]}
            "a/two.txt" "01/06/2023 10:00" _ _ _ _ _ _ _ _ _ _ _ _ _);
    try reflexivity; try by_evaluation.
Defined.

(** Against C6 for every record: a record without a Key column is dropped before
    its timestamp is read. With the schema LastModifiedDate, Key, the line
    whose only field is a malformed date is skipped, the scan goes on and
    yields the record of the next line. *)
Lemma malformed_timestamp_skipped_counterexample :
  record_of_line ["LastModifiedDate"; "Key"] (csv_line ["01/06/2023 10:00"])
    = Ok {[ "LastModifiedDate" := "01/06/2023 10:00" ]}
  /\ mock_strptime_date "01/06/2023 10:00" = None
  /\ mock_latest_inventory "s3://reports/odd" no_filter =
     Some ([ {[ "LastModifiedDate" := "2023-06-01T10:00:00.000000Z";
                "Key" := "a/three.txt" ]} ], Done).
Proof. repeat split; by_evaluation. Qed.

Section InventoryLine.

Variable get_object : string -> string -> result string.
Variable gunzip : string -> result string.
Variable decode_utf8 : string -> result string.
Variable strptime_date : string -> option date.

(** The scan around one line: what the files and the lines before it
    yield, then what the line gives, then the rest of the scan. *)
Lemma scan_files_at_line bkt keys opts fs1 fk fs2 ys1 body before line after ys2 :
  scan_files get_object gunzip decode_utf8 strptime_date bkt keys opts fs1 = (ys1, Done) ->
  read get_object gunzip decode_utf8 (s3_uri bkt fk) = Ok body ->
  Py.split Py.newline body = before ++ line :: after ->
  scan_lines strptime_date keys opts before = (ys2, Done) ->
  let rest :=
    gen_seq (scan_lines strptime_date keys opts after)
      (scan_files get_object gunzip decode_utf8 strptime_date bkt keys opts fs2) in
  scan_files get_object gunzip decode_utf8 strptime_date bkt keys opts
    (fs1 ++ Some fk :: fs2)
  = match scan_line strptime_date keys opts line with
    | Skip => (ys1 ++ ys2 ++ rest.1, rest.2)
    | Yield r => (ys1 ++ ys2 ++ r :: rest.1, rest.2)
    | Fail e => (ys1 ++ ys2, Raised e)
    end.
Proof.
  intros H1 Hr Hb H2 rest. subst rest.
  rewrite scan_files_app, H1. simpl. rewrite Hr. simpl.
  rewrite Hb, scan_lines_app, H2. simpl.
  destruct (scan_line strptime_date keys opts line) as [|r|e];
    [| |simpl; now rewrite app_nil_r];
    destruct (scan_lines strptime_date keys opts after) as [ya [|ea]];
    destruct (scan_files get_object gunzip decode_utf8 strptime_date bkt keys opts fs2)
      as [yf oc];
    simpl; rewrite <- ?app_assoc; reflexivity.
Qed.

(** A record with a Key and a date inside the window that passes the
    prefix and suffix tests is yielded, with its url when the schema has
    Bucket and Key. *)
Lemma scan_line_inside keys opts line info k v dt :
  record_of_line keys line = Ok info -> info !! "Key" = Some k ->
  info !! datetime_key opts = Some v -> strptime_date v = Some dt ->
  outside_window opts dt = false ->
  (forall p, prefix opts = Some p -> Py.slice_to (String.length p) k = p) ->
  (forall s, suffix opts = Some s -> Py.endswith k s = true) ->
  scan_line strptime_date keys opts line
  = if bool_decide ("Bucket" ∈ keys) && bool_decide ("Key" ∈ keys)
    then match info !! "Bucket" with
         | None => Fail (KeyError "Bucket")
         | Some b => Yield (<["url" := s3_uri b k]> info)
         end
    else Yield info.
Proof.
  intros Hi Hk Hv Hd Hw Hp Hs. unfold scan_line. rewrite Hi, Hk, Hv, Hd, Hw.
  assert (Ep : match prefix opts with
               | Some p => negb (String.eqb (Py.slice_to (String.length p) k) p)
               | None => false
               end = false).
  { destruct (prefix opts) as [p|]; [|reflexivity].
    rewrite (Hp p eq_refl). now rewrite String.eqb_refl. }
  assert (Es : match suffix opts with
               | Some s => Py.endswith k s
               | None => true
               end = true).
  { destruct (suffix opts) as [sfx|]; [exact (Hs sfx eq_refl) | reflexivity]. }
  now rewrite Ep, Es.
Qed.

End InventoryLine.

(** C7. In a run of [latest_inventory] that has located a manifest and
    read its schema, every record yielded carries the url field
    s3://Bucket/Key of its own Bucket and Key when the schema has both
    columns. And for each line of a data file that the run reaches, with
    the record [info] built from it: a record without a Key column is
    dropped, the run yields nothing for it and goes on with the next
    line; so is a record whose date lies before [start_date] or after
    [end_date]; a record whose date is not before [start_date] and not
    after [end_date] (equal to either end included) and whose Key passes
    the prefix and suffix tests is yielded at its place in the run, with
    the url field when the schema has Bucket and Key, as it is
    otherwise. *)
Theorem inventory_record_filtering
    (list_objects_v2 : list_request -> result list_response)
    (get_object : string -> string -> result string)
    (gunzip decode_utf8 : string -> result string)
    (json_loads : string -> result manifest)
    (strptime_date : string -> option date)
    (fuel : nat) (today : date) (url : string) (opts : scan_options)
    (parts : locator) (mk : string) (m : manifest) (schema : string) :
  urlparse url = Ok parts ->
  locate_manifest list_objects_v2 fuel parts [today; yesterday today] = Some (Ok (Some mk)) ->
  read_json get_object gunzip decode_utf8 json_loads (s3_uri (bucket parts) mk) = Ok m ->
  fileSchema m = Some schema ->
  let keys := schema_keys schema in
  let run := latest_inventory list_objects_v2 get_object gunzip decode_utf8 json_loads
               strptime_date fuel today url opts in
  (forall ys o r,
     run = Some (ys, o) -> r ∈ ys ->
     "Bucket" ∈ keys -> "Key" ∈ keys ->
     exists b k,
       r !! "Bucket" = Some b /\ r !! "Key" = Some k
       /\ r !! "url" = Some ("s3://" +:+ b +:+ "/" +:+ k))
  /\ (forall fs1 fk fs2 ys1 body before line after ys2 info,
        files m = Some (fs1 ++ Some fk :: fs2) ->
        scan_files get_object gunzip decode_utf8 strptime_date (bucket parts) keys opts fs1
        = (ys1, Done) ->
        read get_object gunzip decode_utf8 (s3_uri (bucket parts) fk) = Ok body ->
        Py.split Py.newline body = before ++ line :: after ->
        scan_lines strptime_date keys opts before = (ys2, Done) ->
        record_of_line keys line = Ok info ->
        let rest :=
          gen_seq (scan_lines strptime_date keys opts after)
            (scan_files get_object gunzip decode_utf8 strptime_date (bucket parts) keys
               opts fs2) in
        (info !! "Key" = None -> run = Some (ys1 ++ ys2 ++ rest.1, rest.2))
        /\ (forall k v dt,
              info !! "Key" = Some k -> info !! datetime_key opts = Some v ->
              strptime_date v = Some dt ->
              ((exists s, start_date opts = Some s /\ date_lt dt s)
               \/ (exists e, end_date opts = Some e /\ date_lt e dt) ->
               run = Some (ys1 ++ ys2 ++ rest.1, rest.2))
              /\ ((forall s, start_date opts = Some s -> ~ date_lt dt s) ->
                  (forall e, end_date opts = Some e -> ~ date_lt e dt) ->
                  (forall p, prefix opts = Some p ->
                             Py.slice_to (String.length p) k = p) ->
                  (forall s, suffix opts = Some s -> Py.endswith k s = true) ->
                  ("Bucket" ∈ keys -> "Key" ∈ keys ->
                   forall b, info !! "Bucket" = Some b ->
                     run = Some (ys1 ++ ys2
                                 ++ <["url" := "s3://" +:+ b +:+ "/" +:+ k]> info :: rest.1,
                                 rest.2))
                  /\ (~ ("Bucket" ∈ keys /\ "Key" ∈ keys) ->
                      run = Some (ys1 ++ ys2 ++ info :: rest.1, rest.2))))).
Proof.
  intros Hp Hl Hj Hs keys run.
  assert (Hrun : run = Some (scan_files get_object gunzip decode_utf8 strptime_date
                               (bucket parts) keys opts (default [] (files m)))).
  { subst run keys. rewrite (latest_inventory_located _ _ _ _ _ _ _ _ _ _ _ _ Hp Hl).
    now rewrite (scan_manifest_unfold _ _ _ _ _ _ _ _ _ _ Hj Hs). }
  rewrite Hrun. clear Hrun run. split.
  - intros ys o r [= E] Hr Hb Hk.
    assert (Hr' : r ∈ (ys, o).1) by exact Hr. rewrite <- E in Hr'.
    apply scan_files_yielded in Hr' as (line & Hline).
    exact (scan_line_yield_url _ _ _ _ _ Hline Hb Hk).
  - intros fs1 fk fs2 ys1 body before line after ys2 info Hf H1 Hr Hb H2 Hi rest.
    rewrite Hf. cbn [from_option id].
    rewrite (scan_files_at_line _ _ _ _ _ _ _ _ _ _ _ _ _ _ _ _ H1 Hr Hb H2).
    fold rest. split.
    + intros Hk. now rewrite (scan_line_no_key _ _ _ _ _ Hi Hk).
    + intros k v dt Hk Hv Hd. split.
      * intros Hout. apply outside_window_spec in Hout.
        now rewrite (scan_line_outside _ _ _ _ _ _ _ _ Hi Hk Hv Hd Hout).
      * intros Hstart Hend Hpre Hsuf.
        assert (Hin : outside_window opts dt = false).
        { destruct (outside_window opts dt) eqn:E; [|reflexivity].
          apply outside_window_spec in E as [(s & E & H)|(e & E & H)];
            [destruct (Hstart s E H) | destruct (Hend e E H)]. }
        rewrite (scan_line_inside _ _ _ _ _ _ _ _ Hi Hk Hv Hd Hin Hpre Hsuf).
        split.
        -- intros HB HK b Hbkt.
           rewrite !bool_decide_eq_true_2 by assumption. cbn [andb].
           now rewrite Hbkt.
        -- intros Hnot.
           destruct (bool_decide ("Bucket" ∈ keys)) eqn:EB;
             [|reflexivity].
           destruct (bool_decide ("Key" ∈ keys)) eqn:EK; [|reflexivity].
           apply bool_decide_eq_true_1 in EB, EK. now destruct Hnot.
Qed.

Lemma inventory_record_filtering_witness :
  let day := Date 2023 6 1 in
  let opts := ScanOptions None None (Some day) (Some day) "LastModifiedDate" in
  mock_latest_inventory "s3://reports/inv" opts
  = Some ([ <["url" := "s3://media/a/new.txt"]>
              {[ "Bucket" := "media"; "Key" := "a/new.txt";
                 "LastModifiedDate" := "2023-06-01T10:00:00.000000Z" ]} ], Done).
Proof.
  intros day opts.
  refine (proj1 (proj2 (proj2 (proj2 (inventory_record_filtering
            mock_inventory_listing mock_get_object (fun b => Ok b) (fun b => Ok b)
            mock_json_loads mock_strptime_date 2 (Date 2023 6 2) "s3://reports/inv" opts
            (Locator "reports" "inv" "inv") "inv/2023-06-01/manifest.json"
            (Manifest (Some "Bucket, Key, LastModifiedDate") (Some [Some "data/inv.csv"]))
            "Bucket, Key, LastModifiedDate" _ _ _ _)
            [] "data/inv.csv" [] []
            (Py.join Py.newline
               [csv_line ["media"; "a/old.txt"; "2023-01-01T10:00:00.000000Z"];
                csv_line ["media"; "a/new.txt"; "2023-06-01T10:00:00.000000Z"]])
            [csv_line ["media"; "a/old.txt"; "2023-01-01T10:00:00.000000Z"]]
            (csv_line ["media"; "a/new.txt"; "2023-06-01T10:00:00.000000Z"])
            [] []
            {[ "Bucket" := "media"; "Key" := "a/new.txt";
               "LastModifiedDate" := "2023-06-01T10:00:00.000000Z" ]}
            _ _ _ _ _ _)
            "a/new.txt" "2023-06-01T10:00:00.000000Z" day _ _ _) _ _ _ _)
            _ _ "media" _);
    try reflexivity; try by_evaluation;
    try (apply (bool_decide_unpack _); vm_compute; exact I);
    try discriminate.
  - intros s [= <-]. unfold date_lt. simpl. lia.
  - intros e [= <-]. unfold date_lt. simpl. lia.
Defined.

Example inventory_filtering_start_date :
  latest_inventory mock_inventory_listing mock_get_object (fun b => Ok b) (fun b => Ok b)
    mock_json_loads mock_strptime_date 2 (Date 2023 6 2) "s3://reports/inv"
    (ScanOptions None None (Some (Date 2023 3 1)) None "LastModifiedDate")
  = Some ([ {[ "Bucket" := "media"; "Key" := "a/new.txt";
               "LastModifiedDate" := "2023-06-01T10:00:00.000000Z";
               "url" := "s3://media/a/new.txt" ]} ], Done).
Proof. by_evaluation. Qed.

(** ** Request signer *)

Section DictFacts.

Implicit Types (d : list (string * string)) (k v : string).

Lemma dict_get_set_eq k v d : dict_get k (dict_set k v d) = Some v.
Proof.
  induction d as [|[k' v'] d IH]; simpl.
  - now rewrite String.eqb_refl.
  - destruct (String.eqb k k') eqn:E; simpl; rewrite ?String.eqb_refl, ?E; auto.
Qed.

Lemma dict_get_set_ne k k' v d : k <> k' -> dict_get k (dict_set k' v d) = dict_get k d.
Proof.
  intros Hne. apply String.eqb_neq in Hne.
  induction d as [|[k0 v0] d IH]; simpl.
  - now rewrite Hne.
  - destruct (String.eqb k' k0) eqn:E; simpl.
    + apply String.eqb_eq in E as ->. now rewrite Hne.
    + now rewrite IH.
Qed.

Lemma dict_keys_set k v d :
  dict_keys (dict_set k v d) =
  if bool_decide (k ∈ dict_keys d) then dict_keys d else dict_keys d ++ [k].
Proof.
  induction d as [|[k' v'] d IH]; simpl; [reflexivity|].
  destruct (String.eqb_spec k k') as [->|Hne]; simpl.
  - rewrite bool_decide_eq_true_2 by left. reflexivity.
  - rewrite IH. destruct (bool_decide (k ∈ dict_keys d)) eqn:E.
    + apply bool_decide_eq_true_1 in E. rewrite bool_decide_eq_true_2 by now right.
      reflexivity.
    + apply bool_decide_eq_false_1 in E.
      rewrite bool_decide_eq_false_2; [reflexivity|].
      intros [?|?]%elem_of_cons; congruence.
Qed.

Lemma dict_set_NoDup k v d : NoDup (dict_keys d) -> NoDup (dict_keys (dict_set k v d)).
Proof.
  intros H. rewrite dict_keys_set.
  destruct (bool_decide (k ∈ dict_keys d)) eqn:E; [exact H|].
  apply bool_decide_eq_false_1 in E.
  apply NoDup_app. split; [exact H|]. split; [|apply NoDup_singleton].
  intros x Hx ->%list_elem_of_singleton. contradiction.
Qed.

Lemma dict_set_not_nil k v d : dict_set k v d <> [].
Proof. destruct d as [|[k' v'] d]; simpl; [|destruct (String.eqb k k')]; discriminate. Qed.

(** The items of a dictionary, read through its keys. *)
Lemma dict_items_by_key d :
  NoDup (dict_keys d) ->
  map (fun k => (k, default "" (dict_get k d))) (dict_keys d) = d.
Proof.
  induction d as [|[k v] d IH]; simpl; [reflexivity|].
  intros [Hnotin Hnd]%NoDup_cons.
  rewrite String.eqb_refl. simpl. f_equal.
  rewrite <- (IH Hnd) at 2. apply List.map_ext_in.
  intros k' Hin%list_elem_of_In.
  destruct (String.eqb_spec k' k) as [->|]; [contradiction | reflexivity].
Qed.

End DictFacts.

Section SortFacts.

Lemma name_le_trans : Transitive name_le.
Proof.
  intros a b c Hab Hbc. unfold name_le in *.
  apply Is_true_true. apply Is_true_true in Hab, Hbc.
  exact (transitivity (R := String.le) Hab Hbc).
Qed.

Lemma insert_sorted_perm x l : Permutation (insert_sorted x l) (x :: l).
Proof.
  induction l as [|y l IH]; simpl; [reflexivity|].
  destruct (String.leb x y); [reflexivity|].
  rewrite IH. apply perm_swap.
Qed.

Lemma sorted_perm l : Permutation (sorted l) l.
Proof.
  induction l as [|x l IH]; simpl; [reflexivity|].
  rewrite insert_sorted_perm. now constructor.
Qed.

Lemma insert_sorted_hd x l y :
  HdRel name_le y l -> name_le y x -> HdRel name_le y (insert_sorted x l).
Proof.
  intros Hl Hx. destruct l as [|z l]; simpl; [now constructor|].
  destruct (String.leb x z); constructor; [exact Hx|]. now inversion Hl.
Qed.

Lemma insert_sorted_sorted x l : Sorted name_le l -> Sorted name_le (insert_sorted x l).
Proof.
  induction 1 as [|y l Hs IH Hhd]; simpl; [repeat constructor|].
  destruct (String.leb x y) eqn:E.
  - constructor; [now constructor | now constructor].
  - constructor; [exact IH|]. apply insert_sorted_hd; [exact Hhd|].
    destruct (String.leb_total x y) as [H|H]; [congruence | exact H].
Qed.

Lemma sorted_sorted l : Sorted name_le (sorted l).
Proof.
  induction l as [|x l IH]; simpl; [constructor|]. now apply insert_sorted_sorted.
Qed.

Lemma le_ne_lt a b : name_le a b -> a <> b -> String.ltb a b = true.
Proof.
  unfold name_le, String.leb, String.ltb. intros H Hne.
  destruct (String.compare a b) eqn:E; [|reflexivity|discriminate].
  apply String.compare_eq_iff in E. contradiction.
Qed.

(** Distinct names in ascending order are in strictly ascending order. *)
Lemma strict_of_NoDup (s : list string) :
  StronglySorted name_le s -> NoDup s ->
  StronglySorted (fun a b => String.ltb a b = true) s.
Proof.
  induction 1 as [|x s Hs IH Hall]; [constructor|].
  intros [Hnotin Hnd]%NoDup_cons.
  constructor; [now apply IH|].
  apply Forall_forall. intros y Hy.
  apply le_ne_lt; [exact (proj1 (Forall_forall _ _) Hall y Hy)|].
  intros ->. contradiction.
Qed.

Lemma sorted_strict l :
  NoDup l -> StronglySorted (fun a b => String.ltb a b = true) (sorted l).
Proof.
  intros Hnd. apply strict_of_NoDup.
  - exact (Sorted_StronglySorted name_le_trans (sorted_sorted l)).
  - now rewrite sorted_perm.
Qed.

Lemma strongly_sorted_map {A B} (f : A -> B) (R : B -> B -> Prop) (l : list A) :
  StronglySorted R (map f l) -> StronglySorted (fun a b => R (f a) (f b)) l.
Proof.
  induction l as [|x l IH]; simpl; [constructor|].
  intros H. inversion H as [|? ? Hs Hall]; subst. constructor; [now apply IH|].
  apply Forall_forall. intros y Hy. apply (proj1 (Forall_forall _ _) Hall).
  apply list_elem_of_In, List.in_map. now apply list_elem_of_In.
Qed.

End SortFacts.

Section CanonicalFacts.

Implicit Types (h : list (string * string)).

Lemma sorted_items_names h : map fst (sorted_items h) = sorted (dict_keys h).
Proof.
  unfold sorted_items. rewrite List.map_map. simpl. apply List.map_id.
Qed.

Lemma sorted_items_perm h : NoDup (dict_keys h) -> Permutation (sorted_items h) h.
Proof.
  intros Hnd. rewrite <- (dict_items_by_key h Hnd) at 2.
  apply Permutation_map, sorted_perm.
Qed.

Lemma sorted_items_sorted h :
  NoDup (dict_keys h) -> StronglySorted name_lt (sorted_items h).
Proof.
  intros Hnd. apply (strongly_sorted_map fst (fun a b => String.ltb a b = true)).
  rewrite sorted_items_names. now apply sorted_strict.
Qed.

(** Joining the lines with newlines and ending with one more is ending
    each line with a newline, as long as there is a line. *)
Lemma join_lines (f : string -> string) (l : list string) :
  l <> [] ->
  Py.join Py.newline (map (fun k => k +:+ ":" +:+ f k) l) +:+ Py.newline =
  header_lines (map (fun k => (k, f k)) l).
Proof.
  induction l as [|k l IH]; [congruence|]. intros _.
  destruct l as [|k' l].
  - simpl. rewrite !append_assoc. reflexivity.
  - specialize (IH ltac:(discriminate)).
    change (header_lines (map (fun k => (k, f k)) (k :: k' :: l)))
      with (k +:+ ":" +:+ f k +:+ Py.newline
            +:+ header_lines (map (fun k => (k, f k)) (k' :: l))).
    rewrite <- IH.
    change (Py.join Py.newline (map (fun k => k +:+ ":" +:+ f k) (k :: k' :: l)))
      with ((k +:+ ":" +:+ f k) +:+ Py.newline
            +:+ Py.join Py.newline (map (fun k => k +:+ ":" +:+ f k) (k' :: l))).
    rewrite !append_assoc. reflexivity.
Qed.

Lemma canonical_request_by_items method path h :
  h <> [] ->
  canonical_request method path h = canonical_request_spec method path (sorted_items h).
Proof.
  intros Hne. unfold canonical_request, canonical_request_spec, canonical_headers,
    signed_headers.
  rewrite sorted_items_names. unfold sorted_items.
  rewrite join_lines; [reflexivity|].
  intros E. apply (f_equal length) in E.
  rewrite (Permutation_length (sorted_perm _)) in E.
  unfold dict_keys in E. rewrite length_map in E. destruct h; [congruence | discriminate].
Qed.

Lemma signing_headers_NoDup env host amzdate args :
  NoDup (dict_keys (signing_headers env host amzdate args)).
Proof.
  unfold signing_headers.
  destruct (session_token env); [apply dict_set_NoDup|];
    (destruct (public args); [apply dict_set_NoDup|]);
    (destruct (requester_pays args); [apply dict_set_NoDup|]);
    simpl; apply (bool_decide_unpack _); vm_compute; exact I.
Qed.

Lemma signing_headers_not_nil env host amzdate args :
  signing_headers env host amzdate args <> [].
Proof.
  unfold signing_headers.
  destruct (session_token env); [apply dict_set_not_nil|].
  destruct (public args); [apply dict_set_not_nil|].
  destruct (requester_pays args); [apply dict_set_not_nil | discriminate].
Qed.

Lemma uri_encode_unreserved s :
  string_forallb (fun c => unreserved c || Ascii.eqb c "/") s = true -> uri_encode s = s.
Proof.
  induction s as [|c s IH]; simpl; [reflexivity|].
  intros [-> H]%andb_true_iff. now rewrite IH.
Qed.

End CanonicalFacts.

Section SignerFacts.

Variable sha256 : string -> string.
Variable hmac_sha256 : string -> string -> string.

Lemma get_presigned_url_signed env now url args ak sk parts :
  resolve_access_key env = Some ak -> resolve_secret_key env = Some sk ->
  urlparse url = Ok parts ->
  let h := signing_headers env (host_of parts) (strftime_amz now) args in
  let auth :=
    authorization sha256 hmac_sha256 ak sk (strftime_basic (dt_date now))
      (strftime_amz now) (resolve_region env args) (signed_headers h)
      (canonical_request (rtype args) ("/" +:+ key parts) h) in
  get_presigned_url sha256 hmac_sha256 env now url args =
  Ok ("https://" +:+ host_of parts +:+ "/" +:+ key parts,
      Some (match content_type args with
            | Some ct => dict_set "content-type" ct (dict_set "Authorization" auth h)
            | None => dict_set "Authorization" auth h
            end)).
Proof.
  intros Ha Hs Hp. unfold get_presigned_url. rewrite Ha, Hs, Hp. reflexivity.
Qed.

Lemma get_presigned_url_unsigned env now url args :
  resolve_access_key env = None \/ resolve_secret_key env = None ->
  get_presigned_url sha256 hmac_sha256 env now url args = Ok (url, None).
Proof.
  unfold get_presigned_url. intros [-> | ->]; [reflexivity|].
  destruct (resolve_access_key env); reflexivity.
Qed.

Lemma get_presigned_url_inv env now url args url' hdrs :
  get_presigned_url sha256 hmac_sha256 env now url args = Ok (url', Some hdrs) ->
  exists ak sk parts,
    resolve_access_key env = Some ak /\ resolve_secret_key env = Some sk
    /\ urlparse url = Ok parts.
Proof.
  unfold get_presigned_url.
  destruct (resolve_access_key env) as [ak|]; [|discriminate].
  destruct (resolve_secret_key env) as [sk|]; [|discriminate].
  destruct (urlparse url) as [parts|]; [|discriminate].
  intros _. now exists ak, sk, parts.
Qed.

Lemma signing_headers_token env host amzdate args :
  dict_get "x-amz-security-token" (signing_headers env host amzdate args)
  = session_token env.
Proof.
  unfold signing_headers. destruct (session_token env) as [tok|].
  - apply dict_get_set_eq.
  - destruct (public args), (requester_pays args);
      rewrite ?dict_get_set_ne by discriminate; reflexivity.
Qed.

Lemma session_token_spec env tok :
  session_token env = Some tok <->
  env !! "AWS_SESSION_TOKEN" = Some tok /\ tok <> ""
  /\ env !! "AWS_BUCKET_ACCESS_KEY_ID" = None.
Proof.
  unfold session_token, environ_get.
  destruct (env !! "AWS_SESSION_TOKEN") as [t|]; [|split; [discriminate | now intros [? _]]].
  destruct (env !! "AWS_BUCKET_ACCESS_KEY_ID") as [o|].
  - rewrite bool_decide_eq_true_2 by eauto. rewrite andb_false_r.
    split; [discriminate | now intros (_ & _ & ?)].
  - rewrite bool_decide_eq_false_2 by (intros [? ?]; discriminate).
    rewrite andb_true_r. destruct t as [|c t]; simpl.
    + split; [discriminate | intros ([= <-] & ? & _); congruence].
    + split; [intros [= <-]; repeat split; discriminate | now intros ([= <-] & _)].
Qed.

End SignerFacts.

(** C1. When both keys are resolvable and the URL parses, the
    canonical request whose SHA-256 digest enters the string to sign, and
    through it the Authorization header, is: the method, a newline, a
    slash followed by the object key as parsed, a newline, an empty query
    line, each signed header as name:value and a newline in ascending
    order of the names, a newline, the names joined by semicolons, a
    newline, and UNSIGNED-PAYLOAD. The key is not percent-encoded; for a
    key of letters, digits, hyphen, underscore, dot, tilde and slash the
    encoded key is the key. *)
Theorem canonical_request_layout
    (sha256 : string -> string) (hmac_sha256 : string -> string -> string)
    (env : gmap string string) (now : datetime) (url : string) (args : presign_args)
    (ak sk : string) (parts : locator) :
  resolve_access_key env = Some ak ->
  resolve_secret_key env = Some sk ->
  urlparse url = Ok parts ->
  exists hs,
    Permutation hs (signing_headers env (host_of parts) (strftime_amz now) args)
    /\ StronglySorted name_lt hs
    /\ authorization_of (get_presigned_url sha256 hmac_sha256 env now url args)
       = Some (authorization sha256 hmac_sha256 ak sk (strftime_basic (dt_date now))
                 (strftime_amz now) (resolve_region env args)
                 (Py.join ";" (map fst hs))
                 (canonical_request_spec (rtype args) ("/" +:+ key parts) hs))
    /\ (string_forallb (fun c => unreserved c || Ascii.eqb c "/") (key parts) = true ->
        canonical_request_spec (rtype args) ("/" +:+ key parts) hs
        = canonical_request_spec (rtype args) ("/" +:+ uri_encode (key parts)) hs).
Proof.
  intros Ha Hs Hp.
  set (h := signing_headers env (host_of parts) (strftime_amz now) args).
  pose proof (signing_headers_NoDup env (host_of parts) (strftime_amz now) args) as Hnd.
  pose proof (signing_headers_not_nil env (host_of parts) (strftime_amz now) args) as Hne.
  fold h in Hnd, Hne.
  exists (sorted_items h). split; [now apply sorted_items_perm|].
  split; [now apply sorted_items_sorted|]. split.
  - rewrite (get_presigned_url_signed sha256 hmac_sha256 _ _ _ _ _ _ _ Ha Hs Hp).
    fold h. cbv zeta. unfold authorization_of.
    rewrite sorted_items_names, <- (canonical_request_by_items _ _ h Hne).
    destruct (content_type args);
      rewrite ?dict_get_set_ne by discriminate; now rewrite dict_get_set_eq.
  - intros Hk. now rewrite uri_encode_unreserved.
Qed.

Lemma canonical_request_layout_witness :
  exists hs,
    Permutation hs
      [("host", "bucket.s3.amazonaws.com"); ("x-amz-content-sha256", "UNSIGNED-PAYLOAD");
       ("x-amz-date", "20230602T123045Z")]
    /\ StronglySorted name_lt hs
    /\ authorization_of
         (get_presigned_url mock_sha256 mock_hmac_sha256 mock_env mock_now
            "s3://bucket/data/file.txt" default_args)
       = Some (authorization mock_sha256 mock_hmac_sha256 "AKIDEXAMPLE" "secret"
                 "20230602" "20230602T123045Z" "eu-central-1"
                 (Py.join ";" (map fst hs))
                 (canonical_request_spec "GET" "/data/file.txt" hs)).
Proof.
  destruct (canonical_request_layout mock_sha256 mock_hmac_sha256 mock_env mock_now
              "s3://bucket/data/file.txt" default_args "AKIDEXAMPLE" "secret"
              (Locator "bucket" "data/file.txt" "file.txt"))
    as (hs & Hperm & Hsorted & Hauth & _).
  - vm_compute. reflexivity.
  - vm_compute. reflexivity.
  - vm_compute. reflexivity.
  - exists hs. split; [exact Hperm|]. split; [exact Hsorted | exact Hauth].
Defined.

(** Against C1 with a URL-encoded key: the key is signed as it is. For the key
    [my file.txt] the text that is hashed has /my file.txt on its second
    line, not /my%20file.txt. *)
Lemma canonical_request_unencoded_counterexample :
  let hs := [("host", "bucket.s3.amazonaws.com");
             ("x-amz-content-sha256", "UNSIGNED-PAYLOAD");
             ("x-amz-date", "20230602T123045Z")] in
  let signed creq :=
    Some (authorization mock_sha256 mock_hmac_sha256 "AKIDEXAMPLE" "secret"
            "20230602" "20230602T123045Z" "eu-central-1"
            "host;x-amz-content-sha256;x-amz-date" creq) in
  let result :=
    get_presigned_url mock_sha256 mock_hmac_sha256 mock_env mock_now
      "s3://bucket/my file.txt" default_args in
  uri_encode "my file.txt" = "my%20file.txt"
  /\ authorization_of result = signed (canonical_request_spec "GET" "/my file.txt" hs)
  /\ authorization_of result
     <> signed (canonical_request_spec "GET" ("/" +:+ uri_encode "my file.txt") hs).
Proof. repeat split; by_evaluation. Qed.

(** C2. When the access key is set in neither
    AWS_BUCKET_ACCESS_KEY_ID nor AWS_ACCESS_KEY_ID, or the secret key is
    set in neither AWS_BUCKET_SECRET_ACCESS_KEY nor AWS_SECRET_ACCESS_KEY,
    [get_presigned_url] returns the input URL as it is together with
    [None], and raises nothing, whatever the URL. *)
Theorem unsigned_without_credentials
    (sha256 : string -> string) (hmac_sha256 : string -> string -> string)
    (env : gmap string string) (now : datetime) (url : string) (args : presign_args) :
  (env !! "AWS_BUCKET_ACCESS_KEY_ID" = None /\ env !! "AWS_ACCESS_KEY_ID" = None)
  \/ (env !! "AWS_BUCKET_SECRET_ACCESS_KEY" = None /\ env !! "AWS_SECRET_ACCESS_KEY" = None) ->
  get_presigned_url sha256 hmac_sha256 env now url args = Ok (url, None).
Proof.
  intros H. apply get_presigned_url_unsigned.
  unfold resolve_access_key, resolve_secret_key, environ_get.
  destruct H as [[-> ->]|[-> ->]]; auto.
Qed.

Lemma unsigned_without_credentials_witness :
  get_presigned_url mock_sha256 mock_hmac_sha256 ∅ mock_now "not an s3 url" default_args
  = Ok ("not an s3 url", None).
Proof.
  apply unsigned_without_credentials. left. split; reflexivity.
Defined.

(** Against C2 read slot by slot: each key falls back on its own default variable,
    so an access key from the override slot and a secret key from the
    default slot sign the request although neither slot has both. *)
Lemma unsigned_without_credentials_counterexample :
  slot_complete mixed_env "AWS_BUCKET_ACCESS_KEY_ID" "AWS_BUCKET_SECRET_ACCESS_KEY" = false
  /\ slot_complete mixed_env "AWS_ACCESS_KEY_ID" "AWS_SECRET_ACCESS_KEY" = false
  /\ get_presigned_url mock_sha256 mock_hmac_sha256 mixed_env mock_now
       "s3://bucket/key" default_args
     <> Ok ("s3://bucket/key", None)
  /\ exists hdrs,
       get_presigned_url mock_sha256 mock_hmac_sha256 mixed_env mock_now
         "s3://bucket/key" default_args
       = Ok ("https://bucket.s3.amazonaws.com/key", Some hdrs).
Proof.
  split; [vm_compute; reflexivity|]. split; [vm_compute; reflexivity|].
  rewrite (get_presigned_url_signed mock_sha256 mock_hmac_sha256 mixed_env mock_now
             "s3://bucket/key" default_args "AKIDOVERRIDE" "secret"
             (Locator "bucket" "key" "key"))
    by (vm_compute; reflexivity).
  split; [discriminate|]. eexists. reflexivity.
Qed.

(** C3. When [get_presigned_url] returns signed headers, the header
    x-amz-security-token is among them exactly when AWS_SESSION_TOKEN
    holds a token, that is a non-empty string, and AWS_BUCKET_ACCESS_KEY_ID
    is not set; its value is then that token. With
    AWS_BUCKET_ACCESS_KEY_ID set the header is never there. *)
Theorem session_token_header
    (sha256 : string -> string) (hmac_sha256 : string -> string -> string)
    (env : gmap string string) (now : datetime) (url : string) (args : presign_args)
    (url' : string) (hdrs : list (string * string)) :
  get_presigned_url sha256 hmac_sha256 env now url args = Ok (url', Some hdrs) ->
  (forall tok,
     dict_get "x-amz-security-token" hdrs = Some tok <->
     env !! "AWS_SESSION_TOKEN" = Some tok /\ tok <> ""
     /\ env !! "AWS_BUCKET_ACCESS_KEY_ID" = None)
  /\ (is_Some (env !! "AWS_BUCKET_ACCESS_KEY_ID") ->
      dict_get "x-amz-security-token" hdrs = None).
Proof.
  intros H.
  destruct (get_presigned_url_inv _ _ _ _ _ _ _ _ H) as (ak & sk & parts & Ha & Hs & Hp).
  rewrite (get_presigned_url_signed sha256 hmac_sha256 _ _ _ _ _ _ _ Ha Hs Hp) in H.
  cbv zeta in H. injection H as _ <-.
  assert (E : forall auth,
             dict_get "x-amz-security-token"
               match content_type args with
               | Some ct =>
                   dict_set "content-type" ct
                     (dict_set "Authorization" auth
                        (signing_headers env (host_of parts) (strftime_amz now) args))
               | None =>
                   dict_set "Authorization" auth
                     (signing_headers env (host_of parts) (strftime_amz now) args)
               end
             = session_token env).
  { intros auth. destruct (content_type args);
      rewrite !dict_get_set_ne by discriminate; apply signing_headers_token. }
  rewrite E. split.
  - intros tok. apply session_token_spec.
  - intros [o Ho]. destruct (session_token env) as [tok|] eqn:Et; [|reflexivity].
    apply session_token_spec in Et as (_ & _ & Hn). congruence.
Qed.

Lemma session_token_header_witness :
  dict_get "x-amz-security-token"
    (signing_headers session_env "bucket.s3.amazonaws.com" "20230602T123045Z" default_args)
  = Some "token".
Proof.
  pose (auth :=
    authorization mock_sha256 mock_hmac_sha256 "AKIDEXAMPLE" "secret" "20230602"
      "20230602T123045Z" "eu-central-1"
      (signed_headers
         (signing_headers session_env "bucket.s3.amazonaws.com" "20230602T123045Z"
            default_args))
      (canonical_request "GET" "/key"
         (signing_headers session_env "bucket.s3.amazonaws.com" "20230602T123045Z"
            default_args))).
  destruct (session_token_header mock_sha256 mock_hmac_sha256 session_env mock_now
              "s3://bucket/key" default_args "https://bucket.s3.amazonaws.com/key"
              (dict_set "Authorization" auth
                 (signing_headers session_env "bucket.s3.amazonaws.com"
                    "20230602T123045Z" default_args)))
    as [H _].
  - vm_compute. reflexivity.
  - rewrite <- (dict_get_set_ne "x-amz-security-token" "Authorization" auth)
      by discriminate.
    apply H. split; [vm_compute; reflexivity|].
    split; [discriminate | vm_compute; reflexivity].
Defined.

(** ** Uploader *)

Section UploaderFacts.

Variable open_rb : string -> result string.
Variable upload_fileobj : list put_call -> put_call -> result unit.

Lemma setitem_same w r k v : deref (setitem w r k v) r !! k = Some v.
Proof. unfold deref, setitem. simpl. rewrite lookup_insert_eq. apply lookup_insert_eq. Qed.

Lemma setitem_other_ref w r r' k v :
  r <> r' -> deref (setitem w r k v) r' = deref w r'.
Proof. intros Hne. unfold deref, setitem. simpl. now rewrite lookup_insert_ne. Qed.

Lemma setitem_uploads w r k v : uploads (setitem w r k v) = uploads w.
Proof. reflexivity. Qed.

Lemma setitem_keeps_acl w r r' :
  acl_public w r' -> acl_public (setitem w r "ACL" "public-read") r'.
Proof.
  intros H. unfold acl_public. destruct (decide (r = r')) as [<-|Hne].
  - apply setitem_same.
  - now rewrite setitem_other_ref.
Qed.

(** What a call that gets past [urlparse] and [open] does: it calls the
    transport, and returns or raises as the transport does. *)
Lemma upload_sends w fname uri (is_public : bool) extra parts data :
  urlparse uri = Ok parts -> open_rb fname = Ok data ->
  let r := default default_extra extra in
  let w1 := if is_public then setitem w r "ACL" "public-read" else w in
  let call := PutCall data (bucket parts) (key parts) (deref w1 r) in
  upload open_rb upload_fileobj w fname uri is_public extra =
  (World (heap w1) (uploads w ++ [call]),
   match upload_fileobj (uploads w) call with
   | Raise e => Raise e
   | Ok _ => Ok ("s3://" +:+ Py.path_join (bucket parts) (key parts))
   end).
Proof.
  intros Hp Ho. unfold upload. rewrite Hp, Ho.
  destruct is_public; cbn [uploads setitem]; destruct (upload_fileobj _ _); reflexivity.
Qed.

(** [upload] with [public=True] leaves ACL = public-read in the dictionary
    it was given. *)
Lemma upload_public_marks w fname uri extra parts :
  urlparse uri = Ok parts ->
  acl_public (upload open_rb upload_fileobj w fname uri true extra).1
    (default default_extra extra).
Proof.
  intros Hp. unfold upload, acl_public. rewrite Hp.
  destruct (open_rb fname); cbv zeta; [destruct (upload_fileobj _ _)|];
    simpl; apply setitem_same.
Qed.

(** No call of [upload] takes the entry away again. *)
Lemma upload_keeps_acl w fname uri (is_public : bool) extra r :
  acl_public w r ->
  acl_public (upload open_rb upload_fileobj w fname uri is_public extra).1 r.
Proof.
  intros H. unfold upload. destruct (urlparse uri) as [parts|]; [|exact H].
  assert (H' : acl_public
                 (if is_public
                  then setitem w (default default_extra extra) "ACL" "public-read"
                  else w) r).
  { destruct is_public; [now apply setitem_keeps_acl | exact H]. }
  destruct (open_rb fname); cbv zeta; [destruct (upload_fileobj _ _)|];
    simpl; exact H'.
Qed.

Lemma perform_keeps_acl w a :
  caller_owned a -> acl_public w default_extra ->
  acl_public (perform open_rb upload_fileobj w a) default_extra.
Proof.
  destruct a as [fname uri is_public extra | r k v]; simpl; intros Ho H.
  - now apply upload_keeps_acl.
  - unfold acl_public. now rewrite setitem_other_ref.
Qed.

Lemma run_keeps_acl actions :
  forall w, Forall caller_owned actions -> acl_public w default_extra ->
            acl_public (run open_rb upload_fileobj w actions) default_extra.
Proof.
  induction actions as [|a actions IH]; intros w Ho H; [exact H|].
  apply Forall_cons in Ho as [Ha Ho]. simpl. apply IH; [exact Ho|].
  now apply perform_keeps_acl.
Qed.

End UploaderFacts.

(** C10. A call of [upload] with [public=True] leaves ACL = public-read in
    the dictionary it was given, for the caller to see. When [extra] is
    omitted that dictionary is the one default dictionary of the function:
    whatever the program does afterwards, every later call that omits
    [extra], also with [public=False], sends ACL = public-read to the
    transport. *)
Theorem upload_public_default_sticks
    (open_rb : string -> result string)
    (upload_fileobj : list put_call -> put_call -> result unit)
    (w : world) (fname uri : string) (parts : locator) :
  urlparse uri = Ok parts ->
  (forall r, deref (upload open_rb upload_fileobj w fname uri true (Some r)).1 r !! "ACL"
             = Some "public-read")
  /\ deref (upload open_rb upload_fileobj w fname uri true None).1 default_extra !! "ACL"
     = Some "public-read"
  /\ (forall actions fname' uri' is_public' parts' data',
        Forall caller_owned actions ->
        urlparse uri' = Ok parts' ->
        open_rb fname' = Ok data' ->
        let w' := run open_rb upload_fileobj
                    (upload open_rb upload_fileobj w fname uri true None).1 actions in
        exists sent,
          uploads (upload open_rb upload_fileobj w' fname' uri' is_public' None).1
          = uploads w' ++ [sent]
          /\ put_bucket sent = bucket parts' /\ put_key sent = key parts'
          /\ put_extra sent !! "ACL" = Some "public-read").
Proof.
  intros Hp. split; [|split].
  - intros r. exact (upload_public_marks open_rb upload_fileobj w fname uri (Some r) parts Hp).
  - exact (upload_public_marks open_rb upload_fileobj w fname uri None parts Hp).
  - intros actions fname' uri' is_public' parts' data' Ho Hp' Hd w'.
    rewrite (upload_sends open_rb upload_fileobj w' fname' uri' is_public' None
               parts' data' Hp' Hd).
    cbv zeta. cbn [fst uploads].
    eexists. split; [reflexivity|]. cbn [put_bucket put_key put_extra].
    split; [reflexivity|]. split; [reflexivity|].
    assert (Hacl : acl_public w' default_extra).
    { apply run_keeps_acl; [exact Ho|].
      exact (upload_public_marks open_rb upload_fileobj w fname uri None parts Hp). }
    destruct is_public'; [now apply setitem_keeps_acl | exact Hacl].
Qed.

Lemma upload_public_default_sticks_witness :
  let w1 := (upload mock_open_rb mock_upload_fileobj initial_world "report.csv"
               "s3://bucket/public" true None).1 in
  let w2 := run mock_open_rb mock_upload_fileobj w1 [CallerSets 7 "ContentType" "text/csv";
                                 CallUpload "report.csv" "s3://bucket/a" false (Some 7)] in
  exists sent,
    uploads (upload mock_open_rb mock_upload_fileobj w2 "report.csv" "s3://bucket/private"
               false None).1
    = uploads w2 ++ [sent]
    /\ put_bucket sent = "bucket" /\ put_key sent = "private"
    /\ put_extra sent !! "ACL" = Some "public-read".
Proof.
  intros w1 w2.
  refine (proj2 (proj2 (upload_public_default_sticks mock_open_rb mock_upload_fileobj
            initial_world
            "report.csv" "s3://bucket/public" (Locator "bucket" "public" "public") _))
            [CallerSets 7 "ContentType" "text/csv";
             CallUpload "report.csv" "s3://bucket/a" false (Some 7)]
            "report.csv" "s3://bucket/private" false
            (Locator "bucket" "private" "private")
            "a,b,c" _ _ _).
  - vm_compute. reflexivity.
  - repeat constructor. discriminate.
  - vm_compute. reflexivity.
  - reflexivity.
Defined.

(** * Further properties *)

(** ** URI model *)

Section LocatorFacts.

Lemma pieces_all_empty s :
  List.filter Py.truthy (Py.split "/" s) = [] <-> string_forallb is_slash s = true.
Proof.
  induction s as [|c s IH]; [split; reflexivity|].
  rewrite split_char_cons. cbn [string_forallb]. unfold is_slash at 1.
  destruct (Ascii.eqb c "/") eqn:E; simpl.
  - exact IH.
  - pose proof (split_char_not_nil "/" s) as Hn.
    destruct (Py.split "/" s) as [|h t]; [congruence|]. simpl. split; discriminate.
Qed.

Lemma last_cons_ne {A} (x d : A) (l : list A) : l <> [] -> List.last (x :: l) d = List.last l d.
Proof. destruct l; [congruence | reflexivity]. Qed.

(** The locator [urlparse] returns, by its pieces. *)
Lemma urlparse_shape url parts :
  urlparse url = Ok parts ->
  exists b segs,
    parts = {| bucket := b; key := Py.join "/" segs;
               filename := if 1 <? length (b :: segs) then List.last (b :: segs) "" else "" |}
    /\ Forall (fun p => p <> "") (b :: segs)
    /\ Forall (fun p => Py.has_char "/" p = false) (b :: segs).
Proof.
  unfold urlparse. destruct (negb _); [discriminate|].
  pose proof (filter_truthy_nonempty (Py.split "/" (Py.replace "s3://" "" url))) as Hne.
  pose proof (Forall_list_filter _ Py.truthy _
                (split_pieces "/" (Py.replace "s3://" "" url))) as Hns.
  destruct (List.filter _ _) as [|b segs]; [discriminate|].
  intros [= <-]. now exists b, segs.
Qed.

Lemma count_char_app c s r : count_char c (s +:+ r) = count_char c s + count_char c r.
Proof. induction s as [|a s IH]; simpl; [reflexivity | rewrite IH; lia]. Qed.

Lemma count_char_absent c s : Py.has_char c s = false -> count_char c s = 0.
Proof.
  induction s as [|a s IH]; simpl; [reflexivity|].
  intros [-> H]%orb_false_iff. now rewrite IH.
Qed.

Lemma bucket_slash_no_scheme b :
  Py.has_char "/" b = false -> Py.occurs "s3://" (b +:+ "/") = false.
Proof.
  intros Hb. destruct (Py.occurs "s3://" (b +:+ "/")) eqn:E; [exfalso | reflexivity].
  apply occurs_inv in E as (x & y & E). apply (f_equal (count_char "/")) in E.
  rewrite !count_char_app, (count_char_absent _ _ Hb) in E. simpl in E. lia.
Qed.

Lemma key_is_relative k :
  k = "" \/ Forall (fun seg => seg <> "") (Py.split "/" k) -> Py.startswith k "/" = false.
Proof.
  intros [-> | H]; [reflexivity|]. destruct k as [|c k]; [reflexivity|].
  unfold Py.startswith. cbn [String.prefix].
  destruct (ascii_dec "/" c) as [<-|]; [|reflexivity].
  rewrite split_char_cons, Ascii.eqb_refl in H. apply Forall_cons in H as [H _]. congruence.
Qed.

Lemma bucket_no_trailing_slash b :
  b <> "" -> Py.has_char "/" b = false -> Py.endswith b "/" = false.
Proof.
  intros Hb Hs. apply (pieces_no_trailing_sep "/").
  rewrite split_no_sep by exact Hs. now repeat constructor.
Qed.

Lemma urlparse_bucket_only b :
  b <> "" -> Py.has_char "/" b = false ->
  urlparse (s3_uri b "") = Ok {| bucket := b; key := ""; filename := "" |}.
Proof.
  intros Hb Hs. unfold s3_uri. rewrite urlparse_unfold_scheme.
  change (b +:+ "/" +:+ "") with (b +:+ "/").
  rewrite replace_from_absent by now apply bucket_slash_no_scheme.
  change (b +:+ "/") with (b +:+ String "/" "").
  rewrite split_app_sep by exact Hs. simpl.
  destruct b; [congruence | reflexivity].
Qed.

Lemma urlparse_invalid url :
  Py.startswith url "s3://" = false -> urlparse url = Raise (InvalidS3Url url).
Proof.
  intros H. unfold urlparse, Py.startswith in *.
  change 5 with (String.length "s3://"). now rewrite slice_to_prefix, H.
Qed.

End LocatorFacts.

(** X1. Whatever string it is given, a locator that [urlparse] returns has
    a non-empty bucket without a slash, a key that is empty or has only
    non-empty pieces between its slashes (no leading, trailing or doubled
    slash), and as filename the last piece of the key, or the empty
    string when the key is empty. *)
Theorem urlparse_locator_invariant (url : string) (parts : locator) :
  urlparse url = Ok parts ->
  bucket parts <> ""
  /\ Py.has_char "/" (bucket parts) = false
  /\ (key parts = "" \/ Forall (fun seg => seg <> "") (Py.split "/" (key parts)))
  /\ filename parts
     = (if Py.truthy (key parts) then List.last (Py.split "/" (key parts)) "" else "")
  /\ Py.has_char "/" (filename parts) = false.
Proof.
  intros (b & segs & -> & [Hb Hne]%Forall_cons & [Hbs Hns]%Forall_cons)%urlparse_shape.
  cbn [bucket key filename]. split; [exact Hb|]. split; [exact Hbs|].
  destruct segs as [|x segs]; [simpl; auto|].
  assert (Hsplit : Py.split "/" (Py.join "/" (x :: segs)) = x :: segs)
    by now apply split_join.
  rewrite Hsplit. split; [now right|].
  assert (Hk : Py.truthy (Py.join "/" (x :: segs)) = true).
  { destruct (Py.join "/" (x :: segs)) eqn:E; [|reflexivity].
    change (Py.split "/" "") with [""] in Hsplit. apply Forall_cons in Hne as [Hx _].
    injection Hsplit as <- _. congruence. }
  rewrite Hk. cbn [length Nat.ltb Nat.leb].
  rewrite (last_cons_ne b "" (x :: segs)) by discriminate. split; [reflexivity|].
  assert (Hin : List.last (x :: segs) "" ∈ x :: segs).
  { apply list_elem_of_In. destruct (List.exists_last (l := x :: segs)) as (l' & a & ->);
      [discriminate|]. rewrite List.last_last. apply List.in_or_app. right. now left. }
  exact (proj1 (Forall_forall _ _) Hns _ Hin).
Qed.

Lemma urlparse_locator_invariant_witness :
  let parts := Locator "bucket" "a/b.txt" "b.txt" in
  bucket parts <> ""
  /\ Py.has_char "/" (bucket parts) = false
  /\ (key parts = "" \/ Forall (fun seg => seg <> "") (Py.split "/" (key parts)))
  /\ filename parts
     = (if Py.truthy (key parts) then List.last (Py.split "/" (key parts)) "" else "")
  /\ Py.has_char "/" (filename parts) = false.
Proof.
  intros parts. apply (urlparse_locator_invariant "s3://bucket//a///b.txt" parts).
  vm_compute. reflexivity.
Defined.

(** X2. Formatting the bucket and the key of a parsed locator as
    s3://bucket/key and parsing that gives the same locator again: the
    result of [urlparse] is a normal form. *)
Theorem urlparse_reparse (url : string) (parts : locator) :
  urlparse url = Ok parts ->
  urlparse (s3_uri (bucket parts) (key parts)) = Ok parts.
Proof.
  intros (b & segs & -> & [Hb Hne]%Forall_cons & [Hbs Hns]%Forall_cons)%urlparse_shape.
  cbn [bucket key]. destruct segs as [|x segs].
  - now apply urlparse_bucket_only.
  - assert (Hsplit : Py.split "/" (Py.join "/" (x :: segs)) = x :: segs)
      by now apply split_join.
    rewrite urlparse_formatted by (rewrite ?Hsplit; assumption).
    rewrite Hsplit. cbn [length Nat.ltb Nat.leb].
    now rewrite (last_cons_ne b "" (x :: segs)) by discriminate.
Qed.

Lemma urlparse_reparse_witness :
  urlparse (s3_uri "bucket" "a/b.txt") = Ok (Locator "bucket" "a/b.txt" "b.txt").
Proof.
  apply (urlparse_reparse "s3://bucket//a/s3://b.txt" (Locator "bucket" "a/b.txt" "b.txt")).
  vm_compute. reflexivity.
Defined.

(** X3. [urlparse] raises IndexError exactly on the strings that begin
    with s3:// and in which, once every s3:// is removed, nothing but
    slashes is left: there is no bucket to return. *)
Theorem urlparse_index_error (url : string) :
  urlparse url = Raise IndexError <->
  Py.startswith url "s3://" = true
  /\ string_forallb is_slash (Py.replace "s3://" "" url) = true.
Proof.
  split.
  - intros H. destruct (Py.startswith url "s3://") eqn:E.
    + split; [reflexivity|]. apply pieces_all_empty. unfold urlparse in H.
      destruct (negb _); [discriminate|].
      destruct (List.filter _ _); [reflexivity | discriminate].
    + apply urlparse_invalid in E. congruence.
  - intros [Hs Hall]. apply pieces_all_empty in Hall.
    apply starts_with_scheme in Hs as [rest ->].
    unfold urlparse. rewrite slice_scheme.
    change (negb ("s3://" =? "s3://")%string) with false. cbv iota.
    now rewrite Hall.
Qed.

(** X4. A slash written twice counts once: two strings that differ by
    one doubled slash parse alike, as long as neither holds a further
    s3://. *)
Theorem urlparse_doubled_slash (a b : string) :
  Py.occurs "s3://" (a +:+ "/" +:+ b) = false ->
  Py.occurs "s3://" (a +:+ "//" +:+ b) = false ->
  urlparse ("s3://" +:+ a +:+ "//" +:+ b) = urlparse ("s3://" +:+ a +:+ "/" +:+ b).
Proof.
  intros H1 H2. rewrite !urlparse_unfold_scheme, !replace_from_absent by assumption.
  change (a +:+ "//" +:+ b) with (a +:+ String "/" (String "/" b)).
  change (a +:+ "/" +:+ b) with (a +:+ String "/" b).
  rewrite !split_app, (split_char_cons "/" "/" b), Ascii.eqb_refl.
  rewrite !List.filter_app. reflexivity.
Qed.

Lemma urlparse_doubled_slash_witness :
  urlparse "s3://bucket/a//b.txt" = urlparse "s3://bucket/a/b.txt".
Proof.
  apply (urlparse_doubled_slash "bucket/a" "b.txt"); vm_compute; reflexivity.
Defined.

(** ** Paginated lister *)

Section ListerEdges.

Variable list_objects_v2 : list_request -> result list_response.

(** The pages served with a token are listed, then the loop is where the
    request after the last token takes it. *)
Lemma find_pages_answers pk sfx final fuel (r : gen string) pages :
  forall kwargs,
    answers list_objects_v2 kwargs pages final ->
    (forall kwargs', list_objects_v2 kwargs' = final ->
                     find_pages list_objects_v2 fuel pk sfx kwargs' = Some r) ->
    find_pages list_objects_v2 (length pages + fuel) pk sfx kwargs
    = Some (List.filter (key_matches pk sfx) (concat pages) ++ r.1, r.2).
Proof.
  induction pages as [|page pages IH]; intros kwargs Ha Hlast; simpl in Ha |- *.
  - rewrite (Hlast kwargs Ha). now destruct r.
  - destruct Ha as (t & -> & Ha). simpl.
    rewrite (IH (with_token t kwargs) Ha Hlast). simpl.
    now rewrite List.filter_app, app_assoc.
Qed.

End ListerEdges.

(** X5. Every key that [find] yields starts with the key of the URL and
    ends with the suffix: the client-side test of line 131 lets nothing
    else through, whatever the collaborator lists. *)
Theorem find_yields_only_matches
    (list_objects_v2 : list_request -> result list_response)
    (fuel : nat) (url sfx : string) (parts : locator)
    (ys : list string) (o : outcome) (k : string) :
  urlparse url = Ok parts ->
  find list_objects_v2 fuel url sfx = Some (ys, o) ->
  k ∈ ys ->
  Py.startswith k (key parts) = true /\ Py.endswith k sfx = true.
Proof.
  intros Hp H Hk. unfold find in H. rewrite Hp in H.
  apply find_pages_match in H.
  pose proof (proj1 (Forall_forall _ _) H k Hk) as Hm.
  unfold key_matches in Hm. now apply andb_true_iff in Hm.
Qed.

Lemma find_yields_only_matches_witness :
  Py.startswith "logs/a.json" "logs" = true /\ Py.endswith "logs/a.json" ".json" = true.
Proof.
  apply (find_yields_only_matches mock_gap_listing 3 "s3://bucket/logs" ".json"
           (Locator "bucket" "logs" "logs") ["logs/a.json"] Done "logs/a.json").
  - vm_compute. reflexivity.
  - vm_compute. reflexivity.
  - left.
Defined.

(** X6. A response without a Contents entry ends the listing at once, also
    when it carries a continuation token: [find] returns having yielded
    the matching keys of the pages before it, and what the collaborator
    would list after that token is never asked for. *)
Theorem find_stops_without_contents
    (list_objects_v2 : list_request -> result list_response)
    (url sfx : string) (parts : locator)
    (pages : list (list string)) (tok : option string) (fuel : nat) :
  urlparse url = Ok parts ->
  answers list_objects_v2
    {| Bucket := bucket parts; Prefix := Some (key parts); ContinuationToken := None |}
    pages (Ok (ListResponse None tok)) ->
  length pages < fuel ->
  find list_objects_v2 fuel url sfx
  = Some (List.filter (key_matches (key parts) sfx) (concat pages), Done).
Proof.
  intros Hp Ha Hf. unfold find. rewrite Hp.
  replace fuel with (length pages + S (fuel - S (length pages))) by lia.
  rewrite (find_pages_answers list_objects_v2 _ _ _ _ ([], Done) pages _ Ha).
  - simpl. now rewrite app_nil_r.
  - intros kwargs' H. simpl. now rewrite H.
Qed.

Lemma find_stops_without_contents_witness :
  find mock_gap_listing 5 "s3://bucket/logs" ".json" = Some (["logs/a.json"], Done).
Proof.
  apply (find_stops_without_contents mock_gap_listing "s3://bucket/logs" ".json"
           (Locator "bucket" "logs" "logs") [["logs/a.json"; "logs/b.txt"]] (Some "t2") 5).
  - vm_compute. reflexivity.
  - exists "t1". split; reflexivity.
  - simpl. lia.
Defined.

(** X7. When a request of the listing fails, [find] has yielded the
    matching keys of the pages before it and raises the error of the
    collaborator as it is. *)
Theorem find_raises_after_pages
    (list_objects_v2 : list_request -> result list_response)
    (url sfx : string) (parts : locator)
    (pages : list (list string)) (e : exn) (fuel : nat) :
  urlparse url = Ok parts ->
  answers list_objects_v2
    {| Bucket := bucket parts; Prefix := Some (key parts); ContinuationToken := None |}
    pages (Raise e) ->
  length pages < fuel ->
  find list_objects_v2 fuel url sfx
  = Some (List.filter (key_matches (key parts) sfx) (concat pages), Raised e).
Proof.
  intros Hp Ha Hf. unfold find. rewrite Hp.
  replace fuel with (length pages + S (fuel - S (length pages))) by lia.
  rewrite (find_pages_answers list_objects_v2 _ _ _ _ ([], Raised e) pages _ Ha).
  - simpl. now rewrite app_nil_r.
  - intros kwargs' H. simpl. now rewrite H.
Qed.

Lemma find_raises_after_pages_witness :
  find mock_failing_listing 5 "s3://bucket/logs" ".json"
  = Some (["logs/a.json"], Raised (ClientError "SlowDown")).
Proof.
  apply (find_raises_after_pages mock_failing_listing "s3://bucket/logs" ".json"
           (Locator "bucket" "logs" "logs") [["logs/a.json"; "logs/b.txt"]]
           (ClientError "SlowDown") 5).
  - vm_compute. reflexivity.
  - exists "t1". split; reflexivity.
  - simpl. lia.
Defined.

(** ** Inventory scanner *)

Section RecordFacts.

Lemma record_of_line_fields keys line :
  record_of_line keys line = build_info keys (line_fields line) ∅.
Proof. reflexivity. Qed.

Lemma build_info_nil keys acc : build_info keys [] acc = Ok acc.
Proof. destruct keys; reflexivity. Qed.

Lemma build_info_cons_nil v fields acc : build_info [] (v :: fields) acc = Raise IndexError.
Proof. reflexivity. Qed.

Lemma build_info_cons k keys v fields acc :
  build_info (k :: keys) (v :: fields) acc = build_info keys fields (<[k := v]> acc).
Proof. reflexivity. Qed.

Lemma build_info_ok fields :
  forall keys acc, length fields <= length keys ->
                   exists info, build_info keys fields acc = Ok info.
Proof.
  induction fields as [|v fields IH]; intros keys acc Hlen.
  - rewrite build_info_nil. eauto.
  - destruct keys as [|k keys]; simpl in Hlen; [lia|].
    rewrite build_info_cons. apply IH. lia.
Qed.

Lemma build_info_index_error fields :
  forall keys acc, length keys < length fields ->
                   build_info keys fields acc = Raise IndexError.
Proof.
  induction fields as [|v fields IH]; intros keys acc Hlen; simpl in Hlen; [lia|].
  destruct keys as [|k keys]; [reflexivity|].
  rewrite build_info_cons. apply IH. simpl in Hlen. lia.
Qed.

(** Columns that get no field keep what the dictionary had. *)
Lemma build_info_frame fields :
  forall keys acc info k,
    build_info keys fields acc = Ok info ->
    k ∉ take (length fields) keys ->
    info !! k = acc !! k.
Proof.
  induction fields as [|v fields IH]; intros keys acc info k H Hk.
  - rewrite build_info_nil in H. now injection H as <-.
  - destruct keys as [|k0 keys]; [discriminate|]. rewrite build_info_cons in H.
    simpl in Hk. apply not_elem_of_cons in Hk as [Hne Hk].
    rewrite (IH _ _ _ _ H Hk). now apply lookup_insert_ne.
Qed.

Lemma build_info_lookup fields :
  forall keys acc info i k v,
    NoDup keys ->
    build_info keys fields acc = Ok info ->
    keys !! i = Some k -> fields !! i = Some v ->
    info !! k = Some v.
Proof.
  induction fields as [|v0 fields IH]; intros keys acc info i k v Hnd H Hk Hv;
    [destruct i; discriminate|].
  destruct keys as [|k0 keys]; [discriminate|]. rewrite build_info_cons in H.
  apply NoDup_cons in Hnd as [Hnotin Hnd]. destruct i as [|i]; simpl in Hk, Hv.
  - injection Hk as <-. injection Hv as <-.
    rewrite (build_info_frame _ _ _ _ k0 H).
    + apply lookup_insert_eq.
    + intros Hin. apply Hnotin. apply elem_of_take in Hin as (j & Hj & _).
      eapply list_elem_of_lookup_2, Hj.
  - exact (IH _ _ _ _ _ _ Hnd H Hk Hv).
Qed.

(** Every value of the record is one of the fields. *)
Lemma build_info_values fields :
  forall keys acc info k v,
    build_info keys fields acc = Ok info ->
    info !! k = Some v -> v ∈ fields \/ acc !! k = Some v.
Proof.
  induction fields as [|v0 fields IH]; intros keys acc info k v H Hv.
  - rewrite build_info_nil in H. injection H as <-. now right.
  - destruct keys as [|k0 keys]; [discriminate|]. rewrite build_info_cons in H.
    destruct (IH _ _ _ _ _ H Hv) as [Hin|Hacc]; [left; now right|].
    apply lookup_insert_Some in Hacc as [[_ <-]|[_ Hacc]]; [left; left | now right].
Qed.

End RecordFacts.

(** X8. A line gives a record exactly when it has no more fields than
    the schema has columns; a line with more fields raises IndexError, in
    [record_of_line] and so in the scan. *)
Theorem record_of_line_arity
    (strptime_date : string -> option date)
    (keys : list string) (opts : scan_options) (line : string) :
  ((exists info, record_of_line keys line = Ok info)
   <-> length (line_fields line) <= length keys)
  /\ (length keys < length (line_fields line) ->
      record_of_line keys line = Raise IndexError
      /\ scan_line strptime_date keys opts line = Fail IndexError).
Proof.
  rewrite record_of_line_fields. split.
  - split.
    + intros [info H]. destruct (le_lt_dec (length (line_fields line)) (length keys))
        as [Hle|Hlt]; [exact Hle|].
      rewrite (build_info_index_error _ _ _ Hlt) in H. discriminate.
    + apply build_info_ok.
  - intros Hlt. unfold scan_line. rewrite record_of_line_fields.
    now rewrite (build_info_index_error _ _ _ Hlt).
Qed.

Lemma record_of_line_arity_witness :
  record_of_line ["Bucket"; "Key"] "media,a,b.txt" = Raise IndexError
  /\ scan_line mock_strptime_date ["Bucket"; "Key"] no_filter "media,a,b.txt"
     = Fail IndexError.
Proof.
  apply (proj2 (record_of_line_arity mock_strptime_date ["Bucket"; "Key"] no_filter
                  "media,a,b.txt")).
  vm_compute. lia.
Defined.

(** X9. With column names that are all different, the record of a line
    has under the i-th column name the i-th field of the line, and nothing
    under the columns for which the line has no field. *)
Theorem record_columns
    (keys : list string) (line : string) (info : gmap string string) :
  NoDup keys ->
  record_of_line keys line = Ok info ->
  (forall i k v,
     keys !! i = Some k -> line_fields line !! i = Some v -> info !! k = Some v)
  /\ (forall i k,
        keys !! i = Some k -> length (line_fields line) <= i -> info !! k = None).
Proof.
  intros Hnd H. rewrite record_of_line_fields in H. split.
  - intros i k v Hk Hv. exact (build_info_lookup _ _ _ _ _ _ _ Hnd H Hk Hv).
  - intros i k Hk Hi. rewrite (build_info_frame _ _ _ _ k H); [apply lookup_empty|].
    intros (j & Hj & Hlt)%elem_of_take.
    pose proof (NoDup_lookup _ _ _ _ Hnd Hk Hj). lia.
Qed.

Lemma record_columns_witness :
  let info : gmap string string := {[ "Bucket" := "media"; "Key" := "a/b.txt" ]} in
  info !! "Key" = Some "a/b.txt" /\ info !! "Size" = None.
Proof.
  intros info.
  destruct (record_columns ["Bucket"; "Key"; "Size"] (csv_line ["media"; "a/b.txt"]) info)
    as [H1 H2].
  - apply (bool_decide_unpack _). vm_compute. exact I.
  - by_evaluation.
  - split.
    + apply (H1 1); vm_compute; reflexivity.
    + apply (H2 2); [reflexivity | vm_compute; lia].
Defined.

Section LineFacts.

Variable strptime_date : string -> option date.

Lemma gen_seq_nil_r {A} (g : gen A) : gen_seq g ([], Done) = g.
Proof. destruct g as [ys [|e]]; simpl; [now rewrite app_nil_r | reflexivity]. Qed.

Lemma record_of_blank k0 keys :
  record_of_line (k0 :: keys) "" = Ok (<[k0 := ""]> ∅).
Proof.
  unfold record_of_line.
  change (Py.split "," (Py.replace Py.dquote "" "")) with [""].
  now rewrite build_info_cons, build_info_nil.
Qed.

Lemma split_final_newline text :
  Py.split Py.newline (text +:+ Py.newline) = Py.split Py.newline text ++ [""].
Proof. unfold Py.newline. now rewrite split_app. Qed.

(** What a line has passed when its record is yielded. *)
Lemma scan_line_yield_inv keys opts line r :
  scan_line strptime_date keys opts line = Yield r ->
  exists info k v dt,
    record_of_line keys line = Ok info
    /\ info !! "Key" = Some k
    /\ info !! datetime_key opts = Some v
    /\ strptime_date v = Some dt
    /\ outside_window opts dt = false
    /\ (forall p, prefix opts = Some p -> Py.startswith k p = true)
    /\ (forall s, suffix opts = Some s -> Py.endswith k s = true)
    /\ (r = info
        \/ exists b, info !! "Bucket" = Some b /\ r = <["url" := s3_uri b k]> info).
Proof.
  unfold scan_line. intros H.
  destruct (record_of_line keys line) as [info|]; [|discriminate].
  destruct (info !! "Key") as [k|] eqn:Ek; [|discriminate].
  destruct (info !! datetime_key opts) as [v|] eqn:Ev; [|discriminate].
  destruct (strptime_date v) as [dt|] eqn:Ed; [|discriminate].
  destruct (outside_window opts dt) eqn:Ew; [discriminate|].
  destruct (match prefix opts with Some _ => _ | None => _ end) eqn:Ep; [discriminate|].
  destruct (match suffix opts with Some _ => _ | None => _ end) eqn:Es; [|discriminate].
  exists info, k, v, dt. repeat (split; [reflexivity || assumption|]).
  split; [|split].
  - intros p Hp. rewrite Hp in Ep. apply negb_false_iff in Ep.
    now rewrite slice_to_prefix in Ep.
  - intros s Hs. now rewrite Hs in Es.
  - destruct (bool_decide _ && bool_decide _); [|left; congruence].
    destruct (info !! "Bucket") as [b|]; [|discriminate].
    right. exists b. split; [reflexivity | congruence].
Qed.

(** *** Quotes and commas *)

Lemma replace_char_gone c s : Py.has_char c (Py.replace (String c "") "" s) = false.
Proof.
  unfold Py.replace. induction s as [|a s IH]; [reflexivity|].
  cbn [Py.replace_from String.prefix String.length Nat.sub].
  destruct (ascii_dec c a) as [->|Hne].
  - now rewrite prefix_empty.
  - cbn [Py.has_char]. rewrite IH.
    destruct (Ascii.eqb_spec a c); [congruence | reflexivity].
Qed.

Lemma split_keeps_absent c d s :
  Py.has_char c s = false ->
  Forall (fun p => Py.has_char c p = false) (Py.split (String d "") s).
Proof.
  induction s as [|a s IH]; [repeat constructor|].
  cbn [Py.has_char]. intros [Ha Hs]%orb_false_iff. specialize (IH Hs).
  rewrite split_char_cons. destruct (Ascii.eqb a d); [now constructor|].
  destruct (Py.split (String d "") s) as [|h t]; simpl.
  - repeat constructor. simpl. now rewrite Ha.
  - apply Forall_cons in IH as [Hh Ht]. constructor; [|exact Ht]. simpl. now rewrite Ha, Hh.
Qed.

Lemma line_fields_clean line :
  Forall (fun f => Py.has_char "034" f = false /\ Py.has_char "," f = false)
         (line_fields line).
Proof.
  unfold line_fields.
  pose proof (split_keeps_absent "034" "," _ (replace_char_gone "034" line)) as Hq.
  pose proof (split_pieces "," (Py.replace Py.dquote "" line)) as Hc.
  apply Forall_forall. intros f Hf. split.
  - exact (proj1 (Forall_forall _ _) Hq f Hf).
  - exact (proj1 (Forall_forall _ _) Hc f Hf).
Qed.

Lemma record_values_clean keys line info col val :
  record_of_line keys line = Ok info -> info !! col = Some val ->
  Py.has_char "034" val = false /\ Py.has_char "," val = false.
Proof.
  rewrite record_of_line_fields. intros H Hv.
  destruct (build_info_values _ _ _ _ _ _ H Hv) as [Hin|He]; [|now rewrite lookup_empty in He].
  exact (proj1 (Forall_forall _ _) (line_fields_clean line) val Hin).
Qed.

Lemma yielded_values_clean keys opts line r col val :
  scan_line strptime_date keys opts line = Yield r -> r !! col = Some val ->
  Py.has_char "034" val = false /\ Py.has_char "," val = false.
Proof.
  intros (info & k & v & dt & Hi & Hk & _ & _ & _ & _ & _ & Hr)%scan_line_yield_inv Hv.
  destruct Hr as [-> | (b & Hb & ->)]; [exact (record_values_clean _ _ _ _ _ Hi Hv)|].
  apply lookup_insert_Some in Hv as [[_ <-]|[_ Hv]];
    [|exact (record_values_clean _ _ _ _ _ Hi Hv)].
  destruct (record_values_clean _ _ _ _ _ Hi Hb) as [Hb1 Hb2].
  destruct (record_values_clean _ _ _ _ _ Hi Hk) as [Hk1 Hk2].
  unfold s3_uri. rewrite !has_char_app, Hb1, Hb2, Hk1, Hk2. split; reflexivity.
Qed.

End LineFacts.

(** X10. A data file may end with a newline: when the first column of the
    schema is not Key, the empty line after the last newline is dropped
    and the scan of the file is the scan of its text without that
    newline. *)
Theorem trailing_newline_dropped
    (strptime_date : string -> option date)
    (k0 : string) (keys : list string) (opts : scan_options) (text : string) :
  k0 <> "Key" ->
  scan_lines strptime_date (k0 :: keys) opts (Py.split Py.newline (text +:+ Py.newline))
  = scan_lines strptime_date (k0 :: keys) opts (Py.split Py.newline text).
Proof.
  intros Hne. rewrite split_final_newline, scan_lines_app.
  assert (E : scan_line strptime_date (k0 :: keys) opts "" = Skip).
  { unfold scan_line. rewrite record_of_blank.
    now rewrite lookup_insert_ne, lookup_empty. }
  simpl. rewrite E. apply gen_seq_nil_r.
Qed.

Lemma trailing_newline_dropped_witness :
  let text := csv_line ["media"; "a/new.txt"; "2023-06-01T10:00:00.000000Z"] in
  scan_lines mock_strptime_date ["Bucket"; "Key"; "LastModifiedDate"] no_filter
    (Py.split Py.newline (text +:+ Py.newline))
  = scan_lines mock_strptime_date ["Bucket"; "Key"; "LastModifiedDate"] no_filter
      (Py.split Py.newline text).
Proof.
  intros text. apply trailing_newline_dropped. discriminate.
Defined.

(** X11. When the first column of the schema is Key and the timestamp is
    read from another column, the empty line after a final newline is a
    record with an empty key and no timestamp: the scan of such a file
    yields the records of its lines and then raises KeyError for the
    timestamp column. *)
Theorem trailing_newline_key_error
    (strptime_date : string -> option date)
    (keys : list string) (opts : scan_options) (text : string)
    (ys : list (gmap string string)) :
  datetime_key opts <> "Key" ->
  scan_lines strptime_date ("Key" :: keys) opts (Py.split Py.newline text) = (ys, Done) ->
  scan_lines strptime_date ("Key" :: keys) opts (Py.split Py.newline (text +:+ Py.newline))
  = (ys, Raised (KeyError (datetime_key opts))).
Proof.
  intros Hne H. rewrite split_final_newline, scan_lines_app, H.
  assert (E : scan_line strptime_date ("Key" :: keys) opts ""
              = Fail (KeyError (datetime_key opts))).
  { unfold scan_line. rewrite record_of_blank, lookup_insert_eq.
    rewrite lookup_insert_ne by congruence. now rewrite lookup_empty. }
  simpl. rewrite E. simpl. now rewrite app_nil_r.
Qed.

Lemma trailing_newline_key_error_witness :
  let text := csv_line ["a/new.txt"; "2023-06-01T10:00:00.000000Z"] in
  scan_lines mock_strptime_date ["Key"; "LastModifiedDate"] no_filter
    (Py.split Py.newline (text +:+ Py.newline))
  = ([ {[ "Key" := "a/new.txt"; "LastModifiedDate" := "2023-06-01T10:00:00.000000Z" ]} ],
     Raised (KeyError "LastModifiedDate")).
Proof.
  intros text. apply trailing_newline_key_error; [discriminate|]. by_evaluation.
Defined.

(** X12. Every record that [latest_inventory] yields has passed all the
    filters: its Key starts with [prefix] and ends with [suffix] when they
    are given, and its timestamp column (when that is not the added
    column url) holds a value that [strptime] reads as a date neither
    before [start_date] nor after [end_date]. *)
Theorem yielded_records_pass_filters
    (list_objects_v2 : list_request -> result list_response)
    (get_object : string -> string -> result string)
    (gunzip decode_utf8 : string -> result string)
    (json_loads : string -> result manifest)
    (strptime_date : string -> option date)
    (fuel : nat) (today : date) (url : string) (opts : scan_options)
    (ys : list (gmap string string)) (o : outcome) (r : gmap string string) :
  latest_inventory list_objects_v2 get_object gunzip decode_utf8 json_loads
    strptime_date fuel today url opts = Some (ys, o) ->
  r ∈ ys ->
  exists k v dt,
    r !! "Key" = Some k
    /\ (forall p, prefix opts = Some p -> Py.startswith k p = true)
    /\ (forall s, suffix opts = Some s -> Py.endswith k s = true)
    /\ (datetime_key opts <> "url" -> r !! datetime_key opts = Some v)
    /\ strptime_date v = Some dt
    /\ (forall s, start_date opts = Some s -> ~ date_lt dt s)
    /\ (forall e, end_date opts = Some e -> ~ date_lt e dt).
Proof.
  intros Hrun Hr.
  destruct (latest_inventory_yielded _ _ _ _ _ _ _ _ _ _ _ _ _ Hrun Hr)
    as (parts & mk & m & schema & line & _ & _ & _ & Hl).
  apply scan_line_yield_inv in Hl
    as (info & k & v & dt & Hi & Hk & Hv & Hd & Hw & Hp & Hs & Hrec).
  exists k, v, dt.
  assert (Hlook : forall c, c <> "url" -> r !! c = info !! c).
  { intros c Hc. destruct Hrec as [-> | (b & _ & ->)]; [reflexivity|].
    now rewrite lookup_insert_ne. }
  split; [now rewrite Hlook by discriminate|]. split; [exact Hp|]. split; [exact Hs|].
  split; [intros Hne; now rewrite Hlook|]. split; [exact Hd|].
  split.
  - intros s Es Hlt. assert (outside_window opts dt = true); [|congruence].
    apply outside_window_spec. left. eauto.
  - intros e Ee Hlt. assert (outside_window opts dt = true); [|congruence].
    apply outside_window_spec. right. eauto.
Qed.

Lemma yielded_records_pass_filters_witness :
  exists k v dt,
    ({[ "Bucket" := "media"; "Key" := "a/new.txt";
        "LastModifiedDate" := "2023-06-01T10:00:00.000000Z";
        "url" := "s3://media/a/new.txt" ]} : gmap string string) !! "Key" = Some k
    /\ Py.endswith k ".txt" = true
    /\ mock_strptime_date v = Some dt
    /\ ~ date_lt dt (Date 2023 3 1).
Proof.
  destruct (yielded_records_pass_filters
              mock_inventory_listing mock_get_object (fun b => Ok b) (fun b => Ok b)
              mock_json_loads mock_strptime_date 2 (Date 2023 6 2) "s3://reports/inv"
              (ScanOptions None (Some ".txt") (Some (Date 2023 3 1)) None "LastModifiedDate")
              [ {[ "Bucket" := "media"; "Key" := "a/new.txt";
                   "LastModifiedDate" := "2023-06-01T10:00:00.000000Z";
                   "url" := "s3://media/a/new.txt" ]} ] Done
              {[ "Bucket" := "media"; "Key" := "a/new.txt";
                 "LastModifiedDate" := "2023-06-01T10:00:00.000000Z";
                 "url" := "s3://media/a/new.txt" ]})
    as (k & v & dt & Hk & _ & Hs & _ & Hd & Hstart & _).
  - by_evaluation.
  - left.
  - exists k, v, dt. split; [exact Hk|]. split; [now apply Hs|].
    split; [exact Hd | now apply Hstart].
Defined.

(** X13. No value of a record that [latest_inventory] yields holds a
    double quote or a comma: every quote of a line is removed and the line
    is cut at every comma, also at a comma between quotes. *)
Theorem yielded_values_without_quotes_or_commas
    (list_objects_v2 : list_request -> result list_response)
    (get_object : string -> string -> result string)
    (gunzip decode_utf8 : string -> result string)
    (json_loads : string -> result manifest)
    (strptime_date : string -> option date)
    (fuel : nat) (today : date) (url : string) (opts : scan_options)
    (ys : list (gmap string string)) (o : outcome)
    (r : gmap string string) (col val : string) :
  latest_inventory list_objects_v2 get_object gunzip decode_utf8 json_loads
    strptime_date fuel today url opts = Some (ys, o) ->
  r ∈ ys ->
  r !! col = Some val ->
  Py.has_char "034" val = false /\ Py.has_char "," val = false.
Proof.
  intros Hrun Hr Hv.
  destruct (latest_inventory_yielded _ _ _ _ _ _ _ _ _ _ _ _ _ Hrun Hr)
    as (parts & mk & m & schema & line & _ & _ & _ & Hl).
  exact (yielded_values_clean _ _ _ _ _ _ _ Hl Hv).
Qed.

Lemma yielded_values_without_quotes_or_commas_witness :
  Py.has_char "034" "s3://media/a/new.txt" = false
  /\ Py.has_char "," "s3://media/a/new.txt" = false.
Proof.
  apply (yielded_values_without_quotes_or_commas
           mock_inventory_listing mock_get_object (fun b => Ok b) (fun b => Ok b)
           mock_json_loads mock_strptime_date 2 (Date 2023 6 2) "s3://reports/inv"
           (ScanOptions None None (Some (Date 2023 3 1)) None "LastModifiedDate")
           [ {[ "Bucket" := "media"; "Key" := "a/new.txt";
                "LastModifiedDate" := "2023-06-01T10:00:00.000000Z";
                "url" := "s3://media/a/new.txt" ]} ] Done
           {[ "Bucket" := "media"; "Key" := "a/new.txt";
              "LastModifiedDate" := "2023-06-01T10:00:00.000000Z";
              "url" := "s3://media/a/new.txt" ]} "url").
  - by_evaluation.
  - left.
  - vm_compute. reflexivity.
Defined.

(** X14. The data files are scanned in the order of the manifest, and an
    error ends the scan: the scan of a list of files is the scan of its
    first part followed, if that one returned, by the scan of the rest;
    if the first part raised, nothing of the rest is read. *)
Theorem scan_files_in_order
    (get_object : string -> string -> result string)
    (gunzip decode_utf8 : string -> result string)
    (strptime_date : string -> option date)
    (bkt : string) (keys : list string) (opts : scan_options)
    (fs1 fs2 : list (option string)) :
  scan_files get_object gunzip decode_utf8 strptime_date bkt keys opts (fs1 ++ fs2)
  = match scan_files get_object gunzip decode_utf8 strptime_date bkt keys opts fs1 with
    | (ys, Done) =>
        let rest :=
          scan_files get_object gunzip decode_utf8 strptime_date bkt keys opts fs2 in
        (ys ++ rest.1, rest.2)
    | (ys, Raised e) => (ys, Raised e)
    end.
Proof. apply scan_files_app. Qed.

(** ** Reader *)

Section ReadFacts.

Lemma drop_dots_cons c s :
  drop_dots (String c s) = if Ascii.eqb c "." then drop_dots s else String c s.
Proof. destruct c as [[] [] [] [] [] [] [] []]; reflexivity. Qed.

Lemma drop_dots_head s c r : drop_dots s = String c r -> Ascii.eqb c "." = false.
Proof.
  induction s as [|a s IH]; [discriminate|]. rewrite drop_dots_cons.
  destruct (Ascii.eqb a ".") eqn:E; [exact IH|]. now intros [= <- _].
Qed.

Lemma drop_dots_split s :
  exists dots, s = dots +:+ drop_dots s /\ string_forallb is_dot dots = true.
Proof.
  induction s as [|a s (dots & IH & Hd)]; [now exists ""|].
  rewrite drop_dots_cons. destruct (Ascii.eqb a ".") eqn:E.
  - exists (String a dots). split; [simpl; now rewrite <- IH|].
    simpl. unfold is_dot at 1. now rewrite E.
  - now exists "".
Qed.

Lemma string_forallb_app f s r :
  string_forallb f (s +:+ r) = string_forallb f s && string_forallb f r.
Proof.
  induction s as [|a s IH]; simpl; [reflexivity|]. rewrite IH. apply andb_assoc.
Qed.

Lemma drop_dots_stem stem ext :
  string_forallb is_dot stem = false ->
  drop_dots (stem +:+ ext) = drop_dots stem +:+ ext.
Proof.
  induction stem as [|a s IH]; [discriminate|].
  change (String a s +:+ ext) with (String a (s +:+ ext)).
  rewrite !drop_dots_cons. cbn [string_forallb]. unfold is_dot at 1.
  destruct (Ascii.eqb a "."); [exact IH | reflexivity].
Qed.

Lemma drop_dots_not_empty stem :
  string_forallb is_dot stem = false -> drop_dots stem <> "".
Proof.
  induction stem as [|a s IH]; [discriminate|].
  rewrite drop_dots_cons. cbn [string_forallb]. unfold is_dot at 1.
  destruct (Ascii.eqb a "."); [exact IH | discriminate].
Qed.

Lemma from_last_dot_gz pre : from_last_dot (pre +:+ ".gz") = Some ".gz".
Proof.
  induction pre as [|a s IH]; [reflexivity|].
  change (String a s +:+ ".gz") with (String a (s +:+ ".gz")).
  cbn [from_last_dot]. now rewrite IH.
Qed.

Lemma from_last_dot_suffix s e : from_last_dot s = Some e -> exists pre, s = pre +:+ e.
Proof.
  revert e. induction s as [|a s IH]; [discriminate|]. intros e. cbn [from_last_dot].
  destruct (from_last_dot s) as [e'|].
  - intros [= <-]. destruct (IH e' eq_refl) as [pre ->]. now exists (String a pre).
  - destruct (Ascii.eqb a "."); [|discriminate]. intros [= <-]. now exists "".
Qed.

(** The extension of a name without a slash is .gz exactly when the name
    is a stem followed by .gz and the stem is not made of dots only. *)
Lemma splitext_gz_iff f :
  Py.has_char "/" f = false ->
  splitext_ext f = ".gz" <->
  exists stem, f = stem +:+ ".gz" /\ string_forallb is_dot stem = false.
Proof.
  intros Hf. unfold splitext_ext. rewrite split_no_sep by exact Hf. cbn [List.last].
  split.
  - destruct (from_last_dot (drop_dots f)) as [e|] eqn:E; [|discriminate].
    simpl. intros ->. apply from_last_dot_suffix in E as [pre E].
    destruct (drop_dots_split f) as (dots & Hsplit & Hdots).
    destruct pre as [|c pre].
    + apply drop_dots_head in E. discriminate.
    + pose proof (drop_dots_head _ _ _ E) as Hc.
      exists (dots +:+ String c pre). split.
      * rewrite append_assoc, <- E. exact Hsplit.
      * rewrite string_forallb_app. cbn [string_forallb]. unfold is_dot at 2.
        rewrite Hc. now rewrite andb_false_r.
  - intros (stem & -> & Hstem). rewrite drop_dots_stem by exact Hstem.
    now rewrite from_last_dot_gz.
Qed.

Lemma filename_no_slash url parts :
  urlparse url = Ok parts -> Py.has_char "/" (filename parts) = false.
Proof.
  intros (b & segs & -> & _ & [Hbs Hns]%Forall_cons)%urlparse_shape.
  cbn [filename]. destruct segs as [|x segs]; [reflexivity|].
  cbn [length Nat.ltb Nat.leb]. rewrite (last_cons_ne b "" (x :: segs)) by discriminate.
  assert (Hin : List.last (x :: segs) "" ∈ x :: segs).
  { apply list_elem_of_In. destruct (List.exists_last (l := x :: segs)) as (l' & a & ->);
      [discriminate|]. rewrite List.last_last. apply List.in_or_app. right. now left. }
  exact (proj1 (Forall_forall _ _) Hns _ Hin).
Qed.

Lemma key_last_piece url parts :
  urlparse url = Ok parts -> List.last (Py.split "/" (key parts)) "" = filename parts.
Proof.
  intros (b & segs & -> & _ & [Hbs Hns]%Forall_cons)%urlparse_shape.
  cbn [key filename]. destruct segs as [|x segs]; [reflexivity|].
  rewrite split_join by (discriminate || assumption).
  cbn [length Nat.ltb Nat.leb]. now rewrite (last_cons_ne b "" (x :: segs)) by discriminate.
Qed.

Lemma splitext_key_filename url parts :
  urlparse url = Ok parts -> splitext_ext (key parts) = splitext_ext (filename parts).
Proof.
  intros Hp. unfold splitext_ext. rewrite (key_last_piece _ _ Hp).
  now rewrite (split_no_sep "/" _ (filename_no_slash _ _ Hp)).
Qed.

End ReadFacts.

(** X15. [read] unzips the body by the name of the object alone, whatever
    the body holds: when the last piece of the key is a stem followed by
    .gz, and the stem is not made of dots only, the body goes through
    gunzip before it is decoded; for every other name (no .gz at the end,
    or a name such as .gz or ..gz) the body is decoded as it is. *)
Theorem read_unzips_by_name
    (get_object : string -> string -> result string)
    (gunzip decode_utf8 : string -> result string)
    (url : string) (parts : locator) (body : string) :
  urlparse url = Ok parts ->
  get_object (bucket parts) (key parts) = Ok body ->
  ((exists stem, filename parts = stem +:+ ".gz" /\ string_forallb is_dot stem = false) ->
   read get_object gunzip decode_utf8 url = (unzipped ← gunzip body; decode_utf8 unzipped))
  /\ ((forall stem, filename parts = stem +:+ ".gz" -> string_forallb is_dot stem = true) ->
      read get_object gunzip decode_utf8 url = decode_utf8 body).
Proof.
  intros Hp Hg. unfold read. rewrite Hp. simpl. rewrite Hg. simpl.
  rewrite (splitext_key_filename _ _ Hp).
  pose proof (splitext_gz_iff _ (filename_no_slash _ _ Hp)) as Hiff.
  split.
  - intros Hgz. apply Hiff in Hgz. rewrite Hgz. reflexivity.
  - intros Hno. destruct (String.eqb_spec (splitext_ext (filename parts)) ".gz") as [E|_];
      [|reflexivity].
    apply Hiff in E as (stem & Es & Hstem). rewrite (Hno stem Es) in Hstem. discriminate.
Qed.

Lemma read_unzips_by_name_witness :
  read (fun _ _ => Ok "zipped") (fun _ => Ok "plain") (fun b => Ok b)
       "s3://bucket/logs/..a.tar.gz" = Ok "plain".
Proof.
  apply (proj1 (read_unzips_by_name (fun _ _ => Ok "zipped") (fun _ => Ok "plain")
                  (fun b => Ok b) "s3://bucket/logs/..a.tar.gz"
                  (Locator "bucket" "logs/..a.tar.gz" "..a.tar.gz") "zipped"
                  ltac:(vm_compute; reflexivity) eq_refl)).
  exists "..a.tar". split; reflexivity.
Defined.

(** ** Request signer *)

Section PresignFacts.

Variable sha256 : string -> string.
Variable hmac_sha256 : string -> string -> string.

Lemma signing_headers_content_type env host amzdate r m p q ct :
  signing_headers env host amzdate (PresignArgs r m p q ct)
  = signing_headers env host amzdate (PresignArgs r m p q None).
Proof. reflexivity. Qed.

Lemma signing_headers_get env host amzdate args :
  let h := signing_headers env host amzdate args in
  dict_get "host" h = Some host
  /\ dict_get "x-amz-content-sha256" h = Some payload_hash
  /\ dict_get "x-amz-date" h = Some amzdate
  /\ dict_get "x-amz-request-payer" h
     = (if requester_pays args then Some "requester" else None)
  /\ dict_get "x-amz-acl" h = (if public args then Some "public-read" else None)
  /\ dict_get "Authorization" h = None
  /\ dict_get "content-type" h = None.
Proof.
  unfold signing_headers.
  destruct (session_token env), (public args), (requester_pays args);
    rewrite ?dict_get_set_ne by discriminate;
    rewrite ?dict_get_set_eq;
    rewrite ?dict_get_set_ne by discriminate;
    repeat split; reflexivity.
Qed.

End PresignFacts.

(** X16. The content type is no part of what is signed: whatever
    [content_type] is given, [get_presigned_url] returns the same URL and
    the same Authorization header as without one, and the content-type
    header it returns is the given value. *)
Theorem content_type_not_signed
    (sha256 : string -> string) (hmac_sha256 : string -> string -> string)
    (env : gmap string string) (now : datetime) (url : string)
    (region : option string) (method : string) (is_public pays : bool)
    (ct : string) :
  let with_ct := get_presigned_url sha256 hmac_sha256 env now url
                   (PresignArgs region method is_public pays (Some ct)) in
  let without := get_presigned_url sha256 hmac_sha256 env now url
                   (PresignArgs region method is_public pays None) in
  authorization_of with_ct = authorization_of without
  /\ (u ← with_ct; Ok u.1) = (u ← without; Ok u.1)
  /\ forall u hdrs, with_ct = Ok (u, Some hdrs) -> dict_get "content-type" hdrs = Some ct.
Proof.
  intros with_ct without. subst with_ct without. unfold get_presigned_url.
  destruct (resolve_access_key env) as [ak|]; [|repeat split; discriminate].
  destruct (resolve_secret_key env) as [sk|]; [|repeat split; discriminate].
  destruct (urlparse url) as [parts|]; [|repeat split; discriminate].
  cbn [mbind result_bind rtype content_type authorization_of fst].
  rewrite !signing_headers_content_type.
  split; [|split].
  - simpl. rewrite dict_get_set_ne by discriminate. now rewrite !dict_get_set_eq.
  - reflexivity.
  - intros u hdrs [= _ <-]. apply dict_get_set_eq.
Qed.

(** X17. What a signed answer holds: the URL is
    https://bucket.s3.amazonaws.com/key, with no region in it; the
    headers give that host, the payload sentinel and the time stamp; the
    request-payer and ACL headers are there exactly when
    [requester_pays] and [public] are set; and the content-type header
    is the [content_type] argument. *)
Theorem presigned_answer_headers
    (sha256 : string -> string) (hmac_sha256 : string -> string -> string)
    (env : gmap string string) (now : datetime) (url : string) (args : presign_args)
    (request_url : string) (hdrs : list (string * string)) :
  get_presigned_url sha256 hmac_sha256 env now url args = Ok (request_url, Some hdrs) ->
  exists parts,
    urlparse url = Ok parts
    /\ request_url = "https://" +:+ bucket parts +:+ ".s3.amazonaws.com/" +:+ key parts
    /\ dict_get "host" hdrs = Some (bucket parts +:+ ".s3.amazonaws.com")
    /\ dict_get "x-amz-content-sha256" hdrs = Some "UNSIGNED-PAYLOAD"
    /\ dict_get "x-amz-date" hdrs = Some (strftime_amz now)
    /\ dict_get "x-amz-request-payer" hdrs
       = (if requester_pays args then Some "requester" else None)
    /\ dict_get "x-amz-acl" hdrs = (if public args then Some "public-read" else None)
    /\ dict_get "content-type" hdrs = content_type args.
Proof.
  intros H.
  destruct (get_presigned_url_inv _ _ _ _ _ _ _ _ H) as (ak & sk & parts & Ha & Hs & Hp).
  rewrite (get_presigned_url_signed _ _ _ _ _ _ _ _ parts Ha Hs Hp) in H.
  injection H as <- <-. exists parts. split; [exact Hp|].
  destruct (signing_headers_get env (host_of parts) (strftime_amz now) args)
    as (Hh & Hc & Hd & Hr & Hacl & Hau & Hct).
  split.
  { unfold host_of, service. now rewrite !append_assoc. }
  assert (Hkeep : forall k,
            k <> "Authorization" -> k <> "content-type" ->
            forall auth,
            dict_get k (match content_type args with
                        | Some ct =>
                            dict_set "content-type" ct
                              (dict_set "Authorization" auth
                                 (signing_headers env (host_of parts) (strftime_amz now) args))
                        | None =>
                            dict_set "Authorization" auth
                              (signing_headers env (host_of parts) (strftime_amz now) args)
                        end)
            = dict_get k (signing_headers env (host_of parts) (strftime_amz now) args)).
  { intros k Hk1 Hk2 auth. destruct (content_type args);
      rewrite ?dict_get_set_ne by assumption; reflexivity. }
  rewrite !Hkeep by discriminate.
  split; [exact Hh|]. split; [exact Hc|]. split; [exact Hd|].
  split; [exact Hr|]. split; [exact Hacl|].
  destruct (content_type args) as [ct|].
  - apply dict_get_set_eq.
  - rewrite dict_get_set_ne by discriminate. exact Hct.
Qed.

Lemma presigned_answer_headers_witness :
  exists request_url hdrs,
    get_presigned_url mock_sha256 mock_hmac_sha256 mock_env mock_now
      "s3://bucket/a/b.txt" (PresignArgs (Some "us-west-2") "PUT" true false (Some "text/csv"))
    = Ok (request_url, Some hdrs)
    /\ request_url = "https://bucket.s3.amazonaws.com/a/b.txt"
    /\ dict_get "x-amz-request-payer" hdrs = None
    /\ dict_get "x-amz-acl" hdrs = Some "public-read"
    /\ dict_get "content-type" hdrs = Some "text/csv".
Proof.
  destruct (get_presigned_url mock_sha256 mock_hmac_sha256 mock_env mock_now
              "s3://bucket/a/b.txt"
              (PresignArgs (Some "us-west-2") "PUT" true false (Some "text/csv")))
    as [[request_url [hdrs|]]|e] eqn:E; [|vm_compute in E; discriminate..].
  exists request_url, hdrs. split; [reflexivity|].
  destruct (presigned_answer_headers _ _ _ _ _ _ _ _ E)
    as (parts & Hp & Hu & _ & _ & _ & Hr & Hacl & Hct).
  vm_compute in Hp. injection Hp as <-.
  split; [exact Hu|]. split; [exact Hr|]. split; [exact Hacl | exact Hct].
Defined.

(** X18. [get_presigned_url] looks at the URL only when it signs: it
    raises exactly when both keys are resolvable and [urlparse] raises on
    the URL, with that error; when a key is missing it raises on no
    string, also on none that is no S3 URL. *)
Theorem presign_raises_iff
    (sha256 : string -> string) (hmac_sha256 : string -> string -> string)
    (env : gmap string string) (now : datetime) (url : string) (args : presign_args)
    (e : exn) :
  get_presigned_url sha256 hmac_sha256 env now url args = Raise e <->
  is_Some (resolve_access_key env) /\ is_Some (resolve_secret_key env)
  /\ urlparse url = Raise e.
Proof.
  unfold get_presigned_url.
  destruct (resolve_access_key env) as [ak|];
    [|split; [discriminate | intros ([x Hx] & _); discriminate]].
  destruct (resolve_secret_key env) as [sk|];
    [|split; [discriminate | intros (_ & [x Hx] & _); discriminate]].
  destruct (urlparse url) as [parts|e']; simpl.
  - split; [discriminate | intros (_ & _ & H); discriminate].
  - split; [intros [= ->]; eauto | intros (_ & _ & [= ->]); reflexivity].
Qed.

(** ** Uploader *)

Section UploadEdges.

Variable open_rb : string -> result string.

Lemma setitem_frame w r k v r' k' :
  r' <> r \/ k' <> k -> deref (setitem w r k v) r' !! k' = deref w r' !! k'.
Proof.
  intros H. destruct (decide (r = r')) as [<-|Hne].
  - destruct H as [H|H]; [congruence|].
    unfold deref at 1, setitem. simpl. rewrite lookup_insert_eq. simpl.
    now rewrite lookup_insert_ne by congruence.
  - now rewrite setitem_other_ref.
Qed.

Lemma no_slash_relative f : Py.has_char "/" f = false -> Py.startswith f "/" = false.
Proof.
  destruct f as [|c f]; [reflexivity|]. cbn [Py.has_char]. intros [Hc _]%orb_false_iff.
  unfold Py.startswith. cbn [String.prefix].
  destruct (ascii_dec "/" c) as [<-|]; [discriminate | reflexivity].
Qed.

(** [os.path.join] of the bucket and the key of a parsed locator puts one
    slash between them. *)
Lemma path_join_locator url parts :
  urlparse url = Ok parts ->
  "s3://" +:+ Py.path_join (bucket parts) (key parts) = s3_uri (bucket parts) (key parts).
Proof.
  intros (Hb & Hbs & Hk)%urlparse_wf. unfold Py.path_join, s3_uri.
  rewrite (key_is_relative _ Hk), (bucket_no_trailing_slash _ Hb Hbs).
  destruct (bucket parts); [congruence | reflexivity].
Qed.

Lemma urlparse_normal_form url parts :
  urlparse url = Ok parts -> urlparse (s3_uri (bucket parts) (key parts)) = Ok parts.
Proof.
  intros (b & segs & -> & [Hb Hne]%Forall_cons & [Hbs Hns]%Forall_cons)%urlparse_shape.
  cbn [bucket key]. destruct segs as [|x segs].
  - now apply urlparse_bucket_only.
  - assert (Hsplit : Py.split "/" (Py.join "/" (x :: segs)) = x :: segs)
      by now apply split_join.
    rewrite urlparse_formatted by (rewrite ?Hsplit; assumption).
    rewrite Hsplit. cbn [length Nat.ltb Nat.leb].
    now rewrite (last_cons_ne b "" (x :: segs)) by discriminate.
Qed.

End UploadEdges.

(** X19. A call of [upload] that raises did so in one of three places.
    In [urlparse]: nothing has changed and the transport was not called.
    When opening the file: the transport was not called, but with
    [public=True] the dictionary the call was given has already received
    ACL = public-read. In the transport: the call was made, with the
    bucket and the key of the URI and the contents of that dictionary,
    and the error is the transport's own. *)
Theorem upload_failure
    (open_rb : string -> result string)
    (upload_fileobj : list put_call -> put_call -> result unit)
    (w w' : world) (fname uri : string) (is_public : bool) (extra : option nat)
    (e : exn) :
  upload open_rb upload_fileobj w fname uri is_public extra = (w', Raise e) ->
  (urlparse uri = Raise e /\ w' = w)
  \/ (exists parts,
        urlparse uri = Ok parts
        /\ let r := default default_extra extra in
           let w1 := if is_public then setitem w r "ACL" "public-read" else w in
           (open_rb fname = Raise e /\ w' = w1)
           \/ (exists data,
                 open_rb fname = Ok data
                 /\ let call := PutCall data (bucket parts) (key parts) (deref w1 r) in
                    upload_fileobj (uploads w) call = Raise e
                    /\ w' = World (heap w1) (uploads w ++ [call]))).
Proof.
  intros H. destruct (urlparse uri) as [parts|e'] eqn:Hp.
  - right. exists parts. split; [reflexivity|]. cbv zeta.
    destruct (open_rb fname) as [data|e''] eqn:Ho.
    + right. exists data. split; [reflexivity|].
      rewrite (upload_sends open_rb upload_fileobj w fname uri is_public extra
                 parts data Hp Ho) in H.
      cbv zeta in H. injection H as <- H.
      destruct (upload_fileobj _ _) as [|e3]; [discriminate|].
      injection H as <-. split; reflexivity.
    + left. unfold upload in H. rewrite Hp, Ho in H. injection H as <- <-.
      split; reflexivity.
  - left. unfold upload in H. rewrite Hp in H. injection H as <- <-. split; reflexivity.
Qed.

Lemma upload_failure_witness :
  let w' :=
    World (heap (setitem initial_world default_extra "ACL" "public-read"))
      [PutCall "a,b,c" "locked" "a" {[ "ACL" := "public-read" ]}] in
  (urlparse "s3://locked/a" = Raise (ClientError "AccessDenied") /\ w' = initial_world)
  \/ (exists parts,
        urlparse "s3://locked/a" = Ok parts
        /\ let r := default default_extra None in
           let w1 := if true then setitem initial_world r "ACL" "public-read"
                     else initial_world in
           (mock_open_rb "report.csv" = Raise (ClientError "AccessDenied") /\ w' = w1)
           \/ (exists data,
                 mock_open_rb "report.csv" = Ok data
                 /\ let call := PutCall data (bucket parts) (key parts) (deref w1 r) in
                    mock_upload_fileobj (uploads initial_world) call
                    = Raise (ClientError "AccessDenied")
                    /\ w' = World (heap w1) (uploads initial_world ++ [call]))).
Proof.
  intros w'.
  apply (upload_failure mock_open_rb mock_upload_fileobj initial_world w' "report.csv"
           "s3://locked/a" true None (ClientError "AccessDenied")).
  vm_compute. reflexivity.
Defined.

(** X20. [upload] writes to one entry of one dictionary at most: apart
    from the entry ACL of the dictionary it was given (the default one
    when [extra] is omitted), every entry of every dictionary is after
    the call what it was before, whether the call returns or raises;
    without [public] no dictionary changes. *)
Theorem upload_frame
    (open_rb : string -> result string)
    (upload_fileobj : list put_call -> put_call -> result unit)
    (w : world) (fname uri : string) (is_public : bool) (extra : option nat)
    (r : nat) (k : string) :
  r <> default default_extra extra \/ k <> "ACL" ->
  deref (upload open_rb upload_fileobj w fname uri is_public extra).1 r !! k
  = deref w r !! k
  /\ (is_public = false ->
      heap (upload open_rb upload_fileobj w fname uri is_public extra).1 = heap w).
Proof.
  intros H. unfold upload. destruct (urlparse uri) as [parts|]; [|split; reflexivity].
  assert (Hw : deref (if is_public
                      then setitem w (default default_extra extra) "ACL" "public-read"
                      else w) r !! k = deref w r !! k).
  { destruct is_public; [now apply setitem_frame | reflexivity]. }
  destruct (open_rb fname); cbv zeta; [destruct (upload_fileobj _ _)|];
    cbn [fst]; (split; [exact Hw | now intros ->]).
Qed.

Lemma upload_frame_witness :
  let w := setitem initial_world 7 "ContentType" "text/csv" in
  deref (upload mock_open_rb mock_upload_fileobj w "report.csv" "s3://bucket/a" true
           (Some 7)).1 7 !! "ContentType"
  = deref w 7 !! "ContentType"
  /\ (true = false ->
      heap (upload mock_open_rb mock_upload_fileobj w "report.csv" "s3://bucket/a" true
              (Some 7)).1 = heap w).
Proof.
  intros w.
  apply (upload_frame mock_open_rb mock_upload_fileobj w "report.csv" "s3://bucket/a"
           true (Some 7) 7 "ContentType").
  right. discriminate.
Defined.

(** X21. The URI that [upload] returns names the object it has sent: it
    is s3://bucket/key for the bucket and the key of the call received by
    the transport, and [urlparse] reads it back as the locator of the URI
    given, whatever slashes that one had. *)
Theorem upload_returns_sent_uri
    (open_rb : string -> result string)
    (upload_fileobj : list put_call -> put_call -> result unit)
    (w w' : world) (fname uri : string) (is_public : bool) (extra : option nat)
    (uri_out : string) :
  upload open_rb upload_fileobj w fname uri is_public extra = (w', Ok uri_out) ->
  exists parts sent,
    urlparse uri = Ok parts
    /\ uploads w' = uploads w ++ [sent]
    /\ uri_out = s3_uri (put_bucket sent) (put_key sent)
    /\ urlparse uri_out = Ok parts.
Proof.
  intros H. destruct (urlparse uri) as [parts|e] eqn:Hp;
    [|unfold upload in H; rewrite Hp in H; discriminate].
  destruct (open_rb fname) as [data|e] eqn:Ho;
    [|unfold upload in H; rewrite Hp, Ho in H; discriminate].
  rewrite (upload_sends open_rb upload_fileobj w fname uri is_public extra
             parts data Hp Ho) in H.
  cbv zeta in H. injection H as <- H.
  destruct (upload_fileobj _ _); [|discriminate]. injection H as <-.
  eexists parts, _. split; [reflexivity|].
  split; [reflexivity|]. cbn [put_bucket put_key].
  split; [exact (path_join_locator _ _ Hp)|].
  pose proof (urlparse_normal_form _ _ Hp) as Hn.
  rewrite <- (path_join_locator _ _ Hp) in Hn. exact Hn.
Qed.

Lemma upload_returns_sent_uri_witness :
  exists parts sent,
    urlparse "s3://bucket//a///b.csv" = Ok parts
    /\ uploads (upload mock_open_rb mock_upload_fileobj initial_world "report.csv"
                  "s3://bucket//a///b.csv" false None).1
       = uploads initial_world ++ [sent]
    /\ "s3://bucket/a/b.csv" = s3_uri (put_bucket sent) (put_key sent)
    /\ urlparse "s3://bucket/a/b.csv" = Ok parts.
Proof.
  apply (upload_returns_sent_uri mock_open_rb mock_upload_fileobj initial_world _
           "report.csv" "s3://bucket//a///b.csv" false None "s3://bucket/a/b.csv").
  reflexivity.
Defined.

(** ** Existence check *)

(** X22. [exists] answers False only for a URL that parses and an object
    for which the service raises a ClientError with code 404; it raises
    exactly when [urlparse] raises, when the service raises a ClientError
    with another code, or when the service raises anything else. *)
Theorem exists_false_only_on_404
    (head_object : string -> string -> head_outcome) (url : string) :
  (exists_ head_object url = Ok false <->
   exists parts,
     urlparse url = Ok parts
     /\ head_object (bucket parts) (key parts) = HeadClientError "404")
  /\ (forall e,
        exists_ head_object url = Raise e <->
        urlparse url = Raise e
        \/ exists parts,
             urlparse url = Ok parts
             /\ (head_object (bucket parts) (key parts) = HeadRaises e
                 \/ exists code,
                      code <> "404" /\ e = ClientError code
                      /\ head_object (bucket parts) (key parts) = HeadClientError code)).
Proof.
  unfold exists_. destruct (urlparse url) as [parts|e0]; simpl.
  - destruct (head_object (bucket parts) (key parts)) as [|code|e1] eqn:Eh.
    + split; [split; [discriminate | intros (p & [= <-] & H); congruence]|].
      intros e. split; [discriminate|].
      intros [H | (p & [= <-] & [H | (code & _ & _ & H)])]; congruence.
    + destruct (String.eqb_spec code "404") as [->|Hne]; simpl.
      * split; [split; [intros _; now exists parts | reflexivity]|].
        intros e. split; [discriminate|].
        intros [H | (p & [= <-] & [H | (code & Hc & _ & H)])]; congruence.
      * split; [split; [discriminate | intros (p & [= <-] & H); congruence]|].
        intros e. split.
        -- intros [= <-]. right. exists parts. split; [reflexivity|]. right. now exists code.
        -- intros [H | (p & [= <-] & [H | (code' & Hc & -> & H)])]; congruence.
    + split; [split; [discriminate | intros (p & [= <-] & H); congruence]|].
      intros e. split.
      * intros [= <-]. right. exists parts. split; [reflexivity|]. now left.
      * intros [H | (p & [= <-] & [H | (code & _ & _ & H)])]; congruence.
  - split; [split; [discriminate | intros (p & H & _); discriminate]|].
    intros e. split; [intros [= <-]; now left|].
    intros [[= <-] | (p & H & _)]; [reflexivity | discriminate].
Qed.

(** ** Downloader *)

(** X23. The file that [download] writes lies directly in the directory
    [path] and is named after the last piece of the key: the other pieces
    of the key make no directories, and the name has no slash that could
    lead elsewhere. A call that returns has made the directory (unless
    [path] is empty), opened that file and transferred the object into
    it, in this order and nothing else. *)
Theorem download_target
    (makedirs open_wb : string -> result unit)
    (download_fileobj : string -> string -> string -> result unit)
    (uri path : string) (calls : list fs_event) (fout : string) :
  download makedirs open_wb download_fileobj uri path = (calls, Ok fout) ->
  exists parts,
    urlparse uri = Ok parts
    /\ Py.has_char "/" (filename parts) = false
    /\ fout = (if String.eqb path "" then ""
               else if Py.endswith path "/" then path else path +:+ "/")
              +:+ filename parts
    /\ calls = (if String.eqb path "" then [] else [Makedirs path])
               ++ [OpenWrite fout; DownloadFileobj (bucket parts) (key parts) fout].
Proof.
  unfold download. destruct (urlparse uri) as [parts|] eqn:Hp; [|discriminate].
  pose proof (filename_no_slash _ _ Hp) as Hf.
  destruct (if negb (String.eqb path "") then makedirs path else Ok tt);
    [|discriminate].
  destruct (open_wb _); [|discriminate].
  destruct (download_fileobj _ _ _); [|discriminate].
  intros [= <- <-]. exists parts. split; [reflexivity|]. split; [exact Hf|].
  assert (Hj : Py.path_join path (filename parts)
               = (if String.eqb path "" then ""
                  else if Py.endswith path "/" then path else path +:+ "/")
                 +:+ filename parts).
  { unfold Py.path_join. rewrite (no_slash_relative _ Hf).
    destruct path as [|c path]; [reflexivity|].
    cbn [Py.truthy negb orb String.eqb].
    destruct (Py.endswith (String c path) "/"); [reflexivity|].
    now rewrite append_assoc. }
  split; [exact Hj|]. now destruct (String.eqb path "").
Qed.

Lemma download_target_witness :
  exists parts,
    urlparse "s3://bucket/a/b/c.tif" = Ok parts
    /\ Py.has_char "/" (filename parts) = false
    /\ "out/c.tif" = (if String.eqb "out" "" then ""
                      else if Py.endswith "out" "/" then "out" else "out" +:+ "/")
                     +:+ filename parts
    /\ [Makedirs "out"; OpenWrite "out/c.tif"; DownloadFileobj "bucket" "a/b/c.tif" "out/c.tif"]
       = (if String.eqb "out" "" then [] else [Makedirs "out"])
         ++ [OpenWrite "out/c.tif";
             DownloadFileobj (bucket parts) (key parts) "out/c.tif"].
Proof.
  apply (download_target (fun _ => Ok tt) (fun _ => Ok tt) (fun _ _ _ => Ok tt)
           "s3://bucket/a/b/c.tif" "out").
  reflexivity.
Defined.
